(** * Krishna Dudh vehicle-route timetable: a shallow embedding of [app.py]

    The development follows the script: the spreadsheet columns, the
    pre-assignment of holidays, the block loop of
    [generate_block_timetable], [generate_summary], and the tail of the
    button handler that removes the temporary PDF file.

    Python values are modelled as follows.
    - integers (days, years, months) are [Z]; list positions are [nat];
    - the timetable is built from a sheet whose route names and vehicle
      numbers are text: they are [string]s; an empty cell (NaN) is [None]
      and is dropped by [dropna];
    - [generate_summary], the colours of the PDF boxes and the tail of the
      handler apply the [in] operator to vehicle cells and block labels,
      which raises [TypeError] unless both are text: there a value is a
      [cell], text or number;
    - the [holidays] dictionary is only ever read by key, it is a
      [gmap string (list Z)];
    - the [timetable_blocks] dictionary is iterated in insertion order, it is
      an association list with Python's assignment semantics;
    - exceptions are values of [exn], computations that may raise live in
      [result]. *)

From Stdlib Require Import ZArith Lia.
From stdpp Require Import base list list_numbers strings gmap.

Local Open Scope string_scope.
Local Open Scope list_scope.
Local Open Scope Z_scope.

(** ** Exceptions and the error monad *)

(** The exception classes the script can meet.  [OSError] carries its
    [errno]; it is what [os.remove] raises when the deletion fails. *)
Inductive exn : Type :=
  | IllegalMonthError
  | ZeroDivisionError
  | IndexError
  | KeyError
  | TypeError
  | OSError (errno : Z)
  | KeyboardInterrupt.

(** [isinstance(e, Exception)]: every class above derives from [Exception]
    except [KeyboardInterrupt], which derives from [BaseException] only. *)
Definition isinstance_Exception (e : exn) : bool :=
  match e with
  | KeyboardInterrupt => false
  | _ => true
  end.

Inductive result (A : Type) : Type :=
  | Ok (a : A)
  | Raise (e : exn).
Arguments Ok {A} a.
Arguments Raise {A} e.

#[global] Instance result_ret : MRet result := λ A a, Ok a.
#[global] Instance result_bind : MBind result := λ A B f r,
  match r with
  | Ok a => f a
  | Raise e => Raise e
  end.

(** A [for] loop whose body may raise: the state is threaded from left to
    right and the first exception leaves the loop. *)
Fixpoint for_each {S X : Type} (body : S → X → result S) (s : S) (xs : list X)
  : result S :=
  match xs with
  | [] => Ok s
  | x :: xs' => s' ← body s x; for_each body s' xs'
  end.

(** [try: body  except Exception: pass] *)
Definition try_except_pass (body : result ()) : result () :=
  match body with
  | Ok u => Ok u
  | Raise e => if isinstance_Exception e then Ok () else Raise e
  end.

(** ** Python primitives *)

(** [range(a, b)] *)
Definition range (a b : Z) : list Z := seqZ a (b - a).

(** [enumerate(xs)] *)
Definition enumerate {A : Type} (xs : list A) : list (nat * A) :=
  zip (seq 0 (length xs)) xs.

(** [xs[i]] for a non-negative position [i] *)
Definition list_get {A : Type} (xs : list A) (i : nat) : result A :=
  match xs !! i with
  | Some x => Ok x
  | None => Raise IndexError
  end.

(** [a % b] on non-negative integers *)
Definition py_mod (a b : nat) : result nat :=
  match b with
  | O => Raise ZeroDivisionError
  | _ => Ok (a mod b)%nat
  end.

(** [d[k]] on a dictionary that is read by key only *)
Definition dict_get {V : Type} (d : gmap string V) (k : string) : result V :=
  match d !! k with
  | Some v => Ok v
  | None => Raise KeyError
  end.

(** [sub in s] on strings *)
Fixpoint contains (sub s : string) : bool :=
  String.prefix sub s ||
  match s with
  | EmptyString => false
  | String _ s' => contains sub s'
  end.

(** *** Insertion-ordered dictionaries *)

Module PyDict.
Section dict.
Context {V : Type}.

Definition t : Type := list (string * V).

Definition empty : t := [].

(** [d[k] = v]: an existing key keeps its position and takes the new
    value, a new key goes to the end. *)
Fixpoint set (k : string) (v : V) (d : t) : t :=
  match d with
  | [] => [(k, v)]
  | (k', v') :: d' =>
      if String.eqb k' k then (k', v) :: d' else (k', v') :: set k v d'
  end.

Fixpoint get (k : string) (d : t) : option V :=
  match d with
  | [] => None
  | (k', v') :: d' => if String.eqb k' k then Some v' else get k d'
  end.

(** [d.values()] and [d.items()] *)
Definition values (d : t) : list V := d.*2.
Definition items (d : t) : list (string * V) := d.
End dict.
Arguments t : clear implicits.
End PyDict.

(** *** [calendar.monthrange] *)

Definition isleap (year : Z) : bool :=
  (year mod 4 =? 0) && (negb (year mod 100 =? 0) || (year mod 400 =? 0)).

Definition mdays : list Z := [0; 31; 28; 31; 30; 31; 30; 31; 31; 30; 31; 30; 31].

(** Second component of [calendar.monthrange(year, month)]: the number of
    days of the month. *)
Definition monthrange_days (year month : Z) : result Z :=
  if (1 <=? month) && (month <=? 12) then
    Ok (mdays !!! Z.to_nat month
        + (if (month =? 2) && isleap year then 1 else 0))
  else Raise IllegalMonthError.

(** ** The data model *)

(** The uploaded spreadsheet, reduced to the two columns the script reads. *)
Record dataframe : Type := {
  RUTE_NAME : list (option string);
  GADI_NUMBER : list (option string)
}.

(** [column.dropna().tolist()] *)
Definition dropna {A : Type} (column : list (option A)) : list A :=
  omap id column.

(** A cell of the sheet as a Python value: a text cell is a [str], a
    numeric cell is a number (an [int] here; a [float] differs by its
    value only, which none of the operations below looks at). *)
Inductive cell : Type :=
  | Text (s : string)
  | Number (n : Z).

Definition is_text (c : cell) : bool :=
  match c with
  | Text _ => true
  | Number _ => false
  end.

(** A column of text cells, as Python values. *)
Definition column_cells (column : list (option string))
  : list (option cell) :=
  (λ c : option string, Text <$> c) <$> column.

(** One entry of a route's block list:
    [{"start": ..., "end": ..., "vehicle": ...}]. *)
Record block : Type := {
  start : Z;
  end_ : Z;
  vehicle : string
}.

#[global] Instance block_eq_dec : EqDecision block.
Proof. solve_decision. Defined.

(** A block as [generate_summary] and the PDF receive it: the label of a
    day on which the regular vehicle runs is the vehicle's own cell, text
    or number; the label of a holiday is text. *)
Record pyblock : Type := {
  py_start : Z;
  py_end : Z;
  py_vehicle : cell
}.

(** The blocks built from a sheet of text cells, as Python values. *)
Definition py_block (b : block) : pyblock :=
  {| py_start := start b; py_end := end_ b; py_vehicle := Text (vehicle b) |}.

(** One row of the summary table. *)
Record summary_row : Type := {
  Vehicle : cell;
  Working_Days : Z;
  Holidays : Z
}.

(** ** Holiday pre-assignment (lines 27-32) *)

(** The [while] loop of the pre-assignment.  [hs] is [holidays[v]]; every
    turn appends one day, so five turns always suffice
    (see [holiday_while_fuel]). *)
Fixpoint holiday_while (fuel : nat) (hs : list Z) (day days_in_month : Z)
  : list Z :=
  match fuel with
  | O => hs
  | S fuel' =>
      if (length hs <? 5)%nat && (day <=? days_in_month) then
        holiday_while fuel' (hs ++ [day]) (day + 6) days_in_month
      else hs
  end.

(** [{v: [] for v in fixed_vehicles}] *)
Definition empty_holidays (fixed_vehicles : list string)
  : gmap string (list Z) :=
  foldl (λ d v, <[v := []]> d) ∅ fixed_vehicles.

(** Body of [for i, v in enumerate(fixed_vehicles)]. *)
Definition holiday_body (days_in_month : Z) (holidays : gmap string (list Z))
    (iv : nat * string) : result (gmap string (list Z)) :=
  let '(i, v) := iv in
  let day := Z.of_nat (i mod 5) + 6 in
  hs ← dict_get holidays v;
  Ok (<[v := holiday_while 5 hs day days_in_month]> holidays).

Definition assign_holidays (fixed_vehicles : list string) (days_in_month : Z)
  : result (gmap string (list Z)) :=
  for_each (holiday_body days_in_month) (empty_holidays fixed_vehicles)
           (enumerate fixed_vehicles).

(** ** The block loop (lines 34-63) *)

(** The variables the loop over the days updates.  [backup_index] is the
    one counter of the whole function; the others are reset for each
    route. *)
Record loop_state : Type := {
  blocks : list block;
  start_day : Z;
  current_vehicle : string;
  backup_index : nat
}.

Section block_loop.
Variable holidays : gmap string (list Z).
Variable fixed_vehicles backup_vehicles : list string.
Variable days_in_month : Z.

(** Lines 45-49: the vehicle assigned to [day] and the next value of
    [backup_index]. *)
Definition assign_vehicle (route_vehicle : string) (backup_index : nat)
    (day : Z) : result (string * nat) :=
  hs ← dict_get holidays route_vehicle;
  if bool_decide (day ∈ hs) then
    b ← list_get backup_vehicles backup_index;
    next ← py_mod (backup_index + 1) (length backup_vehicles);
    Ok (b +:+ " (H)", next)
  else Ok (route_vehicle, backup_index).

(** Body of [for day in range(1, days_in_month + 1)]. *)
Definition day_body (route_vehicle : string) (st : loop_state) (day : Z)
  : result loop_state :=
  '(assigned_vehicle, next) ← assign_vehicle route_vehicle (backup_index st) day;
  let st1 :=
    if bool_decide (assigned_vehicle ≠ current_vehicle st) then
      {| blocks := blocks st ++ [ {| start := start_day st;
                                     end_ := day - 1;
                                     vehicle := current_vehicle st |} ];
         start_day := day;
         current_vehicle := assigned_vehicle;
         backup_index := next |}
    else
      {| blocks := blocks st;
         start_day := start_day st;
         current_vehicle := current_vehicle st;
         backup_index := next |} in
  if bool_decide (day = days_in_month) then
    Ok {| blocks := blocks st1 ++ [ {| start := start_day st1;
                                       end_ := day;
                                       vehicle := current_vehicle st1 |} ];
          start_day := start_day st1;
          current_vehicle := current_vehicle st1;
          backup_index := backup_index st1 |}
  else Ok st1.

(** The variables at the top of the loop over the days. *)
Definition route_start (route_vehicle : string) (backup_index : nat)
  : loop_state :=
  {| blocks := [];
     start_day := 1;
     current_vehicle := route_vehicle;
     backup_index := backup_index |}.

(** Body of [for r_idx, route in enumerate(routes)]; the state is
    [(timetable_blocks, backup_index)]. *)
Definition route_body (acc : PyDict.t (list block) * nat)
    (r : nat * string) : result (PyDict.t (list block) * nat) :=
  let '(timetable_blocks, backup_index0) := acc in
  let '(r_idx, route) := r in
  pos ← py_mod r_idx (length fixed_vehicles);
  route_vehicle ← list_get fixed_vehicles pos;
  st ← for_each (day_body route_vehicle)
                (route_start route_vehicle backup_index0)
                (range 1 (days_in_month + 1));
  Ok (PyDict.set route (blocks st) timetable_blocks, backup_index st).
End block_loop.

Definition routes_of (data : dataframe) : list string :=
  dropna (RUTE_NAME data).
Definition vehicles_of (data : dataframe) : list string :=
  dropna (GADI_NUMBER data).
Definition fixed_vehicles_of (data : dataframe) : list string :=
  take (length (routes_of data)) (vehicles_of data).
Definition backup_vehicles_of (data : dataframe) : list string :=
  drop (length (routes_of data)) (vehicles_of data).

(** The loop over the routes, started from an empty timetable and
    [backup_index = 0]. *)
Definition route_loop (data : dataframe) (holidays : gmap string (list Z))
    (days_in_month : Z) (routes : list (nat * string))
  : result (PyDict.t (list block) * nat) :=
  for_each (route_body holidays (fixed_vehicles_of data)
                       (backup_vehicles_of data) days_in_month)
           (PyDict.empty, 0%nat) routes.

Definition generate_block_timetable (data : dataframe) (year month : Z)
  : result (PyDict.t (list block)) :=
  let routes := routes_of data in
  let fixed_vehicles := fixed_vehicles_of data in
  days_in_month ← monthrange_days year month;
  holidays ← assign_holidays fixed_vehicles days_in_month;
  '(timetable_blocks, _) ← route_loop data holidays days_in_month
                                      (enumerate routes);
  Ok timetable_blocks.

(** The timetable of a sheet of text cells, as Python values. *)
Definition py_timetable (timetable_blocks : PyDict.t (list block))
  : PyDict.t (list pyblock) :=
  (λ entry : string * list block, (entry.1, py_block <$> entry.2))
  <$> PyDict.items timetable_blocks.

(** ** The summary (lines 65-79) *)

(** [x in s]: defined when [s] and [x] are both [str]; a number on either
    side raises [TypeError]. *)
Definition py_in (x s : cell) : result bool :=
  match x, s with
  | Text x, Text s => Ok (contains x s)
  | _, _ => Raise TypeError
  end.

(** Lines 75-76: what one block adds to [work_days].  The right operand of
    [and] is evaluated only when the left one is true. *)
Definition block_work (v : cell) (b : pyblock) : result Z :=
  inside ← py_in v (py_vehicle b);
  if inside : bool then
    marked ← py_in (Text "(H)") (py_vehicle b);
    Ok (if negb marked then py_end b - py_start b + 1 else 0)
  else Ok 0.

(** Lines 72-76: the two loops over the timetable for one vehicle. *)
Definition work_days (timetable_blocks : PyDict.t (list pyblock)) (v : cell)
  : result Z :=
  for_each (λ acc route_blocks,
              for_each (λ acc' b, w ← block_work v b; Ok (acc' + w))
                       acc route_blocks)
           0 (PyDict.values timetable_blocks).

(** The keys of [timetable_blocks] are not read. *)
Definition generate_summary (timetable_blocks : PyDict.t (list pyblock))
    (fixed_vehicles : list cell) (days_in_month : Z)
  : result (list summary_row) :=
  for_each (λ summary v,
              w ← work_days timetable_blocks v;
              Ok (summary ++ [ {| Vehicle := v;
                                  Working_Days := w;
                                  Holidays := days_in_month - w |} ]))
           [] fixed_vehicles.

(** The vehicles the button handler passes to [generate_summary]
    (line 231): [data['GADI_NUMBER'].dropna().tolist()[:14]]. *)
Definition summary_vehicles (GADI_NUMBER : list (option cell)) : list cell :=
  take 14 (dropna GADI_NUMBER).


(** ** The button handler once the PDF bytes have been read
    (lines 221-237) *)

(** What the page shows.  The payloads of the two download buttons are
    produced by the PDF and CSV libraries from the values recorded here. *)
Inductive ui_event : Type :=
  | PdfDownloadButton
  | SummarySubheader
  | SummaryDataframe (summary : list summary_row)
  | CsvDownloadButton (summary : list summary_row).

(** [os.remove(tmp_file.name)]: the file system either deletes the file or
    refuses with an [OSError] whose [errno] is [failure]. *)
Definition os_remove (failure : option Z) : result () :=
  match failure with
  | None => Ok ()
  | Some errno => Raise (OSError errno)
  end.

(** A run of the handler: the widgets shown so far and the exception that
    ended it, if any. *)
Record run : Type := {
  shown : list ui_event;
  escaped : option exn
}.

(** [GADI_NUMBER] is the vehicle column of the uploaded sheet.  The
    summary is computed (line 232) before its subheader is shown
    (line 233). *)
Definition after_pdf_read (GADI_NUMBER : list (option cell))
    (timetable_blocks : PyDict.t (list pyblock)) (days_in_month : Z)
    (failure : option Z) : run :=
  let shown0 := [PdfDownloadButton] in
  match try_except_pass (os_remove failure) with
  | Raise e => {| shown := shown0; escaped := Some e |}
  | Ok _ =>
      let fixed_vehicles := summary_vehicles GADI_NUMBER in
      match generate_summary timetable_blocks fixed_vehicles days_in_month with
      | Raise e => {| shown := shown0; escaped := Some e |}
      | Ok summary =>
          {| shown := shown0 ++ [SummarySubheader; SummaryDataframe summary;
                                 CsvDownloadButton summary];
             escaped := None |}
      end
  end.

(** ** Vocabulary of the properties *)

(** Block [b] covers day [d]. *)
Definition covers (b : block) (d : Z) : Prop := start b ≤ d ≤ end_ b.

(** The label carries the holiday marker, as the script tests it
    (["(H)" in block['vehicle']]). *)
Definition carries_marker (label : string) : bool := contains "(H)" label.

(** The label the holiday branch builds from a backup vehicle. *)
Definition holiday_label (b : string) : string := b +:+ " (H)".

(** The regular vehicle of the route at position [r_idx]. *)
Definition regular_vehicle (fixed_vehicles : list string) (r_idx : nat)
  : option string :=
  fixed_vehicles !! (r_idx mod length fixed_vehicles)%nat.

(** The holiday list of the regular vehicle of route [r_idx] ([[]] when the
    position or the key does not exist). *)
Definition route_holidays (holidays : gmap string (list Z))
    (fixed_vehicles : list string) (r_idx : nat) : list Z :=
  default [] (v ← regular_vehicle fixed_vehicles r_idx; holidays !! v).

(** Number of days of [hs] among [1 .. d - 1]. *)
Definition holiday_days_before (hs : list Z) (d : Z) : nat :=
  length (filter (λ e, e ∈ hs) (range 1 d)).

(** Number of holiday substitutions that the loops perform in the routes
    before position [r_idx]. *)
Definition substitutions_in_routes_before (holidays : gmap string (list Z))
    (fixed_vehicles : list string) (days_in_month : Z) (r_idx : nat) : nat :=
  sum_list_with (λ j, holiday_days_before
                        (route_holidays holidays fixed_vehicles j)
                        (days_in_month + 1))
                (seq 0 r_idx).

(** Rank (from 0) of the substitution of route [r_idx] on day [d] in
    route-then-day order. *)
Definition substitution_rank (holidays : gmap string (list Z))
    (fixed_vehicles : list string) (days_in_month : Z) (r_idx : nat) (d : Z)
  : nat :=
  (substitutions_in_routes_before holidays fixed_vehicles days_in_month r_idx
   + holiday_days_before (route_holidays holidays fixed_vehicles r_idx) d)%nat.

(** [bs] is the block list the returned timetable holds for the route of
    iteration [r_idx]: no later iteration assigns the same route name. *)
Definition emitted_for (routes : list string) (tt : PyDict.t (list block))
    (r_idx : nat) (bs : list block) : Prop :=
  ∃ route, routes !! r_idx = Some route
           ∧ (route ∉ drop (S r_idx) routes)
           ∧ PyDict.get route tt = Some bs.

(** [bs] is the block list the returned timetable holds under the name of
    the route at position [r_idx], whether or not the name is entered
    again further down. *)
Definition entry_for (routes : list string) (tt : PyDict.t (list block))
    (r_idx : nat) (bs : list block) : Prop :=
  ∃ route, routes !! r_idx = Some route ∧ PyDict.get route tt = Some bs.

(** The blocks come in increasing day order, each one is a non-empty range,
    and each one starts the day after the previous one ends. *)
Definition increasing_without_gap (bs : list block) : Prop :=
  (∀ b, b ∈ bs → start b ≤ end_ b)
  ∧ (∀ i b b', bs !! i = Some b → bs !! S i = Some b' →
               start b' = end_ b + 1).

(** Every day [1 .. N] lies in exactly one block. *)
Definition each_day_once (bs : list block) (N : Z) : Prop :=
  ∀ d, 1 ≤ d ≤ N →
    ∃ i b, bs !! i = Some b ∧ covers b d
           ∧ ∀ j b', bs !! j = Some b' → covers b' d → j = i.

Definition first_day_to_last_day (bs : list block) (N : Z) : Prop :=
  (∃ b, head bs = Some b ∧ start b = 1) ∧ (∃ b, last bs = Some b ∧ end_ b = N).

(** No two neighbours of the list are equal. *)
Fixpoint alternating (labels : list string) : Prop :=
  match labels with
  | x :: (y :: _) as rest => x ≠ y ∧ alternating rest
  | _ => True
  end.

(** The blocks [bs] are laid end to end from day [lo] to day [hi]. *)
Fixpoint tiles (lo : Z) (bs : list block) (hi : Z) : Prop :=
  match bs with
  | [] => lo = hi + 1
  | b :: bs' => start b = lo ∧ start b ≤ end_ b ∧ tiles (end_ b + 1) bs' hi
  end.

(** The label the loop gives to day [d] of a route whose regular vehicle is
    [route_vehicle] with holidays [hs], when [done] substitutions were made
    before the route was started. *)
Definition day_label (backup_vehicles : list string) (route_vehicle : string)
    (hs : list Z) (done : nat) (d : Z) : option string :=
  if bool_decide (d ∈ hs) then
    holiday_label <$>
      backup_vehicles !! ((done + holiday_days_before hs d)
                          mod length backup_vehicles)%nat
  else Some route_vehicle.

(** What one route's block list looks like. *)
Record route_spec (backup_vehicles : list string) (route_vehicle : string)
    (hs : list Z) (done : nat) (N : Z) (bs : list block) : Prop := {
  rs_tiles : tiles 1 bs N;
  rs_label : ∀ b d, b ∈ bs → covers b d →
             day_label backup_vehicles route_vehicle hs done d
             = Some (vehicle b);
  rs_alternating : alternating (vehicle <$> bs)
}.

(** The state of the loop over the days after day [n], before the closing
    block of the last day is appended. *)
Record open_inv (backup_vehicles : list string) (route_vehicle : string)
    (hs : list Z) (done : nat) (n : Z) (st : loop_state) : Prop := {
  oi_tiles : tiles 1 (blocks st) (start_day st - 1);
  oi_start : 1 ≤ start_day st ≤ Z.max n 1;
  oi_first : n = 0 → current_vehicle st = route_vehicle;
  oi_current : ∀ d, start_day st ≤ d ≤ n →
               day_label backup_vehicles route_vehicle hs done d
               = Some (current_vehicle st);
  oi_label : ∀ b d, b ∈ blocks st → covers b d →
             day_label backup_vehicles route_vehicle hs done d
             = Some (vehicle b);
  oi_alternating :
    alternating ((vehicle <$> blocks st) ++ [current_vehicle st]);
  oi_index : backup_index st
             = ((done + holiday_days_before hs (n + 1))
                mod length backup_vehicles)%nat
}.

(** The closing block of line 59. *)
Definition close_month (st : loop_state) (day : Z) : loop_state :=
  {| blocks := blocks st ++ [ {| start := start_day st;
                                 end_ := day;
                                 vehicle := current_vehicle st |} ];
     start_day := start_day st;
     current_vehicle := current_vehicle st;
     backup_index := backup_index st |}.

(** The days the rule gives to the fixed vehicle at position [i] when it
    receives [K] holidays: [(i mod 5) + 6], [(i mod 5) + 12], ... *)
Definition holiday_rule (i K : nat) : list Z :=
  (λ k, Z.of_nat (i mod 5) + 6 * (Z.of_nat k + 1)) <$> seq 0 K.

(** The dictionary [h] after the pre-assignment loop has treated the
    vehicles [done] of [fixed_vehicles]. *)
Record holidays_inv (fixed_vehicles : list string) (N : Z)
    (done : list string) (h : gmap string (list Z)) : Prop := {
  hi_dom : ∀ v, v ∈ fixed_vehicles → is_Some (h !! v);
  hi_bounds : ∀ v hs, h !! v = Some hs →
              (length hs ≤ 5)%nat ∧ ∀ d, d ∈ hs → 6 ≤ d ≤ N;
  hi_fresh : ∀ v, v ∈ fixed_vehicles → v ∉ done → h !! v = Some [];
  hi_once : ∀ i v, done !! i = Some v → (∀ j, done !! j = Some v → j = i) →
            h !! v = Some (holiday_while 5 [] (Z.of_nat (i mod 5) + 6) N);
  hi_head : ∀ v, head done = Some v → ∃ tl, h !! v = Some (6 :: tl)
}.

(** The state [(timetable_blocks, backup_index)] of the loop over the
    routes after [r] routes. *)
Record routes_inv (holidays : gmap string (list Z))
    (fixed_vehicles backup_vehicles : list string) (N : Z)
    (routes : list string) (r : nat) (acc : PyDict.t (list block) * nat)
  : Prop := {
  ri_index :
    acc.2 = (substitutions_in_routes_before holidays fixed_vehicles N r
             mod length backup_vehicles)%nat;
  ri_entry : ∀ route bs, PyDict.get route acc.1 = Some bs →
    ∃ j v, (j < r)%nat ∧ routes !! j = Some route
           ∧ (∀ j', (j < j' < r)%nat → routes !! j' ≠ Some route)
           ∧ regular_vehicle fixed_vehicles j = Some v
           ∧ route_spec backup_vehicles v
               (route_holidays holidays fixed_vehicles j)
               (substitutions_in_routes_before holidays fixed_vehicles N j)
               N bs;
  ri_keys : ∀ j route, (j < r)%nat → routes !! j = Some route →
            is_Some (PyDict.get route acc.1)
}.

(** ** The properties that hold under a side condition, as predicates on an
    input *)

(** Every block whose label carries the marker lies on holidays of the
    regular vehicle of its route. *)
Definition marker_only_on_holidays (data : dataframe) (year month : Z)
  : Prop :=
  ∀ tt N holidays r_idx bs v hs b d,
    generate_block_timetable data year month = Ok tt →
    monthrange_days year month = Ok N →
    assign_holidays (fixed_vehicles_of data) N = Ok holidays →
    emitted_for (routes_of data) tt r_idx bs →
    regular_vehicle (fixed_vehicles_of data) r_idx = Some v →
    holidays !! v = Some hs →
    b ∈ bs → carries_marker (vehicle b) = true → covers b d →
    d ∈ hs.

(** The route at every position is served by the regular vehicle of that
    position on the days that are not holidays of that vehicle, and by a
    backup vehicle, marked, on its holidays. *)
Definition regular_vehicle_serves_route (data : dataframe) (year month : Z)
  : Prop :=
  ∀ tt N holidays r_idx bs v d,
    generate_block_timetable data year month = Ok tt →
    monthrange_days year month = Ok N →
    assign_holidays (fixed_vehicles_of data) N = Ok holidays →
    entry_for (routes_of data) tt r_idx bs →
    regular_vehicle (fixed_vehicles_of data) r_idx = Some v →
    1 ≤ d ≤ N →
    ∃ b, b ∈ bs ∧ covers b d
         ∧ (d ∉ route_holidays holidays (fixed_vehicles_of data) r_idx →
            vehicle b = v)
         ∧ (d ∈ route_holidays holidays (fixed_vehicles_of data) r_idx →
            ∃ bv, bv ∈ backup_vehicles_of data
                  ∧ vehicle b = holiday_label bv).

(** The fixed vehicle at position [i] receives the days of the rule, up to
    five of them and as many as fit in the month. *)
Definition follows_holiday_rule (data : dataframe) (year month : Z) : Prop :=
  ∀ N holidays i v,
    monthrange_days year month = Ok N →
    assign_holidays (fixed_vehicles_of data) N = Ok holidays →
    fixed_vehicles_of data !! i = Some v →
    ∃ K, holidays !! v = Some (holiday_rule i K)
         ∧ (K ≤ 5)%nat
         ∧ (K = 5%nat ∨ N < Z.of_nat (i mod 5) + 6 * (Z.of_nat K + 1))
         ∧ ∀ d, d ∈ holiday_rule i K → 6 ≤ d ≤ N.

(** Without a backup vehicle the call ends with an [IndexError]. *)
Definition index_error_without_backup (data : dataframe) (year month : Z)
  : Prop :=
  ∀ N, monthrange_days year month = Ok N →
       routes_of data ≠ [] →
       (length (vehicles_of data) ≤ length (routes_of data))%nat →
       generate_block_timetable data year month = Raise IndexError.

(** Every block whose label carries the marker lasts one day. *)
Definition marked_blocks_last_one_day (data : dataframe) (year month : Z)
  : Prop :=
  ∀ tt route bs b,
    generate_block_timetable data year month = Ok tt →
    PyDict.get route tt = Some bs →
    b ∈ bs → carries_marker (vehicle b) = true →
    start b = end_ b.

(** ** Sample spreadsheets *)

(** One route, its vehicle and one backup vehicle. *)
Definition one_route_one_backup : dataframe :=
  {| RUTE_NAME := [Some "R1"]; GADI_NUMBER := [Some "A"; Some "B"] |}.

(** The vehicle number of the route itself ends in ["(H)"]. *)
Definition marked_vehicle_number : dataframe :=
  {| RUTE_NAME := [Some "R1"]; GADI_NUMBER := [Some "X (H)"; Some "B"] |}.

(** The same vehicle number is entered for both routes. *)
Definition repeated_vehicle_number : dataframe :=
  {| RUTE_NAME := [Some "R1"; Some "R2"];
     GADI_NUMBER := [Some "A"; Some "A"; Some "B"] |}.

(** A route, and an empty vehicle column. *)
Definition no_vehicle_number : dataframe :=
  {| RUTE_NAME := [Some "R1"]; GADI_NUMBER := [None] |}.

(** Two routes served by three distinct vehicles. *)
Definition two_routes_one_backup : dataframe :=
  {| RUTE_NAME := [Some "R1"; Some "R2"];
     GADI_NUMBER := [Some "A"; Some "B"; Some "C"] |}.

(** A route and its vehicle, no backup vehicle. *)
Definition one_route_no_backup : dataframe :=
  {| RUTE_NAME := [Some "R1"]; GADI_NUMBER := [Some "A"] |}.

(** Two routes, their vehicles and two backup vehicles. *)
Definition two_routes_two_backups : dataframe :=
  {| RUTE_NAME := [Some "R1"; Some "R2"];
     GADI_NUMBER := [Some "A"; Some "B"; Some "C"; Some "D"] |}.

(** The blocks of route "R1" of [one_route_one_backup] in January 2025. *)
Definition january_blocks : list block :=
  [ {| start := 1; end_ := 5; vehicle := "A" |};
    {| start := 6; end_ := 6; vehicle := "B (H)" |};
    {| start := 7; end_ := 11; vehicle := "A" |};
    {| start := 12; end_ := 12; vehicle := "B (H)" |};
    {| start := 13; end_ := 17; vehicle := "A" |};
    {| start := 18; end_ := 18; vehicle := "B (H)" |};
    {| start := 19; end_ := 23; vehicle := "A" |};
    {| start := 24; end_ := 24; vehicle := "B (H)" |};
    {| start := 25; end_ := 29; vehicle := "A" |};
    {| start := 30; end_ := 30; vehicle := "B (H)" |};
    {| start := 31; end_ := 31; vehicle := "A" |} ].

(** The holidays of its one fixed vehicle. *)
Definition january_holidays : gmap string (list Z) :=
  {[ "A" := [6; 12; 18; 24; 30] ]}.

(** The timetable of [marked_vehicle_number] in January 2025 and the
    holidays of its fixed vehicle. *)
Definition marked_january_blocks : list block :=
  [ {| start := 1; end_ := 5; vehicle := "X (H)" |};
    {| start := 6; end_ := 6; vehicle := "B (H)" |};
    {| start := 7; end_ := 11; vehicle := "X (H)" |};
    {| start := 12; end_ := 12; vehicle := "B (H)" |};
    {| start := 13; end_ := 17; vehicle := "X (H)" |};
    {| start := 18; end_ := 18; vehicle := "B (H)" |};
    {| start := 19; end_ := 23; vehicle := "X (H)" |};
    {| start := 24; end_ := 24; vehicle := "B (H)" |};
    {| start := 25; end_ := 29; vehicle := "X (H)" |};
    {| start := 30; end_ := 30; vehicle := "B (H)" |};
    {| start := 31; end_ := 31; vehicle := "X (H)" |} ].

Definition marked_january_holidays : gmap string (list Z) :=
  {[ "X (H)" := [6; 12; 18; 24; 30] ]}.

(** The blocks of both routes of [repeated_vehicle_number] in February
    2025 and the one holiday list of its fixed vehicles. *)
Definition repeated_february_blocks : list block :=
  [ {| start := 1; end_ := 5; vehicle := "A" |};
    {| start := 6; end_ := 7; vehicle := "B (H)" |};
    {| start := 8; end_ := 11; vehicle := "A" |};
    {| start := 12; end_ := 12; vehicle := "B (H)" |};
    {| start := 13; end_ := 17; vehicle := "A" |};
    {| start := 18; end_ := 18; vehicle := "B (H)" |};
    {| start := 19; end_ := 23; vehicle := "A" |};
    {| start := 24; end_ := 24; vehicle := "B (H)" |};
    {| start := 25; end_ := 28; vehicle := "A" |} ].

Definition repeated_february_holidays : gmap string (list Z) :=
  {[ "A" := [6; 12; 18; 24; 7] ]}.

(** The timetable of [two_routes_two_backups] in January 2025 and the
    holidays of its fixed vehicles. *)
Definition two_backups_january : PyDict.t (list block) :=
  [ ("R1",
     [ {| start := 1; end_ := 5; vehicle := "A" |};
       {| start := 6; end_ := 6; vehicle := "C (H)" |};
       {| start := 7; end_ := 11; vehicle := "A" |};
       {| start := 12; end_ := 12; vehicle := "D (H)" |};
       {| start := 13; end_ := 17; vehicle := "A" |};
       {| start := 18; end_ := 18; vehicle := "C (H)" |};
       {| start := 19; end_ := 23; vehicle := "A" |};
       {| start := 24; end_ := 24; vehicle := "D (H)" |};
       {| start := 25; end_ := 29; vehicle := "A" |};
       {| start := 30; end_ := 30; vehicle := "C (H)" |};
       {| start := 31; end_ := 31; vehicle := "A" |} ]);
    ("R2",
     [ {| start := 1; end_ := 6; vehicle := "B" |};
       {| start := 7; end_ := 7; vehicle := "D (H)" |};
       {| start := 8; end_ := 12; vehicle := "B" |};
       {| start := 13; end_ := 13; vehicle := "C (H)" |};
       {| start := 14; end_ := 18; vehicle := "B" |};
       {| start := 19; end_ := 19; vehicle := "D (H)" |};
       {| start := 20; end_ := 24; vehicle := "B" |};
       {| start := 25; end_ := 25; vehicle := "C (H)" |};
       {| start := 26; end_ := 30; vehicle := "B" |};
       {| start := 31; end_ := 31; vehicle := "D (H)" |} ]) ].

Definition two_backups_january_holidays : gmap string (list Z) :=
  {[ "A" := [6; 12; 18; 24; 30]; "B" := [7; 13; 19; 25; 31] ]}.

(** The route name "R1" is entered in the first and in the third row. *)
Definition repeated_route_name : dataframe :=
  {| RUTE_NAME := [Some "R1"; Some "R2"; Some "R1"];
     GADI_NUMBER := [Some "A"; Some "B"; Some "C"; Some "D"] |}.

(** Its timetable for April 2025: the entry of "R1" is the block list of
    the third row, whose regular vehicle is "C". *)
Definition repeated_route_april_blocks : list block :=
  [ {| start := 1; end_ := 7; vehicle := "C" |};
    {| start := 8; end_ := 8; vehicle := "D (H)" |};
    {| start := 9; end_ := 13; vehicle := "C" |};
    {| start := 14; end_ := 14; vehicle := "D (H)" |};
    {| start := 15; end_ := 19; vehicle := "C" |};
    {| start := 20; end_ := 20; vehicle := "D (H)" |};
    {| start := 21; end_ := 25; vehicle := "C" |};
    {| start := 26; end_ := 26; vehicle := "D (H)" |};
    {| start := 27; end_ := 30; vehicle := "C" |} ].

Definition repeated_route_april : PyDict.t (list block) :=
  [ ("R1", repeated_route_april_blocks);
    ("R2",
     [ {| start := 1; end_ := 6; vehicle := "B" |};
       {| start := 7; end_ := 7; vehicle := "D (H)" |};
       {| start := 8; end_ := 12; vehicle := "B" |};
       {| start := 13; end_ := 13; vehicle := "D (H)" |};
       {| start := 14; end_ := 18; vehicle := "B" |};
       {| start := 19; end_ := 19; vehicle := "D (H)" |};
       {| start := 20; end_ := 24; vehicle := "B" |};
       {| start := 25; end_ := 25; vehicle := "D (H)" |};
       {| start := 26; end_ := 30; vehicle := "B" |} ]) ].

Definition repeated_route_april_holidays : gmap string (list Z) :=
  {[ "A" := [6; 12; 18; 24; 30]; "B" := [7; 13; 19; 25];
     "C" := [8; 14; 20; 26] ]}.

(** A vehicle column whose second cell was typed as a number. *)
Definition number_in_vehicle_column : list (option cell) :=
  [Some (Text "A"); Some (Number 102)].

(** The blocks of one route "R1" in January 2025 for that column: the
    regular vehicle is the text cell "A", and line 46 formats the backup
    vehicle 102 into the text label of a holiday. *)
Definition number_january_blocks : list pyblock :=
  [ {| py_start := 1; py_end := 5; py_vehicle := Text "A" |};
    {| py_start := 6; py_end := 6; py_vehicle := Text "102 (H)" |};
    {| py_start := 7; py_end := 11; py_vehicle := Text "A" |};
    {| py_start := 12; py_end := 12; py_vehicle := Text "102 (H)" |};
    {| py_start := 13; py_end := 17; py_vehicle := Text "A" |};
    {| py_start := 18; py_end := 18; py_vehicle := Text "102 (H)" |};
    {| py_start := 19; py_end := 23; py_vehicle := Text "A" |};
    {| py_start := 24; py_end := 24; py_vehicle := Text "102 (H)" |};
    {| py_start := 25; py_end := 29; py_vehicle := Text "A" |};
    {| py_start := 30; py_end := 30; py_vehicle := Text "102 (H)" |};
    {| py_start := 31; py_end := 31; py_vehicle := Text "A" |} ].

(** ** The rows of boxes of the PDF (lines 114-123) *)

(** Body of [for b in blocks]: the state is [(rows, cur_row)]. *)
Definition row_body (columns_per_row : Z)
    (st : list (list block) * list block) (b : block)
  : list (list block) * list block :=
  let '(rows, cur_row) := st in
  let cur_row := cur_row ++ [b] in
  if Z.of_nat (length cur_row) =? columns_per_row
  then (rows ++ [cur_row], [])
  else (rows, cur_row).

(** The rows [draw_route_blocks_compact] draws for one route. *)
Definition box_rows (columns_per_row : Z) (blocks : list block)
  : list (list block) :=
  let '(rows, cur_row) := foldl (row_body columns_per_row) ([], []) blocks in
  match cur_row with
  | [] => rows
  | _ => rows ++ [cur_row]
  end.

(** ** The month chosen on the page (lines 199-202) *)

(** [calendar.month_name] in the default locale; position 0 is empty. *)
Definition month_name : list string :=
  [""; "January"; "February"; "March"; "April"; "May"; "June"; "July";
   "August"; "September"; "October"; "November"; "December"].

(** [list(cal.month_name)[1:]] *)
Definition months : list string := drop 1 month_name.

(** [l.index(x)]: the first position of [x], [None] where Python raises
    [ValueError]. *)
Fixpoint list_index (x : string) (l : list string) : option nat :=
  match l with
  | [] => None
  | y :: l' => if String.eqb y x then Some 0%nat else S <$> list_index x l'
  end.

(** [months.index(selected_month) + 1] *)
Definition month_num (selected_month : string) : option Z :=
  i ← list_index selected_month months; Some (Z.of_nat i + 1).

(** ** Vocabulary of the further properties *)

(** The distinct elements of a list, in the order in which they first
    appear. *)
Definition first_occurrences (l : list string) : list string :=
  foldl (λ acc k, if bool_decide (k ∈ acc) then acc else acc ++ [k]) [] l.

(** Sum of a list of integers. *)
Definition sumZ (l : list Z) : Z := foldr Z.add 0 l.

(** The days a block counts for the vehicle [v] when the vehicle and the
    label are both text. *)
Definition text_block_work (v : string) (b : block) : Z :=
  if contains v (vehicle b) && negb (contains "(H)" (vehicle b))
  then end_ b - start b + 1 else 0.

(** The working days of [v] in one route's block list. *)
Definition route_work (v : string) (bs : list block) : Z :=
  sumZ (text_block_work v <$> bs).

(** The labels of all the blocks of a timetable, in the order in which
    [generate_summary] visits them. *)
Definition labels_of (timetable_blocks : PyDict.t (list pyblock))
  : list cell :=
  py_vehicle <$> concat (PyDict.values timetable_blocks).

(** ** The colours of a box of the PDF (lines 132-138) *)

(** Fill colour and text colour, as red, green and blue components. *)
Definition box_colours (label : cell) : result ((Z * Z * Z) * (Z * Z * Z)) :=
  marked ← py_in (Text "(H)") label;
  Ok (if marked : bool
      then ((255, 153, 153), (80, 30, 30))
      else ((153, 255, 153), (20, 60, 20))).

(** Six routes, their vehicles and one backup vehicle. *)
Definition six_routes_one_backup : dataframe :=
  {| RUTE_NAME := [Some "R1"; Some "R2"; Some "R3"; Some "R4"; Some "R5";
                   Some "R6"];
     GADI_NUMBER := [Some "V1"; Some "V2"; Some "V3"; Some "V4"; Some "V5";
                     Some "V6"; Some "S1"] |}.

(** Its timetable for February 2025. *)
Definition six_routes_february : PyDict.t (list block) :=
  match generate_block_timetable six_routes_one_backup 2025 2 with
  | Ok t => t
  | Raise _ => PyDict.empty
  end.

(** The holidays of its fixed vehicles in February 2025. *)
Definition six_routes_holidays : gmap string (list Z) :=
  match assign_holidays (fixed_vehicles_of six_routes_one_backup) 28 with
  | Ok h => h
  | Raise _ => ∅
  end.

(** * Properties *)

(** ** The error monad and the Python primitives *)

#[global] Instance Ok_inj {A : Type} : Inj (=) (=) (@Ok A).
Proof. intros a b Heq. congruence. Qed.

(** Reduce the binds whose first computation has returned. *)
Ltac run_bind := cbv beta iota delta [mbind result_bind].
Ltac run_bind_in H := cbv beta iota delta [mbind result_bind] in H.

Lemma for_each_app {S X : Type} (body : S → X → result S) (s : S)
    (xs ys : list X) :
  for_each body s (xs ++ ys) = s' ← for_each body s xs; for_each body s' ys.
Proof.
  revert s. induction xs as [|x xs IH]; intros s; simpl; [done|].
  destruct (body s x) as [s'|e]; simpl; [apply IH | done].
Qed.

Lemma for_each_cons_ok {S X : Type} (body : S → X → result S) (s s' : S)
    (x : X) (xs : list X) :
  body s x = Ok s' → for_each body s (x :: xs) = for_each body s' xs.
Proof. intros Hx. simpl. by rewrite Hx. Qed.

Lemma for_each_cons_raise {S X : Type} (body : S → X → result S) (s : S)
    (x : X) (xs : list X) (e : exn) :
  body s x = Raise e → for_each body s (x :: xs) = Raise e.
Proof. intros Hx. simpl. by rewrite Hx. Qed.

Lemma for_each_raise_at {S X : Type} (body : S → X → result S) (s s' : S)
    (xs ys : list X) (x : X) (e : exn) :
  for_each body s xs = Ok s' → body s' x = Raise e →
  for_each body s (xs ++ x :: ys) = Raise e.
Proof.
  intros Hxs Hx. rewrite for_each_app, Hxs. simpl. by rewrite Hx.
Qed.

Lemma range_snoc (a b : Z) : a ≤ b → range a (b + 1) = range a b ++ [b].
Proof.
  intros Hab. unfold range.
  replace (b + 1 - a) with ((b - a) + 1) by lia.
  rewrite seqZ_app by lia. f_equal.
  rewrite seqZ_cons by lia. rewrite seqZ_nil by lia. f_equal. lia.
Qed.

Lemma range_empty (a : Z) : range a a = [].
Proof. unfold range. apply seqZ_nil. lia. Qed.

Lemma elem_of_range (a b d : Z) : d ∈ range a b ↔ a ≤ d < b.
Proof. unfold range. rewrite elem_of_seqZ. lia. Qed.

Lemma enumerate_from_cons {A : Type} (k : nat) (x : A) (xs : list A) :
  zip (seq k (length (x :: xs))) (x :: xs)
  = (k, x) :: zip (seq (S k) (length xs)) xs.
Proof. done. Qed.

Lemma py_mod_pos (a b : nat) : (0 < b)%nat → py_mod a b = Ok (a mod b)%nat.
Proof. destruct b; [lia | done]. Qed.

Lemma list_get_lt {A : Type} (xs : list A) (i : nat) :
  (i < length xs)%nat → ∃ x, xs !! i = Some x ∧ list_get xs i = Ok x.
Proof.
  intros Hi. destruct (lookup_lt_is_Some_2 xs i Hi) as [x Hx].
  exists x. unfold list_get. by rewrite Hx.
Qed.

Lemma string_eqb_decide (a b : string) : String.eqb a b = bool_decide (a = b).
Proof.
  destruct (String.eqb_spec a b) as [->|Hne].
  - by rewrite bool_decide_eq_true_2.
  - by rewrite bool_decide_eq_false_2.
Qed.

Lemma get_set_eq {V : Type} (k : string) (v : V) (d : PyDict.t V) :
  PyDict.get k (PyDict.set k v d) = Some v.
Proof.
  induction d as [|[k' v'] d IH]; simpl.
  - by rewrite String.eqb_refl.
  - destruct (String.eqb k' k) eqn:E; simpl; rewrite E; [done | apply IH].
Qed.

Lemma get_set_ne {V : Type} (k k' : string) (v : V) (d : PyDict.t V) :
  k ≠ k' → PyDict.get k' (PyDict.set k v d) = PyDict.get k' d.
Proof.
  intros Hne. induction d as [|[k0 v0] d IH]; simpl.
  - rewrite string_eqb_decide. by rewrite bool_decide_eq_false_2.
  - destruct (String.eqb k0 k) eqn:E; simpl.
    + apply String.eqb_eq in E as ->.
      rewrite string_eqb_decide. by rewrite bool_decide_eq_false_2.
    + destruct (String.eqb k0 k'); [done | apply IH].
Qed.

(** ** The month *)

Lemma monthrange_days_valid (year month N : Z) :
  monthrange_days year month = Ok N → 1 ≤ month ≤ 12 ∧ 28 ≤ N ≤ 31.
Proof.
  unfold monthrange_days.
  destruct (1 <=? month) eqn:E1; [|done].
  destruct (month <=? 12) eqn:E2; [|done].
  simpl. intros [= <-].
  assert (Hm : 1 ≤ month ≤ 12) by lia. split; [done|].
  assert (Hcase : month = 1 ∨ month = 2 ∨ month = 3 ∨ month = 4 ∨ month = 5
                  ∨ month = 6 ∨ month = 7 ∨ month = 8 ∨ month = 9
                  ∨ month = 10 ∨ month = 11 ∨ month = 12) by lia.
  destruct_or!; subst month; simpl; try lia.
  destruct (isleap year); simpl; lia.
Qed.

Lemma monthrange_days_ok (year month : Z) :
  1 ≤ month ≤ 12 → ∃ N, monthrange_days year month = Ok N.
Proof.
  intros Hm. unfold monthrange_days.
  replace (1 <=? month) with true by lia.
  replace (month <=? 12) with true by lia. simpl. eauto.
Qed.

(** ** Shape of block lists *)

Lemma tiles_snoc (lo hi : Z) (bs : list block) (b : block) :
  tiles lo bs hi → start b = hi + 1 → start b ≤ end_ b →
  tiles lo (bs ++ [b]) (end_ b).
Proof.
  revert lo. induction bs as [|b0 bs IH]; intros lo; simpl.
  - intros -> Hs Hle. repeat split; lia.
  - intros (H1 & H2 & H3) Hs Hle. repeat split; [done..|]. by apply IH.
Qed.

Lemma tiles_bounds (lo hi : Z) (bs : list block) (b : block) :
  tiles lo bs hi → b ∈ bs → lo ≤ start b ∧ start b ≤ end_ b ∧ end_ b ≤ hi.
Proof.
  revert lo. induction bs as [|b0 bs IH]; intros lo; simpl.
  - intros _ Hin. by apply elem_of_nil in Hin.
  - intros (H1 & H2 & H3) Hin. apply elem_of_cons in Hin as [->|Hin].
    + assert (Hhi : end_ b0 + 1 ≤ hi + 1); [|lia].
      clear -H3. revert H3. generalize (end_ b0 + 1).
      induction bs as [|b1 bs IH]; simpl; intros lo'.
      * lia.
      * intros (H1 & H2 & H3). specialize (IH _ H3). lia.
    + specialize (IH _ H3 Hin). lia.
Qed.

Lemma tiles_increasing (lo hi : Z) (bs : list block) :
  tiles lo bs hi → increasing_without_gap bs.
Proof.
  intros Ht. split.
  - intros b Hb. by destruct (tiles_bounds _ _ _ _ Ht Hb) as (_ & ? & _).
  - revert lo Ht. induction bs as [|b0 bs IH]; intros lo Ht i b b' Hi Hi'.
    + done.
    + destruct Ht as (H1 & H2 & H3). destruct i as [|i]; simpl in *.
      * injection Hi as ->. destruct bs as [|b1 bs]; [done|].
        simpl in Hi'. injection Hi' as ->. by destruct H3 as (-> & _).
      * eapply IH; eauto.
Qed.

Lemma tiles_each_day_once (lo hi : Z) (bs : list block) (d : Z) :
  tiles lo bs hi → lo ≤ d ≤ hi →
  ∃ i b, bs !! i = Some b ∧ covers b d
         ∧ ∀ j b', bs !! j = Some b' → covers b' d → j = i.
Proof.
  revert lo. induction bs as [|b0 bs IH]; intros lo; simpl.
  - lia.
  - intros (H1 & H2 & H3) Hd.
    destruct (decide (d ≤ end_ b0)) as [Hle|Hgt].
    + exists 0%nat, b0. split; [done|]. split; [unfold covers; lia|].
      intros [|j] b' Hj Hc; [done|]. simpl in Hj.
      apply list_elem_of_lookup_2 in Hj.
      pose proof (tiles_bounds _ _ _ _ H3 Hj). unfold covers in Hc. lia.
    + destruct (IH (end_ b0 + 1) H3) as (i & b & Hi & Hc & Huniq); [lia|].
      exists (S i), b. split; [done|]. split; [done|].
      intros [|j] b' Hj Hc'; simpl in Hj.
      * injection Hj as <-. unfold covers in Hc'. lia.
      * f_equal. eauto.
Qed.

Lemma tiles_last (lo hi : Z) (bs : list block) :
  tiles lo bs hi → bs ≠ [] → ∃ b, last bs = Some b ∧ end_ b = hi.
Proof.
  revert lo. induction bs as [|b0 bs IH]; intros lo Ht Hne; [done|].
  destruct Ht as (H1 & H2 & H3). destruct bs as [|b1 bs].
  - exists b0. simpl in *. split; [done | lia].
  - destruct (IH _ H3) as (b & Hb & He); [done|]. by exists b.
Qed.

Lemma tiles_first_last (hi : Z) (bs : list block) :
  tiles 1 bs hi → 1 ≤ hi → first_day_to_last_day bs hi.
Proof.
  intros Ht Hhi.
  assert (Hne : bs ≠ []) by (intros ->; simpl in Ht; lia).
  split; [|by eapply tiles_last].
  destruct bs as [|b bs]; [done|]. exists b. by destruct Ht.
Qed.

Lemma alternating_snoc (labels : list string) (x y : string) :
  alternating (labels ++ [x]) → x ≠ y → alternating ((labels ++ [x]) ++ [y]).
Proof.
  intros Ha Hne. induction labels as [|z labels IH]; simpl in *; [done|].
  destruct labels as [|z' labels]; simpl in *.
  - destruct Ha. done.
  - destruct Ha as [Hz Ha]. split; [done|]. by apply IH.
Qed.

Lemma alternating_lookup (labels : list string) (i : nat) (x y : string) :
  alternating labels → labels !! i = Some x → labels !! S i = Some y → x ≠ y.
Proof.
  revert i. induction labels as [|z labels IH]; intros i Ha Hi Hi'; [done|].
  destruct labels as [|z' labels]; [done|]. destruct Ha as [Hz Ha].
  destruct i as [|i]; simpl in *.
  - by simplify_eq.
  - eapply IH; eauto.
Qed.

(** ** Counting holidays *)

Lemma holiday_days_before_first (hs : list Z) : holiday_days_before hs 1 = 0%nat.
Proof. unfold holiday_days_before. by rewrite range_empty. Qed.

Lemma holiday_days_before_succ (hs : list Z) (d : Z) :
  1 ≤ d →
  holiday_days_before hs (d + 1)
  = (holiday_days_before hs d + if bool_decide (d ∈ hs) then 1 else 0)%nat.
Proof.
  intros Hd. unfold holiday_days_before.
  rewrite range_snoc by done. rewrite filter_app, length_app.
  f_equal. rewrite filter_cons, filter_nil.
  destruct (decide (d ∈ hs)) as [Hin|Hout].
  - by rewrite bool_decide_eq_true_2.
  - by rewrite bool_decide_eq_false_2.
Qed.

(** ** The loop over the days of one route *)

Section day_loop.
Variable holidays : gmap string (list Z).
Variable backup_vehicles : list string.
Variable N : Z.
Variable route_vehicle : string.
Variable hs : list Z.
Variable done : nat.
Hypothesis Hhs : holidays !! route_vehicle = Some hs.
Hypothesis Hlate : ∀ e, e ∈ hs → 6 ≤ e.
Hypothesis Hbackup : (0 < length backup_vehicles)%nat.

Local Abbreviation inv := (open_inv backup_vehicles route_vehicle hs done).
Local Abbreviation label := (day_label backup_vehicles route_vehicle hs done).
Local Abbreviation body := (day_body holidays backup_vehicles N route_vehicle).

Lemma assign_vehicle_spec (n : Z) (st : loop_state) :
  0 ≤ n → inv n st →
  ∃ a next,
    assign_vehicle holidays backup_vehicles route_vehicle (backup_index st)
                   (n + 1) = Ok (a, next)
    ∧ label (n + 1) = Some a
    ∧ next = ((done + holiday_days_before hs (n + 1 + 1))
              mod length backup_vehicles)%nat
    ∧ (a ≠ current_vehicle st → 1 ≤ n).
Proof.
  intros Hn Hinv. unfold assign_vehicle, dict_get, day_label. rewrite Hhs.
  simpl. rewrite (holiday_days_before_succ hs (n + 1)) by lia.
  destruct (decide (n + 1 ∈ hs)) as [Hin|Hout].
  - rewrite !bool_decide_eq_true_2 by done.
    destruct (list_get_lt backup_vehicles (backup_index st)) as (b & Hb & Hget).
    { rewrite (oi_index _ _ _ _ _ _ Hinv). apply Nat.mod_upper_bound. lia. }
    rewrite Hget. simpl. rewrite py_mod_pos by done. simpl.
    exists (b +:+ " (H)"), ((backup_index st + 1) mod length backup_vehicles)%nat.
    split; [done|]. split.
    { rewrite <- (oi_index _ _ _ _ _ _ Hinv), Hb. done. }
    split.
    { rewrite (oi_index _ _ _ _ _ _ Hinv).
      rewrite Nat.Div0.add_mod_idemp_l. f_equal. lia. }
    intros _. specialize (Hlate _ Hin). lia.
  - rewrite !bool_decide_eq_false_2 by done.
    exists route_vehicle, (backup_index st).
    split; [done|]. split; [done|]. split.
    { rewrite (oi_index _ _ _ _ _ _ Hinv). f_equal. lia. }
    intros Hne. destruct (decide (n = 0)) as [->|]; [|lia].
    by rewrite (oi_first _ _ _ _ _ _ Hinv) in Hne.
Qed.

Lemma day_body_open (n : Z) (st : loop_state) :
  0 ≤ n → inv n st →
  ∃ st1,
    body st (n + 1)
    = Ok (if bool_decide (n + 1 = N) then close_month st1 (n + 1) else st1)
    ∧ inv (n + 1) st1.
Proof.
  intros Hn Hinv.
  destruct (assign_vehicle_spec n st Hn Hinv)
    as (a & next & Hassign & Hlabel & Hnext & Hfirst).
  unfold day_body. rewrite Hassign. simpl.
  destruct Hinv as [Ht Hs H0 Hcur Hlab Halt Hidx].
  destruct (decide (a = current_vehicle st)) as [Heq|Hne].
  - rewrite (bool_decide_eq_false_2 (a ≠ _)) by (intros ?; done).
    eexists. split.
    { destruct (bool_decide (n + 1 = N)); reflexivity. }
    constructor; simpl; try done.
    + lia.
    + lia.
    + intros d Hd. destruct (decide (d = n + 1)) as [->|].
      * by rewrite Hlabel, Heq.
      * apply Hcur. lia.
  - rewrite (bool_decide_eq_true_2 (a ≠ _)) by done.
    specialize (Hfirst Hne).
    eexists. split.
    { destruct (bool_decide (n + 1 = N)); reflexivity. }
    constructor; simpl.
    + replace (n + 1 - 1) with n by lia.
      eapply (tiles_snoc _ _ _ {| start := _; end_ := n; vehicle := _ |});
        [done | simpl; lia | simpl; lia].
    + lia.
    + lia.
    + intros d Hd. by replace d with (n + 1) by lia.
    + intros b d Hb Hc. apply elem_of_app in Hb as [Hb|Hb]; [by eapply Hlab|].
      apply list_elem_of_singleton in Hb as ->. apply Hcur.
      unfold covers in Hc. simpl in Hc. lia.
    + rewrite fmap_app. simpl. by apply alternating_snoc.
    + done.
Qed.

Lemma day_loop_open (k : nat) :
  Z.of_nat k < N →
  ∃ st, for_each body
                 (route_start route_vehicle (done mod length backup_vehicles))
                 (range 1 (Z.of_nat k + 1)) = Ok st
        ∧ inv (Z.of_nat k) st.
Proof.
  induction k as [|k IH]; intros Hk.
  - change (Z.of_nat 0 + 1) with 1. rewrite range_empty. eexists.
    split; [done|].
    constructor; simpl; try done; try lia.
    + intros b d Hb. by apply elem_of_nil in Hb.
    + rewrite holiday_days_before_first. f_equal. lia.
  - destruct IH as (st & Hrun & Hinv); [lia|].
    destruct (day_body_open (Z.of_nat k) st) as (st1 & Hstep & Hinv1);
      [lia | done |].
    replace (Z.of_nat (S k)) with (Z.of_nat k + 1) by lia.
    rewrite range_snoc by lia. rewrite for_each_app, Hrun. simpl.
    rewrite Hstep. rewrite bool_decide_eq_false_2 by lia.
    exists st1. split; [done|]. done.
Qed.

(** The loop always returns when there is a backup vehicle, and its
    blocks are the ones [route_spec] describes. *)
Lemma day_loop_spec :
  1 ≤ N →
  ∃ st, for_each body
                 (route_start route_vehicle (done mod length backup_vehicles))
                 (range 1 (N + 1)) = Ok st
        ∧ route_spec backup_vehicles route_vehicle hs done N (blocks st)
        ∧ backup_index st
          = ((done + holiday_days_before hs (N + 1))
             mod length backup_vehicles)%nat.
Proof.
  intros HN.
  destruct (day_loop_open (Z.to_nat (N - 1))) as (st & Hrun & Hinv); [lia|].
  replace (Z.of_nat (Z.to_nat (N - 1))) with (N - 1) in * by lia.
  destruct (day_body_open (N - 1) st) as (st1 & Hstep & Hinv1); [lia | done |].
  replace (N - 1 + 1) with N in * by lia.
  rewrite bool_decide_eq_true_2 in Hstep by done.
  rewrite range_snoc by lia. rewrite for_each_app, Hrun. simpl.
  rewrite Hstep. simpl.
  exists (close_month st1 N). split; [done|].
  destruct Hinv1 as [Ht Hs H0 Hcur Hlab Halt Hidx]. split; [|done].
  constructor; simpl.
  - eapply (tiles_snoc _ _ _ {| start := _; end_ := N; vehicle := _ |});
      [done | simpl; lia | simpl; lia].
  - intros b d Hb Hc. apply elem_of_app in Hb as [Hb|Hb]; [by eapply Hlab|].
    apply list_elem_of_singleton in Hb as ->. apply Hcur.
    unfold covers in Hc. simpl in Hc. lia.
  - by rewrite fmap_app.
Qed.
End day_loop.

(** With no backup vehicle the loop raises on the first holiday. *)
Section no_backup.
Variable holidays : gmap string (list Z).
Variable N : Z.
Variable route_vehicle : string.
Variable hs : list Z.
Hypothesis Hhs : holidays !! route_vehicle = Some hs.
Hypothesis Hlate : ∀ e, e ∈ hs → 6 ≤ e.
Hypothesis Hsix : 6 ∈ hs.
Hypothesis HN : 6 < N.

Local Abbreviation body := (day_body holidays [] N route_vehicle).

Lemma day_body_regular (d : Z) (k : nat) :
  d < 6 →
  body (route_start route_vehicle k) d = Ok (route_start route_vehicle k).
Proof.
  intros Hd. unfold day_body, assign_vehicle, dict_get. rewrite Hhs. simpl.
  rewrite (bool_decide_eq_false_2 (d ∈ hs))
    by (intros Hin; specialize (Hlate _ Hin); lia).
  simpl. rewrite (bool_decide_eq_false_2 (route_vehicle ≠ _))
    by (intros ?; done).
  by rewrite bool_decide_eq_false_2 by lia.
Qed.

Lemma first_five_days (k : nat) :
  for_each body (route_start route_vehicle k) (range 1 6)
  = Ok (route_start route_vehicle k).
Proof.
  change (range 1 6) with [1; 2; 3; 4; 5]. simpl.
  repeat (rewrite day_body_regular by lia; simpl). done.
Qed.

Lemma sixth_day_raises (k : nat) :
  body (route_start route_vehicle k) 6 = Raise IndexError.
Proof.
  unfold day_body, assign_vehicle, dict_get. rewrite Hhs. run_bind.
  rewrite bool_decide_eq_true_2 by done. unfold list_get.
  by rewrite lookup_nil.
Qed.

Lemma day_loop_no_backup (k : nat) :
  for_each body (route_start route_vehicle k) (range 1 (N + 1))
  = Raise IndexError.
Proof.
  assert (Hsplit : range 1 (N + 1) = range 1 6 ++ 6 :: range 7 (N + 1)).
  { unfold range. replace (N + 1 - 1) with (5 + (1 + (N - 6))) by lia.
    rewrite seqZ_app by lia. f_equal.
    rewrite seqZ_app by lia. f_equal. f_equal. lia. }
  rewrite Hsplit.
  eapply for_each_raise_at; [apply first_five_days | apply sixth_day_raises].
Qed.
End no_backup.

(** ** The holiday pre-assignment *)

Lemma holiday_while_closed (fuel : nat) (hs : list Z) (day N : Z) :
  ∃ K : nat,
    holiday_while fuel hs day N
    = hs ++ ((λ k, day + 6 * Z.of_nat k) <$> seq 0 K)
    ∧ (K ≤ fuel)%nat
    ∧ (K = 0%nat
       ∨ ((length hs + K ≤ 5)%nat ∧ day + 6 * (Z.of_nat K - 1) ≤ N))
    ∧ (K = fuel ∨ (5 ≤ length hs + K)%nat ∨ N < day + 6 * Z.of_nat K).
Proof.
  revert hs day. induction fuel as [|fuel IH]; intros hs day; simpl.
  - exists 0%nat. simpl. rewrite app_nil_r. repeat split; auto.
  - destruct (length hs <? 5)%nat eqn:Hlen; simpl.
    + destruct (day <=? N) eqn:Hday.
      * destruct (IH (hs ++ [day]) (day + 6)) as (K & -> & HK & Hin & Hstop).
        apply Nat.ltb_lt in Hlen. apply Z.leb_le in Hday.
        rewrite length_app in *. simpl in *.
        exists (S K). split.
        { rewrite <- app_assoc. f_equal. simpl. f_equal; [f_equal; lia|].
          rewrite <- fmap_S_seq, <- list_fmap_compose.
          apply list_fmap_ext. intros _ k _. simpl. lia. }
        split; [lia|]. split; [right|]; lia.
      * apply Z.leb_gt in Hday. exists 0%nat. simpl. rewrite app_nil_r.
        repeat split; auto; [lia|]. right. right. lia.
    + apply Nat.ltb_ge in Hlen. exists 0%nat. simpl. rewrite app_nil_r.
      repeat split; auto; [lia|]. right. left. lia.
Qed.

(** Five turns are enough: more fuel does not change the result. *)
Lemma holiday_while_fuel (extra : nat) (hs : list Z) (day N : Z) :
  holiday_while (5 + extra) hs day N = holiday_while 5 hs day N.
Proof.
  assert (Hgen : ∀ fuel hs day,
            (5 ≤ length hs + fuel)%nat →
            holiday_while (fuel + extra) hs day N = holiday_while fuel hs day N).
  { clear hs day. induction fuel as [|fuel IH]; intros hs day Hlen.
    - simpl. destruct extra as [|extra']; [done|]. simpl.
      replace (length hs <? 5)%nat with false; [done|].
      symmetry. apply Nat.ltb_ge. lia.
    - simpl. destruct ((length hs <? 5)%nat && (day <=? N)); [|done].
      apply IH. rewrite length_app. simpl. lia. }
  apply Hgen. lia.
Qed.

Lemma holiday_while_prefix (fuel : nat) (hs : list Z) (day N : Z) :
  ∃ tl, holiday_while fuel hs day N = hs ++ tl.
Proof.
  destruct (holiday_while_closed fuel hs day N) as (K & -> & _). eauto.
Qed.

Lemma holiday_while_bounds (fuel : nat) (hs : list Z) (day N : Z) :
  6 ≤ day → (length hs ≤ 5)%nat → (∀ d, d ∈ hs → 6 ≤ d ≤ N) →
  (length (holiday_while fuel hs day N) ≤ 5)%nat
  ∧ ∀ d, d ∈ holiday_while fuel hs day N → 6 ≤ d ≤ N.
Proof.
  intros Hday Hlen Hhs.
  destruct (holiday_while_closed fuel hs day N) as (K & -> & HK & Hin & _).
  rewrite length_app, length_fmap, length_seq. split; [lia|].
  intros d Hd. apply elem_of_app in Hd as [Hd|Hd]; [by apply Hhs|].
  apply list_elem_of_fmap in Hd as (k & -> & Hk).
  apply elem_of_seq in Hk. lia.
Qed.

Lemma holiday_while_first (N : Z) :
  6 ≤ N → ∃ tl, holiday_while 5 [] 6 N = 6 :: tl.
Proof.
  intros HN.
  destruct (holiday_while_closed 5 [] 6 N) as (K & -> & _ & _ & Hstop).
  destruct K as [|K]; [simpl in Hstop; lia|]. simpl. eauto.
Qed.

Lemma empty_holidays_lookup (fixed_vehicles : list string) (v : string) :
  empty_holidays fixed_vehicles !! v
  = if bool_decide (v ∈ fixed_vehicles) then Some [] else None.
Proof.
  unfold empty_holidays.
  assert (Hgen : ∀ (l : list string) (m : gmap string (list Z)),
            foldl (λ d v, <[v := []]> d) m l !! v
            = if bool_decide (v ∈ l) then Some [] else m !! v).
  { induction l as [|x l IH]; intros m; cbn [foldl].
    - by rewrite bool_decide_eq_false_2 by apply not_elem_of_nil.
    - rewrite IH. destruct (decide (v ∈ l)) as [Hin|Hout].
      + rewrite !bool_decide_eq_true_2; [done | by right | done].
      + rewrite (bool_decide_eq_false_2 (v ∈ l)) by done.
        destruct (decide (x = v)) as [->|Hne].
        * rewrite lookup_insert_eq. by rewrite bool_decide_eq_true_2 by left.
        * rewrite lookup_insert_ne by done.
          rewrite bool_decide_eq_false_2; [done|].
          intros [->|?]%elem_of_cons; done. }
  rewrite Hgen. by rewrite lookup_empty.
Qed.

Section pre_assignment.
Variable fixed_vehicles : list string.
Variable N : Z.
Hypothesis HN : 6 ≤ N.

Local Abbreviation inv := (holidays_inv fixed_vehicles N).

Lemma holidays_inv_start : inv [] (empty_holidays fixed_vehicles).
Proof.
  constructor.
  - intros v Hv. rewrite empty_holidays_lookup.
    by rewrite bool_decide_eq_true_2.
  - intros v hs. rewrite empty_holidays_lookup.
    destruct (bool_decide (v ∈ fixed_vehicles)); [|done].
    intros [= <-]. split; [simpl; lia|]. intros d Hd.
    by apply elem_of_nil in Hd.
  - intros v Hv _. rewrite empty_holidays_lookup.
    by rewrite bool_decide_eq_true_2.
  - intros i v Hi. by rewrite lookup_nil in Hi.
  - intros v Hv. done.
Qed.

Lemma holiday_body_inv (done : list string) (v : string)
    (h : gmap string (list Z)) :
  v ∈ fixed_vehicles → inv done h →
  ∃ h', holiday_body N h (length done, v) = Ok h' ∧ inv (done ++ [v]) h'.
Proof.
  intros Hv [Hdom Hbounds Hfresh Honce Hhead].
  destruct (Hdom v Hv) as [hs0 Hhs0].
  unfold holiday_body, dict_get. rewrite Hhs0. run_bind.
  set (day := Z.of_nat (length done mod 5) + 6).
  eexists. split; [done|].
  destruct (Hbounds _ _ Hhs0) as [Hlen0 Hin0].
  assert (Hday : 6 ≤ day) by (unfold day; lia).
  constructor.
  - intros v' Hv'. destruct (decide (v = v')) as [->|Hne].
    + rewrite lookup_insert_eq. eauto.
    + rewrite lookup_insert_ne by done. by apply Hdom.
  - intros v' hs. destruct (decide (v = v')) as [->|Hne].
    + rewrite lookup_insert_eq. intros <-%(inj Some).
      by apply holiday_while_bounds.
    + rewrite lookup_insert_ne by done. apply Hbounds.
  - intros v' Hv' Hout. apply not_elem_of_app in Hout as [Hout Hne].
    rewrite lookup_insert_ne; [by apply Hfresh|].
    intros ->. apply Hne. by left.
  - intros i v' Hi Huniq.
    destruct (decide (i < length done)%nat) as [Hlt|Hge].
    + rewrite lookup_app_l in Hi by done.
      assert (Hne : v ≠ v').
      { intros ->. specialize (Huniq (length done)).
        rewrite lookup_app_r, Nat.sub_diag in Huniq by done.
        specialize (Huniq eq_refl). lia. }
      rewrite lookup_insert_ne by done. apply Honce; [done|].
      intros j Hj. apply Huniq. apply lookup_app_l_Some. done.
    + assert (Hi' := Hi). apply lookup_lt_Some in Hi'.
      rewrite length_app in Hi'. simpl in Hi'.
      assert (i = length done) as -> by lia.
      rewrite lookup_app_r, Nat.sub_diag in Hi by done.
      injection Hi as <-. rewrite lookup_insert_eq.
      assert (Hout : v ∉ done).
      { intros Hin. apply list_elem_of_lookup in Hin as [j Hj].
        assert (Hlt := Hj). apply lookup_lt_Some in Hlt.
        specialize (Huniq j (lookup_app_l_Some _ _ _ _ Hj)). lia. }
      rewrite (Hfresh v Hv Hout) in Hhs0. by injection Hhs0 as <-.
  - intros v0 Hv0. destruct done as [|x done'].
    + simpl in Hv0. injection Hv0 as <-. rewrite lookup_insert_eq.
      rewrite (Hfresh v Hv) in Hhs0 by apply not_elem_of_nil.
      injection Hhs0 as <-. subst day.
      change (Z.of_nat (length (@nil string) mod 5) + 6) with 6.
      destruct (holiday_while_first N HN) as [tl ->]. eauto.
    + simpl in Hv0. injection Hv0 as ->.
      destruct (Hhead v0 eq_refl) as [tl Htl].
      destruct (decide (v = v0)) as [->|Hne].
      * rewrite lookup_insert_eq. rewrite Htl in Hhs0. injection Hhs0 as <-.
        destruct (holiday_while_prefix 5 (6 :: tl) day N) as [tl' ->].
        simpl. eauto.
      * rewrite lookup_insert_ne by done. eauto.
Qed.

Lemma holiday_loop_inv (rest done : list string) (h : gmap string (list Z)) :
  fixed_vehicles = done ++ rest → inv done h →
  ∃ h', for_each (holiday_body N) h
                 (zip (seq (length done) (length rest)) rest) = Ok h'
        ∧ inv fixed_vehicles h'.
Proof.
  revert done h. induction rest as [|v rest IH]; intros done h Hsplit Hinv.
  - simpl. exists h. split; [done|].
    rewrite app_nil_r in Hsplit. by rewrite <- Hsplit in Hinv.
  - rewrite enumerate_from_cons.
    destruct (holiday_body_inv done v h) as (h1 & Hstep & Hinv1); [|done|].
    { rewrite Hsplit. apply elem_of_app. right. by left. }
    cbn [for_each]. rewrite Hstep. run_bind.
    destruct (IH (done ++ [v]) h1) as (h' & Hrun & Hinv').
    { by rewrite <- app_assoc. }
    { done. }
    rewrite length_app in Hrun. simpl in Hrun.
    replace (length done + 1)%nat with (S (length done)) in Hrun by lia.
    eauto.
Qed.

(** The pre-assignment never raises. *)
Lemma assign_holidays_inv :
  ∃ h, assign_holidays fixed_vehicles N = Ok h
       ∧ inv fixed_vehicles h.
Proof.
  unfold assign_holidays, enumerate.
  apply (holiday_loop_inv fixed_vehicles []); [done|].
  apply holidays_inv_start.
Qed.
End pre_assignment.

(** ** The loop over the routes *)

Lemma substitutions_in_routes_before_succ (holidays : gmap string (list Z))
    (fixed_vehicles : list string) (N : Z) (r : nat) :
  substitutions_in_routes_before holidays fixed_vehicles N (S r)
  = (substitutions_in_routes_before holidays fixed_vehicles N r
     + holiday_days_before (route_holidays holidays fixed_vehicles r) (N + 1))%nat.
Proof.
  unfold substitutions_in_routes_before.
  rewrite seq_S, sum_list_with_app. simpl. lia.
Qed.

Section route_loop.
Variable holidays : gmap string (list Z).
Variable fixed_vehicles backup_vehicles : list string.
Variable N : Z.
Variable routes : list string.
Hypothesis HN : 6 ≤ N.
Hypothesis Hholidays : holidays_inv fixed_vehicles N fixed_vehicles holidays.
Hypothesis Hfixed : (0 < length fixed_vehicles)%nat.
Hypothesis Hbackup : (0 < length backup_vehicles)%nat.

Local Abbreviation inv :=
  (routes_inv holidays fixed_vehicles backup_vehicles N routes).
Local Abbreviation body :=
  (route_body holidays fixed_vehicles backup_vehicles N).

Lemma regular_vehicle_holidays (r : nat) :
  ∃ v hs, regular_vehicle fixed_vehicles r = Some v
          ∧ list_get fixed_vehicles (r mod length fixed_vehicles) = Ok v
          ∧ holidays !! v = Some hs
          ∧ route_holidays holidays fixed_vehicles r = hs
          ∧ ∀ d, d ∈ hs → 6 ≤ d ≤ N.
Proof.
  destruct (list_get_lt fixed_vehicles (r mod length fixed_vehicles))
    as (v & Hv & Hget).
  { apply Nat.mod_upper_bound. lia. }
  destruct (hi_dom _ _ _ _ Hholidays v) as [hs Hhs].
  { by eapply list_elem_of_lookup_2. }
  exists v, hs. unfold route_holidays, regular_vehicle. rewrite Hv. simpl.
  rewrite Hhs. repeat split; try done.
  all: by destruct (hi_bounds _ _ _ _ Hholidays v hs Hhs) as [_ Hb]; apply Hb.
Qed.

Lemma route_body_inv (r : nat) (route : string)
    (acc : PyDict.t (list block) * nat) :
  routes !! r = Some route → inv r acc →
  ∃ acc', body acc (r, route) = Ok acc' ∧ inv (S r) acc'.
Proof.
  intros Hroute [Hidx Hentry Hkeys]. destruct acc as [tt bi]. simpl in *.
  destruct (regular_vehicle_holidays r) as (v & hs & Hv & Hget & Hhs & Hrh & Hb).
  destruct (day_loop_spec holidays backup_vehicles N v hs
              (substitutions_in_routes_before holidays fixed_vehicles N r)
              Hhs) as (st & Hrun & Hspec & Hbi); [|done|lia|].
  { intros e He. apply Hb in He. lia. }
  unfold route_body. rewrite py_mod_pos by done. run_bind.
  rewrite Hget. run_bind. rewrite Hidx, Hrun. run_bind.
  eexists. split; [done|]. constructor; simpl.
  - by rewrite substitutions_in_routes_before_succ, Hrh.
  - intros route' bs. destruct (decide (route = route')) as [<-|Hne].
    + rewrite get_set_eq. intros <-%(inj Some).
      exists r, v. split; [lia|]. split; [done|]. split; [lia|].
      split; [done|]. by rewrite Hrh.
    + rewrite get_set_ne by done. intros Hget'.
      destruct (Hentry _ _ Hget') as (j & v' & Hj & Hrj & Hlast & Hv' & Hspec').
      exists j, v'. split; [lia|]. split; [done|]. split; [|done].
      intros j' Hj'. destruct (decide (j' = r)) as [->|].
      * rewrite Hroute. congruence.
      * apply Hlast. lia.
  - intros j route' Hj Hrj. destruct (decide (route = route')) as [<-|Hne].
    + rewrite get_set_eq. eauto.
    + rewrite get_set_ne by done. apply (Hkeys j); [|done].
      destruct (decide (j = r)) as [->|]; [congruence | lia].
Qed.

Lemma route_loop_inv (rest done : list string)
    (acc : PyDict.t (list block) * nat) :
  routes = done ++ rest → inv (length done) acc →
  ∃ acc', for_each body acc (zip (seq (length done) (length rest)) rest)
          = Ok acc'
          ∧ inv (length routes) acc'.
Proof.
  revert done acc. induction rest as [|route rest IH]; intros done acc Hsplit Hinv.
  - simpl. exists acc. split; [done|].
    rewrite app_nil_r in Hsplit. by rewrite <- Hsplit in Hinv.
  - rewrite enumerate_from_cons.
    destruct (route_body_inv (length done) route acc) as (acc1 & Hstep & Hinv1);
      [|done|].
    { rewrite Hsplit. by rewrite list_lookup_middle. }
    cbn [for_each]. rewrite Hstep. run_bind.
    destruct (IH (done ++ [route]) acc1) as (acc' & Hrun & Hinv').
    { by rewrite <- app_assoc. }
    { rewrite length_app. simpl.
      by replace (length done + 1)%nat with (S (length done)) by lia. }
    rewrite length_app in Hrun. simpl in Hrun.
    replace (length done + 1)%nat with (S (length done)) in Hrun by lia.
    eauto.
Qed.
End route_loop.

Lemma routes_inv_start (holidays : gmap string (list Z))
    (fixed_vehicles backup_vehicles : list string) (N : Z)
    (routes : list string) :
  routes_inv holidays fixed_vehicles backup_vehicles N routes 0
             (PyDict.empty, 0%nat).
Proof.
  constructor; simpl.
  - unfold substitutions_in_routes_before. simpl.
    by rewrite Nat.Div0.mod_0_l.
  - done.
  - lia.
Qed.

(** ** The whole function *)

Lemma length_fixed_vehicles_of (data : dataframe) :
  length (fixed_vehicles_of data)
  = (length (routes_of data) `min` length (vehicles_of data))%nat.
Proof. unfold fixed_vehicles_of. by rewrite length_take. Qed.

Lemma length_backup_vehicles_of (data : dataframe) :
  length (backup_vehicles_of data)
  = (length (vehicles_of data) - length (routes_of data))%nat.
Proof. unfold backup_vehicles_of. by rewrite length_drop. Qed.

(** With more vehicles than routes the function returns, and the state of
    its last loop is the one [routes_inv] describes. *)
Lemma generate_succeeds (data : dataframe) (year month N : Z) :
  monthrange_days year month = Ok N →
  (length (routes_of data) < length (vehicles_of data))%nat →
  ∃ holidays tt bi,
    assign_holidays (fixed_vehicles_of data) N = Ok holidays
    ∧ holidays_inv (fixed_vehicles_of data) N (fixed_vehicles_of data) holidays
    ∧ route_loop data holidays N (enumerate (routes_of data)) = Ok (tt, bi)
    ∧ generate_block_timetable data year month = Ok tt
    ∧ routes_inv holidays (fixed_vehicles_of data) (backup_vehicles_of data) N
                 (routes_of data) (length (routes_of data)) (tt, bi).
Proof.
  intros Hmonth Hlen.
  destruct (monthrange_days_valid _ _ _ Hmonth) as [_ HN].
  destruct (assign_holidays_inv (fixed_vehicles_of data) N)
    as (holidays & Hassign & Hinv); [lia|].
  assert (Hloop : ∃ acc,
            route_loop data holidays N (enumerate (routes_of data)) = Ok acc
            ∧ routes_inv holidays (fixed_vehicles_of data)
                (backup_vehicles_of data) N (routes_of data)
                (length (routes_of data)) acc).
  { unfold route_loop, enumerate.
    destruct (decide (routes_of data = [])) as [Hnil|Hne].
    - rewrite Hnil. eexists. split; [done|]. apply routes_inv_start.
    - assert (0 < length (routes_of data))%nat
        by (destruct (routes_of data); simpl; [done | lia]).
      apply (route_loop_inv holidays (fixed_vehicles_of data)
               (backup_vehicles_of data) N (routes_of data)) with (done := []);
        try done; try lia.
      + rewrite length_fixed_vehicles_of. lia.
      + rewrite length_backup_vehicles_of. lia.
      + apply routes_inv_start. }
  destruct Hloop as ([tt bi] & Hloop & Hrinv).
  exists holidays, tt, bi. split_and!; try done.
  unfold generate_block_timetable. cbv zeta. rewrite Hmonth. run_bind.
  rewrite Hassign. run_bind. by rewrite Hloop.
Qed.

(** Without a backup vehicle the first route already raises. *)
Lemma generate_fails (data : dataframe) (year month N : Z) :
  monthrange_days year month = Ok N →
  routes_of data ≠ [] →
  (length (vehicles_of data) ≤ length (routes_of data))%nat →
  generate_block_timetable data year month
  = Raise (match vehicles_of data with
           | [] => ZeroDivisionError
           | _ => IndexError
           end).
Proof.
  intros Hmonth Hroutes Hlen.
  destruct (monthrange_days_valid _ _ _ Hmonth) as [_ HN].
  destruct (assign_holidays_inv (fixed_vehicles_of data) N)
    as (holidays & Hassign & Hinv); [lia|].
  unfold generate_block_timetable. cbv zeta. rewrite Hmonth. run_bind.
  rewrite Hassign. run_bind. unfold route_loop, enumerate.
  destruct (routes_of data) as [|route0 routes'] eqn:Er; [done|].
  rewrite enumerate_from_cons. cbn [for_each].
  assert (Hfixed : fixed_vehicles_of data = vehicles_of data).
  { unfold fixed_vehicles_of. rewrite Er. by apply take_ge. }
  assert (Hbackup : backup_vehicles_of data = []).
  { unfold backup_vehicles_of. rewrite Er. by apply drop_ge. }
  rewrite Hfixed in *. rewrite Hbackup.
  destruct (vehicles_of data) as [|v0 vs] eqn:Ev; [done|].
  assert (Hfirst : route_body holidays (v0 :: vs) [] N
                     (PyDict.empty, 0%nat) (0%nat, route0) = Raise IndexError).
  { unfold route_body. rewrite py_mod_pos by (simpl; lia). run_bind.
    rewrite Nat.Div0.mod_0_l.
    change (list_get (v0 :: vs) 0) with (Ok v0). run_bind.
    destruct (hi_head _ _ _ _ Hinv v0 eq_refl) as [tl Hv0].
    rewrite (day_loop_no_backup holidays N v0 (6 :: tl)); try done.
    - intros e He. destruct (hi_bounds _ _ _ _ Hinv _ _ Hv0) as [_ Hb].
      apply Hb in He. lia.
    - by left.
    - lia. }
  by rewrite Hfirst.
Qed.

(** Every successful call went through the three stages, and either there
    was no route at all or there was a backup vehicle. *)
Lemma generate_ok_inv (data : dataframe) (year month : Z)
    (tt : PyDict.t (list block)) :
  generate_block_timetable data year month = Ok tt →
  ∃ N holidays bi,
    monthrange_days year month = Ok N
    ∧ assign_holidays (fixed_vehicles_of data) N = Ok holidays
    ∧ holidays_inv (fixed_vehicles_of data) N (fixed_vehicles_of data) holidays
    ∧ route_loop data holidays N (enumerate (routes_of data)) = Ok (tt, bi)
    ∧ routes_inv holidays (fixed_vehicles_of data) (backup_vehicles_of data) N
                 (routes_of data) (length (routes_of data)) (tt, bi)
    ∧ (routes_of data = []
       ∨ (length (routes_of data) < length (vehicles_of data))%nat).
Proof.
  intros Hok.
  destruct (monthrange_days year month) as [N|e] eqn:Hmonth.
  2: { unfold generate_block_timetable in Hok. cbv zeta in Hok.
       by rewrite Hmonth in Hok. }
  destruct (monthrange_days_valid _ _ _ Hmonth) as [_ HN].
  exists N.
  destruct (decide (length (routes_of data) < length (vehicles_of data))%nat)
    as [Hlt|Hge].
  - destruct (generate_succeeds data year month N Hmonth Hlt)
      as (holidays & tt' & bi & Hassign & Hinv & Hloop & Hgen & Hrinv).
    rewrite Hgen in Hok. apply (inj Ok) in Hok as ->.
    exists holidays, bi. split_and!; try done. by right.
  - destruct (decide (routes_of data = [])) as [Hnil|Hne].
    + destruct (assign_holidays_inv (fixed_vehicles_of data) N)
        as (holidays & Hassign & Hinv); [lia|].
      unfold generate_block_timetable in Hok. cbv zeta in Hok.
      rewrite Hmonth in Hok. run_bind_in Hok. rewrite Hassign in Hok.
      run_bind_in Hok. rewrite Hnil in Hok. simpl in Hok.
      apply (inj Ok) in Hok as <-.
      exists holidays, 0%nat. rewrite Hnil. split_and!; try done.
      * apply routes_inv_start.
      * by left.
    + rewrite (generate_fails data year month N) in Hok; [done..|lia].
Qed.

(** ** What the returned timetable holds *)

Lemma emitted_for_spec (holidays : gmap string (list Z))
    (fixed_vehicles backup_vehicles : list string) (N : Z)
    (routes : list string) (tt : PyDict.t (list block)) (bi r_idx : nat)
    (bs : list block) :
  routes_inv holidays fixed_vehicles backup_vehicles N routes (length routes)
             (tt, bi) →
  emitted_for routes tt r_idx bs →
  ∃ v, regular_vehicle fixed_vehicles r_idx = Some v
       ∧ route_spec backup_vehicles v
           (route_holidays holidays fixed_vehicles r_idx)
           (substitutions_in_routes_before holidays fixed_vehicles N r_idx)
           N bs.
Proof.
  intros Hinv (route & Hroute & Hlater & Hget).
  destruct (ri_entry _ _ _ _ _ _ _ Hinv route bs Hget)
    as (j & v & Hj & Hrj & Hlast & Hv & Hspec).
  assert (Hr : (r_idx < length routes)%nat) by by eapply lookup_lt_Some.
  destruct (decide (j = r_idx)) as [->|Hne]; [eauto|]. exfalso.
  destruct (decide (j < r_idx)%nat) as [Hlt|Hge].
  - by apply (Hlast r_idx).
  - apply Hlater. apply list_elem_of_lookup. exists (j - S r_idx)%nat.
    rewrite lookup_drop. rewrite <- Hrj. f_equal. lia.
Qed.

(** What [emitted_for] asks beyond [entry_for] is that the route name is
    not entered again further down. *)
Lemma emitted_for_entry (routes : list string) (tt : PyDict.t (list block))
    (r_idx : nat) (bs : list block) :
  emitted_for routes tt r_idx bs
  ↔ entry_for routes tt r_idx bs
    ∧ ∃ route, routes !! r_idx = Some route ∧ route ∉ drop (S r_idx) routes.
Proof.
  split.
  - intros (route & Hroute & Hlater & Hget).
    split; exists route; by split.
  - intros [(route & Hroute & Hget) (route' & Hroute' & Hlater)].
    rewrite Hroute in Hroute'. injection Hroute' as <-.
    exists route. by split_and!.
Qed.

Lemma route_has_entry (holidays : gmap string (list Z))
    (fixed_vehicles backup_vehicles : list string) (N : Z)
    (routes : list string) (tt : PyDict.t (list block)) (bi : nat)
    (route : string) :
  routes_inv holidays fixed_vehicles backup_vehicles N routes (length routes)
             (tt, bi) →
  route ∈ routes →
  ∃ bs, PyDict.get route tt = Some bs ∧ tiles 1 bs N
        ∧ alternating (vehicle <$> bs).
Proof.
  intros Hinv Hin. apply list_elem_of_lookup in Hin as [j Hj].
  destruct (ri_keys _ _ _ _ _ _ _ Hinv j route) as [bs Hbs]; [|done|].
  { by eapply lookup_lt_Some. }
  destruct (ri_entry _ _ _ _ _ _ _ Hinv route bs Hbs)
    as (_ & _ & _ & _ & _ & _ & [Ht _ Ha]).
  eauto.
Qed.

(** ** The [in] tests of the summary *)

Lemma for_each_concat {S X : Type} (body : S → X → result S) (s : S)
    (ls : list (list X)) :
  for_each (λ acc l, for_each body acc l) s ls = for_each body s (concat ls).
Proof.
  revert s. induction ls as [|l ls IH]; intros s; [done|].
  cbn [for_each concat]. rewrite for_each_app. run_bind.
  destruct (for_each body s l); [apply IH | done].
Qed.

Lemma elem_of_concat {A : Type} (x : A) (ls : list (list A)) :
  x ∈ concat ls ↔ ∃ l, x ∈ l ∧ l ∈ ls.
Proof.
  induction ls as [|l ls IH]; simpl.
  - split; [by intros ?%elem_of_nil|]. by intros (l & _ & ?%elem_of_nil).
  - rewrite elem_of_app, IH. split.
    + intros [Hx|(l' & Hx & Hl')]; [exists l | exists l'].
      * split; [done | left].
      * split; [done | by right].
    + intros (l' & Hx & [->|Hl']%elem_of_cons); [by left | right; eauto].
Qed.

Lemma text_or_number (l : list cell) :
  (∀ c, c ∈ l → is_text c = true) ∨ (∃ c, c ∈ l ∧ is_text c = false).
Proof.
  induction l as [|c l [IH|(c' & Hc' & IH)]].
  - left. intros c Hc. by apply elem_of_nil in Hc.
  - destruct (is_text c) eqn:Hc.
    + left. intros c' Hc'. apply elem_of_cons in Hc' as [->|Hc']; auto.
    + right. exists c. split; [left | done].
  - right. exists c'. split; [by right | done].
Qed.

Lemma work_days_flat (tt : PyDict.t (list pyblock)) (v : cell) :
  work_days tt v
  = for_each (λ acc b, w ← block_work v b; Ok (acc + w)) 0
             (concat (PyDict.values tt)).
Proof. unfold work_days. apply for_each_concat. Qed.

Lemma block_work_returns (v : cell) (b : pyblock) :
  is_text v = true → is_text (py_vehicle b) = true →
  ∃ w, block_work v b = Ok w.
Proof.
  unfold block_work. destruct v as [v|n], (py_vehicle b) as [l|m];
    try discriminate. intros _ _. cbn [py_in]. run_bind.
  destruct (contains v l); eauto.
Qed.

Lemma block_work_raises (v : cell) (b : pyblock) :
  is_text v = false ∨ is_text (py_vehicle b) = false →
  block_work v b = Raise TypeError.
Proof.
  unfold block_work.
  destruct v as [v|n], (py_vehicle b) as [l|m]; cbn [is_text py_in];
    intros [H|H]; try discriminate; reflexivity.
Qed.

(** The loop over the blocks returns when the vehicle and every label are
    text; it raises [TypeError] at the first block otherwise. *)
Lemma block_loop_returns (v : cell) (bs : list pyblock) (a : Z) :
  is_text v = true →
  (∀ b, b ∈ bs → is_text (py_vehicle b) = true) →
  ∃ w, for_each (λ acc b, w ← block_work v b; Ok (acc + w)) a bs = Ok w.
Proof.
  intros Hv. revert a. induction bs as [|b bs IH]; intros a Hbs.
  - by exists a.
  - cbn [for_each]. destruct (block_work_returns v b Hv) as [w ->].
    { apply Hbs. left. }
    run_bind. apply IH. intros b' Hb'. apply Hbs. by right.
Qed.

Lemma block_loop_raises (v : cell) (bs : list pyblock) (a : Z) :
  bs ≠ [] →
  is_text v = false ∨ (∃ b, b ∈ bs ∧ is_text (py_vehicle b) = false) →
  for_each (λ acc b, w ← block_work v b; Ok (acc + w)) a bs = Raise TypeError.
Proof.
  revert a. induction bs as [|b bs IH]; intros a Hne Hbad; [done|].
  cbn [for_each].
  destruct (is_text v && is_text (py_vehicle b)) eqn:Hhere.
  - apply andb_prop in Hhere as [Hv Hb].
    destruct (block_work_returns v b Hv Hb) as [w ->]. run_bind.
    destruct Hbad as [Hbad|(b' & Hb' & Hbad)]; [congruence|].
    apply elem_of_cons in Hb' as [->|Hb']; [congruence|].
    apply IH; [by intros -> ; apply elem_of_nil in Hb' | right; eauto].
  - rewrite block_work_raises; [done|].
    apply andb_false_iff in Hhere. tauto.
Qed.

Lemma work_days_returns (tt : PyDict.t (list pyblock)) (v : cell) :
  labels_of tt = [] ∨ (∀ c, c ∈ v :: labels_of tt → is_text c = true) →
  ∃ w, work_days tt v = Ok w.
Proof.
  rewrite work_days_flat. unfold labels_of. intros [Hnil|Htext].
  - apply fmap_nil_inv in Hnil as ->. by exists 0.
  - apply block_loop_returns; [apply Htext; left|].
    intros b Hb. apply Htext. right. by apply list_elem_of_fmap_2.
Qed.

Lemma work_days_raises (tt : PyDict.t (list pyblock)) (v : cell) :
  labels_of tt ≠ [] →
  (∃ c, c ∈ v :: labels_of tt ∧ is_text c = false) →
  work_days tt v = Raise TypeError.
Proof.
  rewrite work_days_flat. unfold labels_of. intros Hne (c & Hc & Hbad).
  apply block_loop_raises; [by intros Hnil; rewrite Hnil in Hne|].
  apply elem_of_cons in Hc as [->|Hc]; [by left|]. right.
  apply list_elem_of_fmap in Hc as (b & -> & Hb). eauto.
Qed.

(** The loop over the vehicles, from any list of rows. *)
Lemma summary_loop_returns (tt : PyDict.t (list pyblock)) (vs : list cell)
    (N : Z) (rows0 : list summary_row) :
  labels_of tt = [] ∨ (∀ c, c ∈ vs ++ labels_of tt → is_text c = true) →
  ∃ rows,
    for_each (λ summary v,
                w ← work_days tt v;
                Ok (summary ++ [ {| Vehicle := v;
                                    Working_Days := w;
                                    Holidays := N - w |} ]))
             rows0 vs = Ok (rows0 ++ rows)
    ∧ Vehicle <$> rows = vs.
Proof.
  revert rows0. induction vs as [|v vs IH]; intros rows0 Hok.
  - exists []. by rewrite app_nil_r.
  - destruct (work_days_returns tt v) as [w Hw].
    { destruct Hok as [Hnil|Htext]; [by left | right].
      intros c Hc. apply Htext. apply elem_of_cons in Hc as [->|Hc].
      - left.
      - right. apply elem_of_app. by right. }
    rewrite (for_each_cons_ok _ rows0
               (rows0 ++ [ {| Vehicle := v; Working_Days := w;
                              Holidays := N - w |} ]))
      by (cbv beta; by rewrite Hw).
    destruct (IH (rows0 ++ [ {| Vehicle := v; Working_Days := w;
                                Holidays := N - w |} ]))
      as (rows & -> & Hrows).
    { destruct Hok as [Hnil|Htext]; [by left | right].
      intros c Hc. apply Htext. by right. }
    exists ({| Vehicle := v; Working_Days := w; Holidays := N - w |} :: rows).
    split; [by rewrite <- app_assoc | by rewrite fmap_cons, Hrows].
Qed.

Lemma summary_loop_raises (tt : PyDict.t (list pyblock)) (vs : list cell)
    (N : Z) (rows0 : list summary_row) :
  vs ≠ [] → labels_of tt ≠ [] →
  (∃ c, c ∈ vs ++ labels_of tt ∧ is_text c = false) →
  for_each (λ summary v,
              w ← work_days tt v;
              Ok (summary ++ [ {| Vehicle := v;
                                  Working_Days := w;
                                  Holidays := N - w |} ]))
           rows0 vs = Raise TypeError.
Proof.
  revert rows0. induction vs as [|v vs IH]; intros rows0 Hvs Hne Hbad; [done|].
  destruct (text_or_number (v :: labels_of tt)) as [Htext|Hhere].
  - destruct (work_days_returns tt v) as [w Hw]; [by right|].
    rewrite (for_each_cons_ok _ rows0
               (rows0 ++ [ {| Vehicle := v; Working_Days := w;
                              Holidays := N - w |} ]))
      by (cbv beta; by rewrite Hw).
    destruct Hbad as (c & Hc & Hbad).
    assert (Hc' : c ∈ vs).
    { apply elem_of_cons in Hc as [->|Hc].
      - rewrite Htext in Hbad by left. discriminate.
      - apply elem_of_app in Hc as [Hc|Hc]; [done|].
        rewrite Htext in Hbad by by right. discriminate. }
    apply IH; [by intros ->; apply elem_of_nil in Hc' | done |].
    exists c. split; [|done]. apply elem_of_app. by left.
  - apply for_each_cons_raise. cbv beta. by rewrite work_days_raises.
Qed.

(** [generate_summary] raises nothing but [TypeError]. *)
Lemma generate_summary_cases (tt : PyDict.t (list pyblock)) (vs : list cell)
    (N : Z) :
  (∃ rows, generate_summary tt vs N = Ok rows)
  ∨ generate_summary tt vs N = Raise TypeError.
Proof.
  unfold generate_summary.
  destruct (decide (vs = [])) as [->|Hvs]; [left; by exists []|].
  destruct (decide (labels_of tt = [])) as [Hnil|Hne].
  { left. destruct (summary_loop_returns tt vs N []) as (rows & Hrows & _);
      [by left|]. eauto. }
  destruct (text_or_number (vs ++ labels_of tt)) as [Hgood|Hbad].
  - left. destruct (summary_loop_returns tt vs N []) as (rows & Hrows & _);
      [by right | eauto].
  - right. by apply summary_loop_raises.
Qed.

(** *** Text cells *)

Lemma values_py_timetable (tt : PyDict.t (list block)) :
  PyDict.values (py_timetable tt)
  = (λ bs : list block, py_block <$> bs) <$> PyDict.values tt.
Proof.
  unfold PyDict.values, PyDict.items, py_timetable.
  rewrite <- !list_fmap_compose. apply list_fmap_ext. by intros _ [k bs] _.
Qed.

Lemma labels_of_py_timetable (tt : PyDict.t (list block)) (c : cell) :
  c ∈ labels_of (py_timetable tt) → is_text c = true.
Proof.
  unfold labels_of. rewrite values_py_timetable. intros Hc.
  apply list_elem_of_fmap in Hc as (b & -> & Hb).
  apply elem_of_concat in Hb as (bs & Hb & Hbs).
  apply list_elem_of_fmap in Hbs as (bs' & -> & _).
  by apply list_elem_of_fmap in Hb as (b' & -> & _).
Qed.

Lemma dropna_column_cells (column : list (option string)) :
  dropna (column_cells column) = Text <$> dropna column.
Proof.
  unfold dropna, column_cells.
  induction column as [|[x|] column IH]; [done | | done].
  rewrite fmap_cons. cbn [omap list_omap fmap option_fmap option_map id].
  by rewrite fmap_cons, <- IH.
Qed.

Lemma summary_vehicles_text (column : list (option string)) :
  summary_vehicles (column_cells column) = Text <$> take 14 (dropna column).
Proof.
  unfold summary_vehicles. by rewrite dropna_column_cells, fmap_take.
Qed.

Lemma block_work_text (v : string) (b : block) :
  block_work (Text v) (py_block b) = Ok (text_block_work v b).
Proof.
  unfold block_work, text_block_work, py_block.
  cbn [py_in py_vehicle py_start py_end]. run_bind.
  destruct (contains v (vehicle b)); [|done].
  by destruct (contains "(H)" (vehicle b)).
Qed.

Lemma block_loop_text (v : string) (bs : list block) (a : Z) :
  for_each (λ acc b, w ← block_work (Text v) b; Ok (acc + w)) a
           (py_block <$> bs)
  = Ok (a + route_work v bs).
Proof.
  unfold route_work, sumZ. revert a.
  induction bs as [|b bs IH]; intros a.
  - simpl. f_equal. lia.
  - rewrite !fmap_cons. cbn [for_each foldr]. rewrite block_work_text.
    run_bind. rewrite IH. f_equal. lia.
Qed.

Lemma work_days_text (tt : PyDict.t (list block)) (v : string) :
  work_days (py_timetable tt) (Text v)
  = Ok (sumZ (route_work v <$> PyDict.values tt)).
Proof.
  unfold work_days. rewrite values_py_timetable.
  generalize (PyDict.values tt). intros vals.
  assert (Hgen : ∀ a,
            for_each (λ acc route_blocks,
                        for_each (λ acc' b,
                                    w ← block_work (Text v) b; Ok (acc' + w))
                                 acc route_blocks)
                     a ((λ bs : list block, py_block <$> bs) <$> vals)
            = Ok (a + sumZ (route_work v <$> vals))).
  { induction vals as [|bs vals IH]; intros a.
    - simpl. f_equal. lia.
    - rewrite !fmap_cons. cbn [for_each]. rewrite block_loop_text. run_bind.
      rewrite IH. f_equal. unfold sumZ. cbn [foldr]. lia. }
  rewrite Hgen. f_equal.
Qed.

(** The summary of a timetable and of vehicles that are all text. *)
Lemma generate_summary_text (tt : PyDict.t (list block)) (vs : list string)
    (N : Z) :
  generate_summary (py_timetable tt) (Text <$> vs) N
  = Ok ((λ v, let w := sumZ (route_work v <$> PyDict.values tt) in
              {| Vehicle := Text v; Working_Days := w; Holidays := N - w |})
        <$> vs).
Proof.
  unfold generate_summary.
  assert (Hgen : ∀ rows0,
            for_each (λ summary v,
                        w ← work_days (py_timetable tt) v;
                        Ok (summary ++ [ {| Vehicle := v;
                                            Working_Days := w;
                                            Holidays := N - w |} ]))
                     rows0 (Text <$> vs)
            = Ok (rows0 ++
                  ((λ v, let w := sumZ (route_work v <$> PyDict.values tt) in
                         {| Vehicle := Text v; Working_Days := w;
                            Holidays := N - w |}) <$> vs))).
  { induction vs as [|v vs IH]; intros rows0.
    - simpl. by rewrite app_nil_r.
    - rewrite !fmap_cons. cbn [for_each]. rewrite work_days_text. run_bind.
      rewrite IH. by rewrite <- app_assoc. }
  by rewrite Hgen.
Qed.

(** ** The claims *)

(** C1. When there is at least one route, more vehicles than routes and a
    valid month of [N] days, [generate_block_timetable] returns a timetable
    in which the block list of every route is in increasing day order
    without gap or overlap, covers every day [1 .. N] exactly once, starts
    on day 1 and ends on day [N]. *)
Theorem blocks_cover_month (data : dataframe) (year month N : Z) :
  routes_of data ≠ [] →
  (length (routes_of data) < length (vehicles_of data))%nat →
  monthrange_days year month = Ok N →
  ∃ tt, generate_block_timetable data year month = Ok tt
        ∧ ∀ route, route ∈ routes_of data →
            ∃ bs, PyDict.get route tt = Some bs
                  ∧ increasing_without_gap bs
                  ∧ each_day_once bs N
                  ∧ first_day_to_last_day bs N.
Proof.
  intros _ Hlen Hmonth.
  destruct (monthrange_days_valid _ _ _ Hmonth) as [_ HN].
  destruct (generate_succeeds data year month N Hmonth Hlen)
    as (holidays & tt & bi & _ & _ & _ & Hgen & Hinv).
  exists tt. split; [done|]. intros route Hroute.
  destruct (route_has_entry _ _ _ _ _ _ _ _ Hinv Hroute) as (bs & Hbs & Ht & _).
  exists bs. split_and!; [done | | |].
  - by eapply tiles_increasing.
  - intros d Hd. by eapply tiles_each_day_once.
  - apply tiles_first_last; [done | lia].
Qed.

Lemma blocks_cover_month_witness :
  ∃ tt, generate_block_timetable two_routes_one_backup 2025 2 = Ok tt
        ∧ ∀ route, route ∈ routes_of two_routes_one_backup →
            ∃ bs, PyDict.get route tt = Some bs
                  ∧ increasing_without_gap bs
                  ∧ each_day_once bs 28
                  ∧ first_day_to_last_day bs 28.
Proof.
  apply (blocks_cover_month two_routes_one_backup 2025 2 28).
  - discriminate.
  - vm_compute. lia.
  - reflexivity.
Defined.

(** C5, as amended.  In a returned timetable, for a route whose name is
    not entered again further down the sheet, the block that covers a day
    which is not a holiday of the route's regular vehicle carries the
    regular vehicle, and the block that covers a holiday carries the
    number of a backup vehicle followed by [" (H)"]. *)
Theorem regular_vehicle_or_backup (data : dataframe) (year month N : Z)
    (tt : PyDict.t (list block)) (holidays : gmap string (list Z))
    (r_idx : nat) (bs : list block) (v : string) (d : Z) :
  generate_block_timetable data year month = Ok tt →
  monthrange_days year month = Ok N →
  assign_holidays (fixed_vehicles_of data) N = Ok holidays →
  emitted_for (routes_of data) tt r_idx bs →
  regular_vehicle (fixed_vehicles_of data) r_idx = Some v →
  1 ≤ d ≤ N →
  ∃ b, b ∈ bs ∧ covers b d
       ∧ (d ∉ route_holidays holidays (fixed_vehicles_of data) r_idx →
          vehicle b = v)
       ∧ (d ∈ route_holidays holidays (fixed_vehicles_of data) r_idx →
          ∃ bv, bv ∈ backup_vehicles_of data ∧ vehicle b = holiday_label bv).
Proof.
  intros Hgen Hmonth Hassign Hem Hv Hd.
  destruct (generate_ok_inv _ _ _ _ Hgen)
    as (N' & holidays' & bi & Hmonth' & Hassign' & _ & _ & Hinv & _).
  rewrite Hmonth in Hmonth'. apply (inj Ok) in Hmonth' as <-.
  rewrite Hassign in Hassign'. apply (inj Ok) in Hassign' as <-.
  destruct (emitted_for_spec _ _ _ _ _ _ _ _ _ Hinv Hem)
    as (v' & Hv' & [Ht Hlab _]).
  rewrite Hv in Hv'. injection Hv' as <-.
  destruct (tiles_each_day_once _ _ _ d Ht Hd) as (i & b & Hi & Hc & _).
  assert (Hb : b ∈ bs) by by eapply list_elem_of_lookup_2.
  exists b. split_and!; [done..| |].
  - intros Hout. specialize (Hlab b d Hb Hc). unfold day_label in Hlab.
    rewrite bool_decide_eq_false_2 in Hlab by done. congruence.
  - intros Hin. specialize (Hlab b d Hb Hc). unfold day_label in Hlab.
    rewrite bool_decide_eq_true_2 in Hlab by done.
    apply fmap_Some in Hlab as (bv & Hbv & ->).
    exists bv. split; [|done]. by eapply list_elem_of_lookup_2.
Qed.

(** C6. In a returned timetable two consecutive blocks of a route never
    carry the same vehicle label. *)
Theorem consecutive_blocks_differ (data : dataframe) (year month : Z)
    (tt : PyDict.t (list block)) (route : string) (bs : list block)
    (i : nat) (b b' : block) :
  generate_block_timetable data year month = Ok tt →
  PyDict.get route tt = Some bs →
  bs !! i = Some b → bs !! S i = Some b' →
  vehicle b ≠ vehicle b'.
Proof.
  intros Hgen Hbs Hi Hi'.
  destruct (generate_ok_inv _ _ _ _ Hgen)
    as (N & holidays & bi & _ & _ & _ & _ & Hinv & _).
  destruct (ri_entry _ _ _ _ _ _ _ Hinv route bs Hbs)
    as (_ & _ & _ & _ & _ & _ & [_ _ Ha]).
  eapply (alternating_lookup _ i); [done | |].
  - by rewrite list_lookup_fmap, Hi.
  - by rewrite list_lookup_fmap, Hi'.
Qed.

(** C7. Whether [os.remove] deletes the temporary file or raises, the
    handler goes on in the same way: the run is the run of a successful
    deletion, and the handler calls [generate_summary].  When that call
    returns, the summary table and its CSV download button are shown after
    the PDF download button and no exception escapes; it returns whenever
    the vehicle cells and the block labels are text.  The one exception
    that can end the run is the [TypeError] of [generate_summary] itself,
    which a numeric cell raises with or without a failed deletion. *)
Theorem cleanup_failure_ignored (GADI_NUMBER : list (option cell))
    (timetable_blocks : PyDict.t (list pyblock)) (days_in_month : Z)
    (failure : option Z) :
  let r :=
    after_pdf_read GADI_NUMBER timetable_blocks days_in_month failure in
  r = after_pdf_read GADI_NUMBER timetable_blocks days_in_month None
  ∧ match generate_summary timetable_blocks (summary_vehicles GADI_NUMBER)
                           days_in_month with
    | Ok summary =>
        r = {| shown := [PdfDownloadButton; SummarySubheader;
                         SummaryDataframe summary; CsvDownloadButton summary];
               escaped := None |}
    | Raise e =>
        e = TypeError
        ∧ r = {| shown := [PdfDownloadButton]; escaped := Some TypeError |}
    end
  ∧ ((∀ c, c ∈ summary_vehicles GADI_NUMBER ++ labels_of timetable_blocks →
           is_text c = true) →
     ∃ summary,
       generate_summary timetable_blocks (summary_vehicles GADI_NUMBER)
                        days_in_month = Ok summary
       ∧ Vehicle <$> summary = summary_vehicles GADI_NUMBER
       ∧ r = {| shown := [PdfDownloadButton; SummarySubheader;
                          SummaryDataframe summary;
                          CsvDownloadButton summary];
                escaped := None |}).
Proof.
  assert (Hsame :
    after_pdf_read GADI_NUMBER timetable_blocks days_in_month failure
    = after_pdf_read GADI_NUMBER timetable_blocks days_in_month None)
    by by destruct failure.
  cbv zeta. rewrite Hsame. split_and!; [done | |].
  - unfold after_pdf_read. cbn [os_remove try_except_pass].
    destruct (generate_summary_cases timetable_blocks
                (summary_vehicles GADI_NUMBER) days_in_month)
      as [[rows ->] | ->]; done.
  - intros Htext. unfold after_pdf_read. cbn [os_remove try_except_pass].
    unfold generate_summary.
    destruct (summary_loop_returns timetable_blocks
                (summary_vehicles GADI_NUMBER) days_in_month [])
      as (rows & -> & Hrows); [by right|].
    exists rows. by rewrite app_nil_l.
Qed.

(** C9. The backup vehicles are taken in one round-robin for the whole
    timetable.  The counter is 0 before the first route; after the first
    [r] routes it is the number of substitutions made in them, modulo the
    number of backup vehicles, so the next route goes on where the
    previous one stopped; and the substitution of rank [k] in
    route-then-day order carries backup vehicle [k mod len(backup)]. *)
Theorem shared_round_robin (data : dataframe) (year month N : Z)
    (tt : PyDict.t (list block)) (holidays : gmap string (list Z)) :
  generate_block_timetable data year month = Ok tt →
  monthrange_days year month = Ok N →
  assign_holidays (fixed_vehicles_of data) N = Ok holidays →
  (∀ r, (r ≤ length (routes_of data))%nat →
     ∃ tt_r, route_loop data holidays N (take r (enumerate (routes_of data)))
             = Ok (tt_r,
                   (substitutions_in_routes_before
                      holidays (fixed_vehicles_of data) N r
                    mod length (backup_vehicles_of data))%nat))
  ∧ (∀ r_idx bs d,
       emitted_for (routes_of data) tt r_idx bs →
       d ∈ route_holidays holidays (fixed_vehicles_of data) r_idx →
       ∃ b bv, b ∈ bs ∧ covers b d
               ∧ backup_vehicles_of data
                 !! (substitution_rank holidays (fixed_vehicles_of data) N
                                       r_idx d
                     mod length (backup_vehicles_of data))%nat = Some bv
               ∧ vehicle b = holiday_label bv).
Proof.
  intros Hgen Hmonth Hassign.
  destruct (generate_ok_inv _ _ _ _ Hgen)
    as (N' & holidays' & bi & Hmonth' & Hassign' & Hhinv & _ & Hinv & Hcase).
  rewrite Hmonth in Hmonth'. apply (inj Ok) in Hmonth' as <-.
  rewrite Hassign in Hassign'. apply (inj Ok) in Hassign' as <-.
  destruct (monthrange_days_valid _ _ _ Hmonth) as [_ HN].
  split.
  - intros r Hr. unfold route_loop, enumerate.
    rewrite zip_with_take, take_seq.
    replace (r `min` length (routes_of data))%nat
      with (length (take r (routes_of data)))
      by (rewrite length_take; lia).
    destruct (decide (r = 0%nat)) as [->|Hpos].
    { simpl. eexists. f_equal. f_equal.
      unfold substitutions_in_routes_before. simpl.
      by rewrite Nat.Div0.mod_0_l. }
    destruct Hcase as [Hnil|Hlt]; [rewrite Hnil in Hr; simpl in Hr; lia|].
    destruct (route_loop_inv holidays (fixed_vehicles_of data)
                (backup_vehicles_of data) N (take r (routes_of data)))
      with (rest := take r (routes_of data)) (done := @nil string)
           (acc := (@PyDict.empty (list block), 0%nat))
      as ([tt_r bi_r] & Hrun & [Hidx _ _]); try done; try lia.
    + rewrite length_fixed_vehicles_of. lia.
    + rewrite length_backup_vehicles_of. lia.
    + apply routes_inv_start.
    + simpl in Hrun, Hidx. rewrite Hrun. exists tt_r. f_equal. f_equal.
      rewrite Hidx. by rewrite length_take, Nat.min_l by lia.
  - intros r_idx bs d Hem Hd.
    destruct (emitted_for_spec _ _ _ _ _ _ _ _ _ Hinv Hem)
      as (v & Hv & [Ht Hlab _]).
    assert (Hrange : 1 ≤ d ≤ N).
    { unfold route_holidays in Hd. rewrite Hv in Hd. simpl in Hd.
      destruct (holidays !! v) as [hs|] eqn:Hhs; simpl in Hd.
      - destruct (hi_bounds _ _ _ _ Hhinv v hs Hhs) as [_ Hb].
        apply Hb in Hd. lia.
      - by apply elem_of_nil in Hd. }
    destruct (tiles_each_day_once _ _ _ d Ht Hrange) as (i & b & Hi & Hc & _).
    assert (Hb : b ∈ bs) by by eapply list_elem_of_lookup_2.
    specialize (Hlab b d Hb Hc). unfold day_label in Hlab.
    rewrite bool_decide_eq_true_2 in Hlab by done.
    apply fmap_Some in Hlab as (bv & Hbv & Hlabel).
    exists b, bv. split_and!; done.
Qed.

(** C2, as amended.  When no fixed vehicle's own number contains ["(H)"],
    every block of a returned timetable whose label carries the marker
    covers only holidays of the regular vehicle of its route. *)
Theorem marker_marks_holidays (data : dataframe) (year month : Z) :
  (∀ v, v ∈ fixed_vehicles_of data → carries_marker v = false) →
  marker_only_on_holidays data year month.
Proof.
  intros Hclean tt N holidays r_idx bs v hs b d
         Hgen Hmonth Hassign Hem Hv Hhs Hb Hmark Hc.
  destruct (generate_ok_inv _ _ _ _ Hgen)
    as (N' & holidays' & bi & Hmonth' & Hassign' & _ & _ & Hinv & _).
  rewrite Hmonth in Hmonth'. apply (inj Ok) in Hmonth' as <-.
  rewrite Hassign in Hassign'. apply (inj Ok) in Hassign' as <-.
  destruct (emitted_for_spec _ _ _ _ _ _ _ _ _ Hinv Hem)
    as (v' & Hv' & [_ Hlab _]).
  rewrite Hv in Hv'. injection Hv' as <-.
  specialize (Hlab b d Hb Hc). unfold day_label, route_holidays in Hlab.
  rewrite Hv in Hlab. simpl in Hlab. rewrite Hhs in Hlab. simpl in Hlab.
  destruct (decide (d ∈ hs)) as [Hin|Hout]; [done|].
  rewrite bool_decide_eq_false_2 in Hlab by done.
  injection Hlab as Hlab. rewrite <- Hlab in Hmark.
  rewrite Hclean in Hmark; [done|].
  unfold regular_vehicle in Hv. by eapply list_elem_of_lookup_2.
Qed.

(** C4, as amended.  When the fixed vehicle numbers are pairwise distinct,
    the fixed vehicle at position [i] receives exactly the days
    [(i mod 5) + 6], [(i mod 5) + 12], ..., up to five of them and as many
    as fit in the month; all of them lie in [6 .. N]. *)
Theorem distinct_vehicles_follow_rule (data : dataframe) (year month : Z) :
  NoDup (fixed_vehicles_of data) → follows_holiday_rule data year month.
Proof.
  intros Hnodup N holidays i v Hmonth Hassign Hi.
  destruct (monthrange_days_valid _ _ _ Hmonth) as [_ HN].
  destruct (assign_holidays_inv (fixed_vehicles_of data) N)
    as (holidays' & Hassign' & Hinv); [lia|].
  rewrite Hassign in Hassign'. apply (inj Ok) in Hassign' as <-.
  pose proof (hi_once _ _ _ _ Hinv i v Hi) as Honce.
  rewrite Honce by (intros j Hj; by eapply NoDup_lookup).
  destruct (holiday_while_closed 5 [] (Z.of_nat (i mod 5) + 6) N)
    as (K & -> & HK & Hin & Hstop).
  cbn [length] in Hin, Hstop. exists K.
  assert (Hrule : (λ k, Z.of_nat (i mod 5) + 6 + 6 * Z.of_nat k) <$> seq 0 K
                  = holiday_rule i K).
  { unfold holiday_rule. apply list_fmap_ext. intros _ k _. lia. }
  rewrite app_nil_l, Hrule. split_and!; [done | done | lia |].
  intros d Hd. rewrite <- Hrule in Hd.
  apply list_elem_of_fmap in Hd as (k & -> & Hk). apply elem_of_seq in Hk.
  lia.
Qed.

(** The bounds of C4 need no side condition: in every month each holiday
    list has at most five days, all of them in [6 .. N]. *)
Lemma holidays_within_month (fixed_vehicles : list string) (year month N : Z)
    (holidays : gmap string (list Z)) (v : string) (hs : list Z) :
  monthrange_days year month = Ok N →
  assign_holidays fixed_vehicles N = Ok holidays →
  holidays !! v = Some hs →
  (length hs ≤ 5)%nat ∧ ∀ d, d ∈ hs → 6 ≤ d ≤ N.
Proof.
  intros Hmonth Hassign Hhs.
  destruct (monthrange_days_valid _ _ _ Hmonth) as [_ HN].
  destruct (assign_holidays_inv fixed_vehicles N)
    as (holidays' & Hassign' & Hinv); [lia|].
  rewrite Hassign in Hassign'. apply (inj Ok) in Hassign' as <-.
  by apply (hi_bounds _ _ _ _ Hinv v).
Qed.

(** When no vehicle number is repeated, two holidays of one fixed vehicle
    are at least six days apart. *)
Lemma holidays_six_apart (fixed_vehicles : list string) (N : Z)
    (holidays : gmap string (list Z)) (i : nat) (v : string) (hs : list Z)
    (d d' : Z) :
  NoDup fixed_vehicles →
  holidays_inv fixed_vehicles N fixed_vehicles holidays →
  fixed_vehicles !! i = Some v → holidays !! v = Some hs →
  d ∈ hs → d' ∈ hs → d < d' → d + 6 ≤ d'.
Proof.
  intros Hnodup Hinv Hi Hhs Hd Hd' Hlt.
  pose proof (hi_once _ _ _ _ Hinv i v Hi) as Honce.
  rewrite Honce in Hhs by (intros j Hj; by eapply NoDup_lookup).
  apply (inj Some) in Hhs as <-.
  destruct (holiday_while_closed 5 [] (Z.of_nat (i mod 5) + 6) N)
    as (K & Heq & _).
  rewrite Heq, app_nil_l in Hd, Hd'.
  apply list_elem_of_fmap in Hd as (k & -> & _).
  apply list_elem_of_fmap in Hd' as (k' & -> & _). lia.
Qed.

(** C10, as amended.  When the fixed vehicle numbers are pairwise distinct
    and none of them contains ["(H)"], every block of a returned timetable
    whose label carries the marker lasts exactly one day. *)
Theorem marked_blocks_are_single_days (data : dataframe) (year month : Z) :
  NoDup (fixed_vehicles_of data) →
  (∀ v, v ∈ fixed_vehicles_of data → carries_marker v = false) →
  marked_blocks_last_one_day data year month.
Proof.
  intros Hnodup Hclean tt route bs b Hgen Hbs Hb Hmark.
  destruct (generate_ok_inv _ _ _ _ Hgen)
    as (N & holidays & bi & Hmonth & Hassign & Hhinv & _ & Hinv & _).
  destruct (ri_entry _ _ _ _ _ _ _ Hinv route bs Hbs)
    as (j & v & _ & _ & _ & Hv & [Ht Hlab _]).
  destruct (tiles_bounds _ _ _ _ Ht Hb) as (Hlo & Hle & Hhi).
  assert (Hvin : v ∈ fixed_vehicles_of data)
    by (unfold regular_vehicle in Hv; by eapply list_elem_of_lookup_2).
  destruct (hi_dom _ _ _ _ Hhinv v Hvin) as [hs Hhs].
  assert (Hall : ∀ d, covers b d → d ∈ hs).
  { intros d Hc. specialize (Hlab b d Hb Hc).
    unfold day_label, route_holidays in Hlab.
    rewrite Hv in Hlab. simpl in Hlab. rewrite Hhs in Hlab. simpl in Hlab.
    destruct (decide (d ∈ hs)) as [Hin|Hout]; [done|].
    rewrite bool_decide_eq_false_2 in Hlab by done.
    injection Hlab as Hlab. rewrite <- Hlab in Hmark.
    by rewrite Hclean in Hmark. }
  destruct (decide (start b = end_ b)) as [|Hne]; [done|]. exfalso.
  assert (H1 : start b ∈ hs) by (apply Hall; unfold covers; lia).
  assert (H2 : start b + 1 ∈ hs) by (apply Hall; unfold covers; lia).
  pose proof (holidays_six_apart _ _ _ _ _ _ _ _ Hnodup Hhinv Hv Hhs H1 H2).
  lia.
Qed.

(** C8, as amended.  With at least one route and no more vehicles than
    routes the call never returns a timetable.  With an empty vehicle list
    it raises [ZeroDivisionError] when it picks the vehicle of the first
    route; otherwise it raises [IndexError] in the first route, on day 6,
    which is the first holiday the loop meets: days 1 to 5 pass and leave
    the loop variables as they were. *)
Theorem no_backup_no_timetable (data : dataframe) (year month N : Z) :
  monthrange_days year month = Ok N →
  routes_of data ≠ [] →
  (length (vehicles_of data) ≤ length (routes_of data))%nat →
  generate_block_timetable data year month
  = Raise (match vehicles_of data with
           | [] => ZeroDivisionError
           | _ => IndexError
           end)
  ∧ (vehicles_of data ≠ [] →
     ∃ holidays v hs,
       backup_vehicles_of data = []
       ∧ assign_holidays (fixed_vehicles_of data) N = Ok holidays
       ∧ regular_vehicle (fixed_vehicles_of data) 0 = Some v
       ∧ holidays !! v = Some hs
       ∧ 6 ∈ hs ∧ (∀ d, d ∈ hs → 6 ≤ d)
       ∧ for_each (day_body holidays [] N v) (route_start v 0) (range 1 6)
         = Ok (route_start v 0)
       ∧ day_body holidays [] N v (route_start v 0) 6 = Raise IndexError).
Proof.
  intros Hmonth Hroutes Hlen. split; [by apply (generate_fails _ _ _ N)|].
  intros Hvehicles.
  destruct (monthrange_days_valid _ _ _ Hmonth) as [_ HN].
  destruct (assign_holidays_inv (fixed_vehicles_of data) N)
    as (holidays & Hassign & Hinv); [lia|].
  assert (Hfixed : fixed_vehicles_of data = vehicles_of data)
    by (unfold fixed_vehicles_of; by apply take_ge).
  assert (Hbackup : backup_vehicles_of data = [])
    by (unfold backup_vehicles_of; by apply drop_ge).
  destruct (vehicles_of data) as [|v0 vs] eqn:Ev; [done|].
  assert (Hhead : head (fixed_vehicles_of data) = Some v0)
    by by rewrite Hfixed.
  destruct (hi_head _ _ _ _ Hinv v0 Hhead) as [tl Hv0].
  assert (Hlate : ∀ d, d ∈ 6 :: tl → 6 ≤ d).
  { intros d Hd. destruct (hi_bounds _ _ _ _ Hinv _ _ Hv0) as [_ Hb].
    apply Hb in Hd. lia. }
  exists holidays, v0, (6 :: tl). split_and!; try done.
  - unfold regular_vehicle. rewrite Nat.Div0.mod_0_l. by rewrite Hfixed.
  - by left.
  - apply (first_five_days holidays N v0 (6 :: tl)); try done; lia.
  - apply (sixth_day_raises holidays N v0 (6 :: tl)); try done; by left.
Qed.

(** C3 at the spreadsheet of one route, its vehicle "A" and the backup
    vehicle "B", January 2025.  The summary has a row for "B", which has no
    pre-assigned holiday and serves the route on five days, and reports no
    working day and 31 holidays for it. *)
Theorem summary_row_of_backup_vehicle :
  generate_block_timetable one_route_one_backup 2025 1
  = Ok [("R1", january_blocks)]
  ∧ assign_holidays (fixed_vehicles_of one_route_one_backup) 31
    = Ok january_holidays
  ∧ january_holidays !! "B" = None
  ∧ fixed_vehicles_of one_route_one_backup = ["A"]
  ∧ summary_vehicles (column_cells (GADI_NUMBER one_route_one_backup))
    = [Text "A"; Text "B"]
  ∧ generate_summary
      (py_timetable [("R1", january_blocks)])
      (summary_vehicles (column_cells (GADI_NUMBER one_route_one_backup))) 31
    = Ok [ {| Vehicle := Text "A"; Working_Days := 26; Holidays := 5 |};
           {| Vehicle := Text "B"; Working_Days := 0; Holidays := 31 |} ].
Proof. split_and!; by vm_compute. Qed.

(** ** The sample spreadsheets, evaluated *)

Example january_timetable :
  generate_block_timetable one_route_one_backup 2025 1
  = Ok [("R1", january_blocks)]
  ∧ assign_holidays (fixed_vehicles_of one_route_one_backup) 31
    = Ok january_holidays.
Proof. split; by vm_compute. Qed.

Example marked_january_timetable :
  generate_block_timetable marked_vehicle_number 2025 1
  = Ok [("R1", marked_january_blocks)]
  ∧ assign_holidays (fixed_vehicles_of marked_vehicle_number) 31
    = Ok marked_january_holidays.
Proof. split; by vm_compute. Qed.

Example repeated_february_timetable :
  generate_block_timetable repeated_vehicle_number 2025 2
  = Ok [("R1", repeated_february_blocks); ("R2", repeated_february_blocks)]
  ∧ assign_holidays (fixed_vehicles_of repeated_vehicle_number) 28
    = Ok repeated_february_holidays.
Proof. split; by vm_compute. Qed.

Example two_backups_january_timetable :
  generate_block_timetable two_routes_two_backups 2025 1
  = Ok two_backups_january
  ∧ assign_holidays (fixed_vehicles_of two_routes_two_backups) 31
    = Ok two_backups_january_holidays.
Proof. split; by vm_compute. Qed.

(** The tail of the handler for [one_route_one_backup] in January 2025
    when the deletion of the temporary file fails: the summary and its CSV
    button are shown. *)
Example failed_cleanup_on_text_cells :
  after_pdf_read (column_cells (GADI_NUMBER one_route_one_backup))
                 (py_timetable [("R1", january_blocks)]) 31 (Some 13)
  = {| shown :=
         [ PdfDownloadButton; SummarySubheader;
           SummaryDataframe
             [ {| Vehicle := Text "A"; Working_Days := 26; Holidays := 5 |};
               {| Vehicle := Text "B"; Working_Days := 0; Holidays := 31 |} ];
           CsvDownloadButton
             [ {| Vehicle := Text "A"; Working_Days := 26; Holidays := 5 |};
               {| Vehicle := Text "B"; Working_Days := 0; Holidays := 31 |} ] ];
       escaped := None |}.
Proof. by vm_compute. Qed.

(** The same tail when the second vehicle cell is the number 102: the
    failed deletion is passed over, then the test [102 in "A"] of line 75
    raises [TypeError]; the run ends in the same way when the deletion
    succeeds. *)
Example failed_cleanup_on_number_cell :
  after_pdf_read number_in_vehicle_column [("R1", number_january_blocks)] 31
                 (Some 13)
  = {| shown := [PdfDownloadButton]; escaped := Some TypeError |}
  ∧ after_pdf_read number_in_vehicle_column [("R1", number_january_blocks)]
                   31 None
    = {| shown := [PdfDownloadButton]; escaped := Some TypeError |}.
Proof. split; by vm_compute. Qed.

(** ** The inputs on which a claim fails as it was stated *)

(** C2 as stated fails when the number of the route's own vehicle contains
    ["(H)"]: for the vehicle numbers "X (H)" and "B", January 2025, the
    block of days 1 to 5 carries the label "X (H)", and day 1 is not a
    holiday of "X (H)". *)
Lemma marker_on_regular_vehicle :
  ¬ marker_only_on_holidays marked_vehicle_number 2025 1.
Proof.
  intros Hclaim.
  assert (Hday : 1 ∈ [6; 12; 18; 24; 30]).
  { apply (Hclaim [("R1", marked_january_blocks)] 31
             marked_january_holidays 0%nat marked_january_blocks "X (H)"
             [6; 12; 18; 24; 30]
             {| start := 1; end_ := 5; vehicle := "X (H)" |} 1).
    - by vm_compute.
    - by vm_compute.
    - by vm_compute.
    - exists "R1".
      split_and!; [by vm_compute | apply not_elem_of_nil | by vm_compute].
    - by vm_compute.
    - by vm_compute.
    - left.
    - by vm_compute.
    - unfold covers. simpl. lia. }
  rewrite !elem_of_cons, elem_of_nil in Hday. lia.
Qed.

(** C5 as stated fails when a route name is entered twice: for the routes
    "R1", "R2", "R1" and the vehicles "A", "B", "C", "D" in April 2025 the
    third row overwrites the entry of "R1", so the blocks kept under the
    name of the first row carry "C" on day 1, which is not a holiday of
    "A", the regular vehicle of the first row. *)
Lemma repeated_route_takes_last_vehicle :
  ¬ regular_vehicle_serves_route repeated_route_name 2025 4.
Proof.
  intros Hclaim.
  destruct (Hclaim repeated_route_april 30 repeated_route_april_holidays
              0%nat repeated_route_april_blocks "A" 1)
    as (b & Hb & _ & Hregular & _).
  - by vm_compute.
  - by vm_compute.
  - by vm_compute.
  - exists "R1". split; by vm_compute.
  - by vm_compute.
  - lia.
  - assert (Hholidays :
      route_holidays repeated_route_april_holidays
                     (fixed_vehicles_of repeated_route_name) 0
      = [6; 12; 18; 24; 30]) by by vm_compute.
    rewrite Hholidays in Hregular.
    assert (Hlabel : vehicle b = "A").
    { apply Hregular. rewrite !elem_of_cons, elem_of_nil. lia. }
    unfold repeated_route_april_blocks in Hb.
    repeat (apply elem_of_cons in Hb as [->|Hb]; [discriminate Hlabel|]).
    by apply elem_of_nil in Hb.
Qed.

(** C4 as stated fails when a vehicle number is entered twice: for the
    fixed vehicles "A", "A" in February 2025 the one dictionary entry of
    "A" receives 6, 12, 18, 24 at position 0 and then 7 at position 1. *)
Lemma repeated_vehicle_breaks_rule :
  ¬ follows_holiday_rule repeated_vehicle_number 2025 2.
Proof.
  intros Hclaim.
  destruct (Hclaim 28 repeated_february_holidays 0%nat "A")
    as (K & Hrule & HK & _); [by vm_compute..|].
  assert (Hlist : Some [6; 12; 18; 24; 7] = Some (holiday_rule 0 K))
    by (rewrite <- Hrule; by vm_compute).
  apply (inj Some) in Hlist.
  do 6 (destruct K as [|K]; [discriminate Hlist|]). lia.
Qed.

(** C8 as stated fails when the vehicle column is empty: the call raises
    [ZeroDivisionError], not [IndexError]. *)
Lemma empty_vehicle_list_divides_by_zero :
  ¬ index_error_without_backup no_vehicle_number 2025 1.
Proof.
  intros Hclaim.
  assert (Hraise : @Raise (PyDict.t (list block)) ZeroDivisionError
                   = Raise IndexError).
  { rewrite <- (Hclaim 31); [by vm_compute | by vm_compute | discriminate |].
    vm_compute. lia. }
  discriminate Hraise.
Qed.

(** C10 as stated fails when a vehicle number is entered twice and there
    is one backup vehicle: in February 2025 the holidays of "A" are
    6, 12, 18, 24 and 7, and the block of days 6 to 7 carries "B (H)". *)
Lemma two_day_marked_block :
  ¬ marked_blocks_last_one_day repeated_vehicle_number 2025 2.
Proof.
  intros Hclaim.
  assert (Hblock : start {| start := 6; end_ := 7; vehicle := "B (H)" |}
                   = end_ {| start := 6; end_ := 7; vehicle := "B (H)" |}).
  { apply (Hclaim [("R1", repeated_february_blocks);
                   ("R2", repeated_february_blocks)]
             "R1" repeated_february_blocks).
    - by vm_compute.
    - by vm_compute.
    - right. left.
    - by vm_compute. }
  discriminate Hblock.
Qed.

(** ** The theorems at sample spreadsheets *)

Lemma regular_vehicle_or_backup_witness :
  ∃ b, b ∈ january_blocks ∧ covers b 6
       ∧ (6 ∉ route_holidays january_holidays
                (fixed_vehicles_of one_route_one_backup) 0 →
          vehicle b = "A")
       ∧ (6 ∈ route_holidays january_holidays
                (fixed_vehicles_of one_route_one_backup) 0 →
          ∃ bv, bv ∈ backup_vehicles_of one_route_one_backup
                ∧ vehicle b = holiday_label bv).
Proof.
  apply (regular_vehicle_or_backup one_route_one_backup 2025 1 31
           [("R1", january_blocks)] january_holidays 0%nat january_blocks
           "A" 6).
  - by vm_compute.
  - by vm_compute.
  - by vm_compute.
  - exists "R1".
    split_and!; [by vm_compute | apply not_elem_of_nil | by vm_compute].
  - by vm_compute.
  - lia.
Defined.

Lemma cleanup_failure_ignored_witness :
  ∃ summary,
    generate_summary
      (py_timetable [("R1", january_blocks)])
      (summary_vehicles (column_cells (GADI_NUMBER one_route_one_backup))) 31
    = Ok summary
    ∧ Vehicle <$> summary
      = summary_vehicles (column_cells (GADI_NUMBER one_route_one_backup))
    ∧ after_pdf_read (column_cells (GADI_NUMBER one_route_one_backup))
                     (py_timetable [("R1", january_blocks)]) 31 (Some 13)
      = {| shown := [PdfDownloadButton; SummarySubheader;
                     SummaryDataframe summary; CsvDownloadButton summary];
           escaped := None |}.
Proof.
  assert (Htext :
    ∀ c, c ∈ summary_vehicles
               (column_cells (GADI_NUMBER one_route_one_backup))
             ++ labels_of (py_timetable [("R1", january_blocks)]) →
         is_text c = true).
  { intros c Hc. apply elem_of_app in Hc as [Hc|Hc].
    - rewrite summary_vehicles_text in Hc.
      by apply list_elem_of_fmap in Hc as (v & -> & _).
    - by eapply labels_of_py_timetable. }
  exact (proj2 (proj2 (cleanup_failure_ignored
                         (column_cells (GADI_NUMBER one_route_one_backup))
                         (py_timetable [("R1", january_blocks)]) 31
                         (Some 13)))
               Htext).
Defined.

Lemma consecutive_blocks_differ_witness :
  vehicle {| start := 1; end_ := 5; vehicle := "A" |}
  ≠ vehicle {| start := 6; end_ := 6; vehicle := "B (H)" |}.
Proof.
  apply (consecutive_blocks_differ one_route_one_backup 2025 1
           [("R1", january_blocks)] "R1" january_blocks 0%nat).
  - by vm_compute.
  - by vm_compute.
  - by vm_compute.
  - by vm_compute.
Defined.

Lemma shared_round_robin_witness :
  (∀ r, (r ≤ length (routes_of two_routes_two_backups))%nat →
     ∃ tt_r,
       route_loop two_routes_two_backups two_backups_january_holidays 31
                  (take r (enumerate (routes_of two_routes_two_backups)))
       = Ok (tt_r,
             (substitutions_in_routes_before
                two_backups_january_holidays
                (fixed_vehicles_of two_routes_two_backups) 31 r
              mod length (backup_vehicles_of two_routes_two_backups))%nat))
  ∧ (∀ r_idx bs d,
       emitted_for (routes_of two_routes_two_backups) two_backups_january
                   r_idx bs →
       d ∈ route_holidays two_backups_january_holidays
             (fixed_vehicles_of two_routes_two_backups) r_idx →
       ∃ b bv, b ∈ bs ∧ covers b d
               ∧ backup_vehicles_of two_routes_two_backups
                 !! (substitution_rank
                       two_backups_january_holidays
                       (fixed_vehicles_of two_routes_two_backups) 31 r_idx d
                     mod length (backup_vehicles_of two_routes_two_backups))%nat
                 = Some bv
               ∧ vehicle b = holiday_label bv).
Proof.
  apply (shared_round_robin two_routes_two_backups 2025 1 31
           two_backups_january two_backups_january_holidays).
  - by vm_compute.
  - by vm_compute.
  - by vm_compute.
Defined.

(** The second route goes on with the backup vehicle after the one the
    first route stopped at: five substitutions were made in "R1", so the
    first holiday of "R2", day 7, has rank 5 and takes backup vehicle
    5 mod 2, which is "D". *)
Example round_robin_carries_over :
  substitution_rank two_backups_january_holidays
                    (fixed_vehicles_of two_routes_two_backups) 31 1 7
  = 5%nat
  ∧ backup_vehicles_of two_routes_two_backups !! (5 mod 2)%nat = Some "D"
  ∧ (bs ← PyDict.get "R2" two_backups_january; bs !! 1%nat)
    = Some {| start := 7; end_ := 7; vehicle := "D (H)" |}.
Proof. split_and!; by vm_compute. Qed.

Lemma marker_marks_holidays_witness :
  (∀ v, v ∈ fixed_vehicles_of two_routes_one_backup →
        carries_marker v = false)
  ∧ marker_only_on_holidays two_routes_one_backup 2025 2.
Proof.
  assert (Hclean : ∀ v, v ∈ fixed_vehicles_of two_routes_one_backup →
                        carries_marker v = false).
  { intros v Hv. change (v ∈ ["A"; "B"]) in Hv.
    apply elem_of_cons in Hv as [->|Hv]; [reflexivity|].
    apply list_elem_of_singleton in Hv as ->. reflexivity. }
  split; [exact Hclean|].
  apply (marker_marks_holidays two_routes_one_backup 2025 2 Hclean).
Defined.

Lemma distinct_vehicles_follow_rule_witness :
  NoDup (fixed_vehicles_of two_routes_one_backup)
  ∧ follows_holiday_rule two_routes_one_backup 2025 2.
Proof.
  assert (Hnodup : NoDup (fixed_vehicles_of two_routes_one_backup)).
  { change (NoDup ["A"; "B"]). apply NoDup_cons.
    split; [|apply NoDup_singleton].
    rewrite list_elem_of_singleton. discriminate. }
  split; [exact Hnodup|].
  apply (distinct_vehicles_follow_rule two_routes_one_backup 2025 2 Hnodup).
Defined.

Lemma marked_blocks_are_single_days_witness :
  NoDup (fixed_vehicles_of two_routes_one_backup)
  ∧ (∀ v, v ∈ fixed_vehicles_of two_routes_one_backup →
          carries_marker v = false)
  ∧ marked_blocks_last_one_day two_routes_one_backup 2025 2.
Proof.
  assert (Hnodup : NoDup (fixed_vehicles_of two_routes_one_backup)).
  { change (NoDup ["A"; "B"]). apply NoDup_cons.
    split; [|apply NoDup_singleton].
    rewrite list_elem_of_singleton. discriminate. }
  assert (Hclean : ∀ v, v ∈ fixed_vehicles_of two_routes_one_backup →
                        carries_marker v = false).
  { intros v Hv. change (v ∈ ["A"; "B"]) in Hv.
    apply elem_of_cons in Hv as [->|Hv]; [reflexivity|].
    apply list_elem_of_singleton in Hv as ->. reflexivity. }
  split_and!; [exact Hnodup | exact Hclean |].
  apply (marked_blocks_are_single_days two_routes_one_backup 2025 2
           Hnodup Hclean).
Defined.

Lemma no_backup_no_timetable_witness :
  generate_block_timetable one_route_no_backup 2025 1 = Raise IndexError
  ∧ generate_block_timetable no_vehicle_number 2025 1
    = Raise ZeroDivisionError.
Proof.
  split.
  - apply (no_backup_no_timetable one_route_no_backup 2025 1 31).
    + by vm_compute.
    + discriminate.
    + vm_compute. lia.
  - apply (no_backup_no_timetable no_vehicle_number 2025 1 31).
    + by vm_compute.
    + discriminate.
    + vm_compute. lia.
Defined.

(** * Further properties of the code *)

(** ** When the timetable is returned *)

(** X1.  [generate_block_timetable] returns a timetable exactly when the month
    is one of 1 to 12 and either there is no route or there are more
    vehicles than routes. *)
Theorem generate_returns_iff (data : dataframe) (year month : Z) :
  (∃ tt, generate_block_timetable data year month = Ok tt)
  ↔ 1 ≤ month ≤ 12
    ∧ (routes_of data = []
       ∨ (length (routes_of data) < length (vehicles_of data))%nat).
Proof.
  split.
  - intros [tt Hgen].
    destruct (generate_ok_inv _ _ _ _ Hgen)
      as (N & _ & _ & Hmonth & _ & _ & _ & _ & Hcase).
    split; [|done]. by destruct (monthrange_days_valid _ _ _ Hmonth).
  - intros [Hmonth Hcase].
    destruct (monthrange_days_ok year month Hmonth) as [N HN].
    destruct (decide (length (routes_of data) < length (vehicles_of data))%nat)
      as [Hlt|Hge].
    + destruct (generate_succeeds data year month N HN Hlt)
        as (_ & tt & _ & _ & _ & _ & Hgen & _). eauto.
    + destruct Hcase as [Hnil|Hlt]; [|done].
      destruct (monthrange_days_valid _ _ _ HN) as [_ Hdays].
      destruct (assign_holidays_inv (fixed_vehicles_of data) N)
        as (holidays & Hassign & _); [lia|].
      exists []. unfold generate_block_timetable. cbv zeta.
      rewrite HN. run_bind. rewrite Hassign. run_bind.
      by rewrite Hnil.
Qed.

(** ** The marker of a substitution *)

Lemma holiday_label_marked (b : string) :
  contains "(H)" (b +:+ " (H)") = true.
Proof.
  induction b as [|a b IH]; [done|].
  change (contains "(H)" (String a b +:+ " (H)"))
    with (String.prefix "(H)" (String a (b +:+ " (H)"))
          || contains "(H)" (b +:+ " (H)")).
  rewrite IH. apply orb_true_r.
Qed.

(** X6.  Whatever the backup vehicle's number, the label of a substitution
    carries the marker that [generate_summary] and the PDF test for. *)
Theorem holiday_label_carries_marker (b : string) :
  carries_marker (holiday_label b) = true.
Proof.
  unfold carries_marker, holiday_label.
  induction b as [|a b IH]; [by vm_compute|].
  change (contains "(H)" (String a b +:+ " (H)"))
    with (String.prefix "(H)" (String a (b +:+ " (H)"))
          || contains "(H)" (b +:+ " (H)")).
  rewrite IH. apply orb_true_r.
Qed.

(** ** The holiday dictionary *)

Lemma for_each_invariant {S X : Type} (P : S → Prop)
    (body : S → X → result S) (xs : list X) (s s' : S) :
  P s →
  (∀ s1 x s2, x ∈ xs → P s1 → body s1 x = Ok s2 → P s2) →
  for_each body s xs = Ok s' → P s'.
Proof.
  revert s. induction xs as [|x xs IH]; intros s Hs Hstep; simpl.
  - by intros <-%(inj Ok).
  - destruct (body s x) as [s1|e] eqn:Hbody; [|done]. run_bind.
    apply IH.
    + eapply Hstep; [by left | done | done].
    + intros s2 y s3 Hy. apply Hstep. by right.
Qed.

(** X3.  In every valid month the pre-assignment returns a dictionary whose
    keys are exactly the fixed vehicles, repeated or not, and each of its
    lists has at most five days, all of them between 6 and the last day
    of the month. *)
Theorem holidays_dictionary (fixed_vehicles : list string)
    (year month N : Z) :
  monthrange_days year month = Ok N →
  ∃ holidays,
    assign_holidays fixed_vehicles N = Ok holidays
    ∧ (∀ v, is_Some (holidays !! v) ↔ v ∈ fixed_vehicles)
    ∧ ∀ v hs, holidays !! v = Some hs →
              (length hs ≤ 5)%nat ∧ ∀ d, d ∈ hs → 6 ≤ d ≤ N.
Proof.
  intros Hmonth.
  destruct (monthrange_days_valid _ _ _ Hmonth) as [_ HN].
  destruct (assign_holidays_inv fixed_vehicles N)
    as (holidays & Hassign & Hinv); [lia|].
  exists holidays. split_and!; [done | | by apply (hi_bounds _ _ _ _ Hinv)].
  intros v. split; [|by apply (hi_dom _ _ _ _ Hinv)].
  revert v.
  apply (for_each_invariant
           (λ h : gmap string (list Z),
              ∀ v, is_Some (h !! v) → v ∈ fixed_vehicles)
           (holiday_body N) (enumerate fixed_vehicles)
           (empty_holidays fixed_vehicles) holidays); [| |done].
  - intros v. rewrite empty_holidays_lookup.
    destruct (decide (v ∈ fixed_vehicles)); [done|].
    rewrite bool_decide_eq_false_2 by done. by intros [? ?].
  - intros h1 [i v] h2 Hin Hh1. unfold holiday_body.
    destruct (dict_get h1 v) as [hs|e]; [|done]. run_bind.
    intros <-%(inj Ok) v'. destruct (decide (v = v')) as [<-|Hne].
    + intros _. unfold enumerate in Hin. by apply elem_of_zip_r in Hin.
    + rewrite lookup_insert_ne by done. apply Hh1.
Qed.

Lemma holidays_dictionary_witness :
  ∃ holidays,
    assign_holidays ["A"; "A"; "B"] 28 = Ok holidays
    ∧ (∀ v, is_Some (holidays !! v) ↔ v ∈ ["A"; "A"; "B"])
    ∧ ∀ v hs, holidays !! v = Some hs →
              (length hs ≤ 5)%nat ∧ ∀ d, d ∈ hs → 6 ≤ d ≤ 28.
Proof.
  apply (holidays_dictionary ["A"; "A"; "B"] 2025 2 28). by vm_compute.
Defined.

(** X4.  When no vehicle number is repeated, the fixed vehicle at position [i]
    has five holidays if day [(i mod 5) + 30] exists in the month and four
    otherwise: in a month of 31 days two positions out of five have five
    holidays, in a month of 30 days one, in February none. *)
Theorem holiday_count (fixed_vehicles : list string) (year month N : Z)
    (holidays : gmap string (list Z)) (i : nat) (v : string) :
  NoDup fixed_vehicles →
  monthrange_days year month = Ok N →
  assign_holidays fixed_vehicles N = Ok holidays →
  fixed_vehicles !! i = Some v →
  ∃ hs, holidays !! v = Some hs
        ∧ length hs
          = if bool_decide (Z.of_nat (i mod 5) + 30 ≤ N) then 5%nat
            else 4%nat.
Proof.
  intros Hnodup Hmonth Hassign Hi.
  destruct (monthrange_days_valid _ _ _ Hmonth) as [_ HN].
  destruct (assign_holidays_inv fixed_vehicles N)
    as (holidays' & Hassign' & Hinv); [lia|].
  rewrite Hassign in Hassign'. apply (inj Ok) in Hassign' as <-.
  pose proof (hi_once _ _ _ _ Hinv i v Hi) as Honce.
  rewrite Honce by (intros j Hj; by eapply NoDup_lookup).
  eexists. split; [done|].
  destruct (holiday_while_closed 5 [] (Z.of_nat (i mod 5) + 6) N)
    as (K & -> & HK & Hin & Hstop).
  cbn [length] in Hin, Hstop.
  rewrite app_nil_l, length_fmap, length_seq.
  assert (Hbase : (i mod 5 < 5)%nat) by (apply Nat.mod_upper_bound; lia).
  case_bool_decide; lia.
Qed.

Lemma holiday_count_witness :
  ∃ hs, two_backups_january_holidays !! "B" = Some hs
        ∧ length hs
          = if bool_decide (Z.of_nat (1 mod 5) + 30 ≤ 31) then 5%nat
            else 4%nat.
Proof.
  apply (holiday_count ["A"; "B"] 2025 1 31 two_backups_january_holidays
           1 "B").
  - apply NoDup_cons. split; [|apply NoDup_singleton].
    rewrite list_elem_of_singleton. discriminate.
  - by vm_compute.
  - by vm_compute.
  - by vm_compute.
Defined.

(** ** The month chosen on the page *)

(** X12.  Whichever month name is chosen in the select box, the month number the
    page computes is between 1 and 12 and names that month, so for every
    year [calendar.monthrange] returns a number of days between 28 and
    31. *)
Theorem selected_month_is_valid (selected_month : string) :
  selected_month ∈ months →
  ∃ m, month_num selected_month = Some m
       ∧ 1 ≤ m ≤ 12
       ∧ month_name !! Z.to_nat m = Some selected_month
       ∧ ∀ year, ∃ N, monthrange_days year m = Ok N ∧ 28 ≤ N ≤ 31.
Proof.
  intros Hin.
  assert (Hnum : ∃ m, month_num selected_month = Some m
                      ∧ 1 ≤ m ≤ 12
                      ∧ month_name !! Z.to_nat m = Some selected_month).
  { change months with (drop 1 month_name) in Hin. unfold month_name in Hin.
    cbn [drop] in Hin.
    repeat (apply elem_of_cons in Hin as [->|Hin];
            [eexists; split_and!; [by vm_compute | lia | lia | by vm_compute]|]).
    by apply elem_of_nil in Hin. }
  destruct Hnum as (m & Hm & Hrange & Hname).
  exists m. split_and!; [done | lia | lia | done |].
  intros year. destruct (monthrange_days_ok year m Hrange) as [N HN].
  exists N. split; [done|]. by destruct (monthrange_days_valid _ _ _ HN).
Qed.

Lemma selected_month_is_valid_witness :
  ∃ m, month_num "February" = Some m
       ∧ 1 ≤ m ≤ 12
       ∧ month_name !! Z.to_nat m = Some "February"
       ∧ ∀ year, ∃ N, monthrange_days year m = Ok N ∧ 28 ≤ N ≤ 31.
Proof.
  apply (selected_month_is_valid "February").
  right. left.
Defined.

(** ** The rows of boxes of the PDF *)

Lemma row_loop_inv (columns_per_row : Z) (blocks : list block)
    (rows : list (list block)) (cur_row : list block) :
  1 ≤ columns_per_row →
  Forall (λ row, Z.of_nat (length row) = columns_per_row) rows →
  Z.of_nat (length cur_row) < columns_per_row →
  ∃ rows' cur_row',
    foldl (row_body columns_per_row) (rows, cur_row) blocks
    = (rows', cur_row')
    ∧ concat rows' ++ cur_row' = concat rows ++ cur_row ++ blocks
    ∧ Forall (λ row, Z.of_nat (length row) = columns_per_row) rows'
    ∧ Z.of_nat (length cur_row') < columns_per_row.
Proof.
  intros Hc. revert rows cur_row.
  induction blocks as [|b blocks IH]; intros rows cur_row Hrows Hcur.
  - exists rows, cur_row. by rewrite app_nil_r.
  - cbn [foldl]. unfold row_body at 2.
    destruct (Z.of_nat (length (cur_row ++ [b])) =? columns_per_row) eqn:Hfull.
    + apply Z.eqb_eq in Hfull.
      destruct (IH (rows ++ [cur_row ++ [b]]) []) as (rows' & cur' & -> & Hcat & H1 & H2).
      { apply Forall_app. split; [done|]. by apply Forall_singleton. }
      { simpl. lia. }
      exists rows', cur'. split_and!; [done | | done | done].
      rewrite Hcat, concat_app. simpl. by rewrite !app_nil_r, <- !app_assoc.
    + apply Z.eqb_neq in Hfull. rewrite length_app in Hfull. simpl in Hfull.
      destruct (IH rows (cur_row ++ [b])) as (rows' & cur' & -> & Hcat & H1 & H2).
      { done. }
      { rewrite length_app. simpl. lia. }
      exists rows', cur'. split_and!; [done | | done | done].
      by rewrite Hcat, <- !app_assoc.
Qed.

(** X9.  For a positive number of columns the rows hold all the blocks of the
    route in their order, no row is empty or longer than the number of
    columns, and every row but the last is full. *)
Theorem box_rows_spec (columns_per_row : Z) (blocks : list block) :
  1 ≤ columns_per_row →
  concat (box_rows columns_per_row blocks) = blocks
  ∧ (∀ row, row ∈ box_rows columns_per_row blocks →
            1 ≤ Z.of_nat (length row) ≤ columns_per_row)
  ∧ (∀ i row, box_rows columns_per_row blocks !! i = Some row →
              (S i < length (box_rows columns_per_row blocks))%nat →
              Z.of_nat (length row) = columns_per_row).
Proof.
  intros Hc. unfold box_rows.
  destruct (row_loop_inv columns_per_row blocks [] [])
    as (rows & cur & -> & Hcat & Hrows & Hcur); [done | done | simpl; lia |].
  simpl in Hcat. destruct cur as [|b cur].
  - rewrite app_nil_r in Hcat. split_and!; [done | |].
    + intros row Hrow. rewrite Forall_forall in Hrows.
      specialize (Hrows row Hrow). lia.
    + intros i row Hi _. rewrite Forall_forall in Hrows.
      apply Hrows. by eapply list_elem_of_lookup_2.
  - split_and!.
    + rewrite concat_app. simpl. by rewrite app_nil_r.
    + intros row [Hrow|Hrow]%elem_of_app.
      * rewrite Forall_forall in Hrows. specialize (Hrows row Hrow). lia.
      * apply list_elem_of_singleton in Hrow as ->. simpl in *. lia.
    + intros i row Hi Hlast. rewrite length_app in Hlast. simpl in Hlast.
      rewrite lookup_app_l in Hi by lia.
      rewrite Forall_forall in Hrows. apply Hrows.
      by eapply list_elem_of_lookup_2.
Qed.

Lemma box_rows_spec_witness :
  concat (box_rows 4 january_blocks) = january_blocks
  ∧ (∀ row, row ∈ box_rows 4 january_blocks →
            1 ≤ Z.of_nat (length row) ≤ 4)
  ∧ (∀ i row, box_rows 4 january_blocks !! i = Some row →
              (S i < length (box_rows 4 january_blocks))%nat →
              Z.of_nat (length row) = 4).
Proof. apply (box_rows_spec 4 january_blocks). lia. Defined.

(** ** The route names of the timetable *)

Lemma set_keys {V : Type} (k : string) (v : V) (d : PyDict.t V) :
  (PyDict.set k v d).*1
  = if bool_decide (k ∈ d.*1) then d.*1 else d.*1 ++ [k].
Proof.
  induction d as [|[k' v'] d IH].
  - cbn [PyDict.set]. rewrite fmap_nil.
    by rewrite bool_decide_eq_false_2 by apply not_elem_of_nil.
  - cbn [PyDict.set]. rewrite string_eqb_decide.
    destruct (decide (k' = k)) as [->|Hne].
    + rewrite bool_decide_eq_true_2 by done. rewrite !fmap_cons. cbn [fst].
      by rewrite bool_decide_eq_true_2 by left.
    + rewrite bool_decide_eq_false_2 by done. rewrite !fmap_cons, IH.
      cbn [fst]. destruct (decide (k ∈ d.*1)) as [Hin|Hout].
      * rewrite !bool_decide_eq_true_2; [done | by right | done].
      * rewrite !bool_decide_eq_false_2; [done | | done].
        intros [->|?]%elem_of_cons; done.
Qed.

Lemma route_loop_keys (holidays : gmap string (list Z))
    (fixed_vehicles backup_vehicles : list string) (N : Z)
    (xs : list (nat * string)) (acc acc' : PyDict.t (list block) * nat) :
  for_each (route_body holidays fixed_vehicles backup_vehicles N) acc xs
  = Ok acc' →
  acc'.1.*1
  = foldl (λ keys k, if bool_decide (k ∈ keys) then keys else keys ++ [k])
          (acc.1.*1) (xs.*2).
Proof.
  revert acc. induction xs as [|[r route] xs IH]; intros [tt bi]; simpl.
  - by intros <-%(inj Ok).
  - destruct (py_mod r (length fixed_vehicles)) as [pos|e]; [|done]. run_bind.
    destruct (list_get fixed_vehicles pos) as [v|e]; [|done]. run_bind.
    destruct (for_each _ _ _) as [st|e]; [|done]. run_bind.
    intros Hrest. rewrite (IH _ Hrest). simpl. by rewrite set_keys.
Qed.

Lemma first_occurrences_spec (l acc : list string) :
  NoDup acc →
  NoDup (foldl (λ keys k, if bool_decide (k ∈ keys) then keys
                          else keys ++ [k]) acc l)
  ∧ ∀ x, x ∈ foldl (λ keys k, if bool_decide (k ∈ keys) then keys
                              else keys ++ [k]) acc l
         ↔ x ∈ acc ∨ x ∈ l.
Proof.
  revert acc. induction l as [|k l IH]; intros acc Hacc; simpl.
  - split; [done|]. intros x. rewrite elem_of_nil. tauto.
  - destruct (decide (k ∈ acc)) as [Hin|Hout].
    + rewrite bool_decide_eq_true_2 by done.
      destruct (IH acc Hacc) as [Hnd Hel]. split; [done|].
      intros x. rewrite Hel, elem_of_cons. split; [tauto|].
      intros [?|[->|?]]; auto.
    + rewrite bool_decide_eq_false_2 by done.
      destruct (IH (acc ++ [k])) as [Hnd Hel].
      { apply NoDup_app. split_and!; [done | | apply NoDup_singleton].
        intros x Hx ->%list_elem_of_singleton. done. }
      split; [done|]. intros x.
      rewrite Hel, elem_of_app, list_elem_of_singleton, elem_of_cons. tauto.
Qed.

Lemma first_occurrences_facts (l : list string) :
  NoDup (first_occurrences l) ∧ ∀ x, x ∈ first_occurrences l ↔ x ∈ l.
Proof.
  destruct (first_occurrences_spec l [] (NoDup_nil_2)) as [Hnd Hel].
  split; [done|]. intros x. unfold first_occurrences.
  rewrite Hel, elem_of_nil. tauto.
Qed.

Lemma generate_keys (data : dataframe) (year month : Z)
    (tt : PyDict.t (list block)) :
  generate_block_timetable data year month = Ok tt →
  tt.*1 = first_occurrences (routes_of data).
Proof.
  intros Hgen.
  destruct (generate_ok_inv _ _ _ _ Hgen)
    as (N & holidays & bi & _ & _ & _ & Hloop & _ & _).
  unfold route_loop in Hloop. apply route_loop_keys in Hloop.
  simpl in Hloop. unfold enumerate in Hloop.
  by rewrite snd_zip in Hloop by (rewrite length_seq; lia).
Qed.

(** X2.  A returned timetable has one entry for each distinct route name, in
    the order in which the names first appear in the spreadsheet. *)
Theorem timetable_keys (data : dataframe) (year month : Z)
    (tt : PyDict.t (list block)) :
  generate_block_timetable data year month = Ok tt →
  tt.*1 = first_occurrences (routes_of data)
  ∧ NoDup tt.*1
  ∧ ∀ route, route ∈ tt.*1 ↔ route ∈ routes_of data.
Proof.
  intros Hgen. pose proof (generate_keys _ _ _ _ Hgen) as Hkeys.
  destruct (first_occurrences_facts (routes_of data)) as [Hnd Hel].
  rewrite Hkeys. split_and!; [done | done |].
  intros route. apply Hel.
Qed.

Lemma timetable_keys_witness :
  [("R1", repeated_february_blocks); ("R2", repeated_february_blocks)].*1
  = first_occurrences (routes_of repeated_vehicle_number)
  ∧ NoDup [("R1", repeated_february_blocks);
           ("R2", repeated_february_blocks)].*1
  ∧ ∀ route,
      route ∈ [("R1", repeated_february_blocks);
               ("R2", repeated_february_blocks)].*1
      ↔ route ∈ routes_of repeated_vehicle_number.
Proof.
  apply (timetable_keys repeated_vehicle_number 2025 2). by vm_compute.
Defined.

(** ** The summary *)

Lemma sumZ_zero {A : Type} (f : A → Z) (l : list A) :
  (∀ x, x ∈ l → f x = 0) → sumZ (f <$> l) = 0.
Proof.
  unfold sumZ. induction l as [|x l IH]; intros Hall; [done|].
  rewrite fmap_cons. cbn [foldr]. rewrite Hall by left. rewrite IH; [done|].
  intros y Hy. apply Hall. by right.
Qed.

Lemma contains_refl (s : string) : contains s s = true.
Proof.
  assert (Hprefix : String.prefix s s = true).
  { induction s as [|a s IH]; simpl; [done|].
    by destruct (Ascii.ascii_dec a a). }
  destruct s; simpl in *; [done|]. by rewrite Hprefix.
Qed.

(** A block of a route lies on holidays only or on other days only. *)
Lemma block_kind (backup_vehicles : list string) (w : string) (hs : list Z)
    (done : nat) (N : Z) (bs : list block) (b : block) :
  route_spec backup_vehicles w hs done N bs → b ∈ bs →
  (carries_marker (vehicle b) = true ∧ start b ∈ hs)
  ∨ (vehicle b = w ∧ start b ∉ hs).
Proof.
  intros [Ht Hlab _] Hb.
  destruct (tiles_bounds _ _ _ _ Ht Hb) as (_ & Hle & _).
  assert (Hc : covers b (start b)) by (unfold covers; lia).
  specialize (Hlab b (start b) Hb Hc). unfold day_label in Hlab.
  destruct (decide (start b ∈ hs)) as [Hin|Hout].
  - rewrite bool_decide_eq_true_2 in Hlab by done.
    apply fmap_Some in Hlab as (bv & _ & ->).
    left. split; [apply holiday_label_marked | done].
  - rewrite bool_decide_eq_false_2 in Hlab by done.
    right. split; [congruence | done].
Qed.

(** A vehicle whose number occurs in the number of no fixed vehicle has
    no working day in any route. *)
Lemma route_work_unrelated (backup_vehicles : list string) (v w : string)
    (hs : list Z) (done : nat) (N : Z) (bs : list block) :
  route_spec backup_vehicles w hs done N bs →
  contains v w = false →
  route_work v bs = 0.
Proof.
  intros Hspec Hvw. apply sumZ_zero. intros b Hb. unfold text_block_work.
  destruct (block_kind _ _ _ _ _ _ _ Hspec Hb) as [[Hm _]|[-> _]].
  - unfold carries_marker in Hm. rewrite Hm. by rewrite andb_false_r.
  - by rewrite Hvw.
Qed.

Lemma tiles_end (lo hi : Z) (bs : list block) : tiles lo bs hi → lo ≤ hi + 1.
Proof.
  revert lo. induction bs as [|b bs IH]; simpl; intros lo.
  - lia.
  - intros (H1 & H2 & H3). specialize (IH _ H3). lia.
Qed.

Lemma range_app (a b c : Z) : a ≤ b → b ≤ c → range a c = range a b ++ range b c.
Proof.
  intros Hab Hbc. unfold range.
  replace (c - a) with ((b - a) + (c - b)) by lia.
  rewrite seqZ_app by lia. do 2 f_equal. lia.
Qed.

Lemma filter_holidays_all (hs : list Z) (a b : Z) :
  (∀ d, a ≤ d < b → d ∈ hs) →
  Z.of_nat (length (filter (λ e, e ∈ hs) (range a b))) = Z.max 0 (b - a).
Proof.
  intros Hall.
  assert (Hsame : filter (λ e, e ∈ hs) (range a b) = range a b).
  { assert (Hgen : ∀ l : list Z, (∀ e, e ∈ l → e ∈ hs) →
                                 filter (λ e, e ∈ hs) l = l).
    { induction l as [|x l IH]; intros Hl; [done|].
      rewrite filter_cons_True by (apply Hl; left). f_equal.
      apply IH. intros e He. apply Hl. by right. }
    apply Hgen. intros e He. apply Hall. by apply elem_of_range. }
  rewrite Hsame. unfold range. rewrite length_seqZ. lia.
Qed.

Lemma filter_holidays_none (hs : list Z) (a b : Z) :
  (∀ d, a ≤ d < b → d ∉ hs) →
  length (filter (λ e, e ∈ hs) (range a b)) = 0%nat.
Proof.
  intros Hnone.
  assert (Hgen : ∀ l : list Z, (∀ e, e ∈ l → e ∉ hs) →
                               filter (λ e, e ∈ hs) l = []).
  { induction l as [|x l IH]; intros Hl; [done|].
    rewrite filter_cons_False by (apply Hl; left).
    apply IH. intros e He. apply Hl. by right. }
  rewrite Hgen; [done|]. intros e He. apply Hnone. by apply elem_of_range.
Qed.

(** In the route of vehicle [v] the blocks that carry [v] add up to the
    days that are not holidays of [v]. *)
Lemma route_work_regular (backup_vehicles : list string) (v : string)
    (hs : list Z) (done : nat) (N : Z) (bs : list block) :
  route_spec backup_vehicles v hs done N bs →
  carries_marker v = false →
  route_work v bs = N - Z.of_nat (holiday_days_before hs (N + 1)).
Proof.
  intros [Ht Hlab _] Hclean. unfold holiday_days_before.
  assert (Hgen : ∀ bs lo,
            tiles lo bs N →
            (∀ b d, b ∈ bs → covers b d →
                    day_label backup_vehicles v hs done d = Some (vehicle b)) →
            route_work v bs
            = N - lo + 1
              - Z.of_nat (length (filter (λ e, e ∈ hs) (range lo (N + 1))))).
  { clear bs Ht Hlab. induction bs as [|b bs IH]; intros lo Ht Hlab.
    - simpl in Ht. subst lo. rewrite range_empty. simpl.
      unfold route_work. simpl. lia.
    - destruct Ht as (Hs & Hle & Ht). pose proof (tiles_end _ _ _ Ht) as Hend.
      unfold route_work in *. rewrite fmap_cons. cbn [sumZ foldr].
      fold (sumZ (text_block_work v <$> bs)).
      rewrite (IH (end_ b + 1) Ht)
        by (intros b' d Hb'; apply Hlab; by right).
      rewrite (range_app lo (end_ b + 1) (N + 1)) by lia.
      rewrite filter_app, length_app.
      assert (Hkind : ∀ d, covers b d →
                day_label backup_vehicles v hs done d = Some (vehicle b))
        by (intros d; apply Hlab; left).
      destruct (decide (start b ∈ hs)) as [Hin|Hout].
      + assert (Hmark : carries_marker (vehicle b) = true).
        { assert (Hk := Hkind (start b) ltac:(unfold covers; lia)).
          unfold day_label in Hk.
          rewrite bool_decide_eq_true_2 in Hk by done.
          apply fmap_Some in Hk as (bv & _ & ->).
          apply holiday_label_marked. }
        assert (Hall : ∀ d, lo ≤ d < end_ b + 1 → d ∈ hs).
        { intros d Hd. destruct (decide (d ∈ hs)) as [|Hd']; [done|].
          assert (Hk := Hkind d ltac:(unfold covers; lia)).
          unfold day_label in Hk.
          rewrite bool_decide_eq_false_2 in Hk by done.
          apply (inj Some) in Hk. rewrite <- Hk in Hmark. congruence. }
        pose proof (filter_holidays_all hs lo (end_ b + 1) Hall).
        unfold text_block_work. unfold carries_marker in Hmark. rewrite Hmark.
        rewrite andb_false_r. lia.
      + assert (Hv : vehicle b = v).
        { assert (Hk := Hkind (start b) ltac:(unfold covers; lia)).
          unfold day_label in Hk.
          rewrite bool_decide_eq_false_2 in Hk by done.
          by apply (inj Some) in Hk. }
        assert (Hnone : ∀ d, lo ≤ d < end_ b + 1 → d ∉ hs).
        { intros d Hd Hd'.
          assert (Hk := Hkind d ltac:(unfold covers; lia)).
          unfold day_label in Hk.
          rewrite bool_decide_eq_true_2 in Hk by done.
          apply fmap_Some in Hk as (bv & _ & Hbv).
          rewrite Hv in Hbv. rewrite Hbv in Hclean.
          unfold carries_marker, holiday_label in Hclean.
          by rewrite holiday_label_marked in Hclean. }
        rewrite (filter_holidays_none hs lo (end_ b + 1) Hnone).
        unfold text_block_work. rewrite Hv, contains_refl.
        unfold carries_marker in Hclean. rewrite Hclean. simpl. lia. }
  rewrite (Hgen bs 1 Ht Hlab). lia.
Qed.

Lemma sumZ_single {A : Type} (f : A → Z) (l : list A) (i : nat) (x : A) :
  l !! i = Some x →
  (∀ j y, l !! j = Some y → j ≠ i → f y = 0) →
  sumZ (f <$> l) = f x.
Proof.
  unfold sumZ. revert i. induction l as [|y l IH]; intros i Hi Hrest; [done|].
  rewrite fmap_cons. cbn [foldr]. destruct i as [|i].
  - injection Hi as ->.
    fold (sumZ (f <$> l)). rewrite sumZ_zero; [lia|].
    intros z Hz. apply list_elem_of_lookup in Hz as [j Hj].
    by apply (Hrest (S j)).
  - rewrite (IH i Hi); [|intros j z Hj Hne; apply (Hrest (S j)); [done | lia]].
    rewrite (Hrest 0%nat y); [lia | done | lia].
Qed.

Lemma get_of_lookup {V : Type} (d : PyDict.t V) (j : nat) (k : string)
    (x : V) :
  NoDup d.*1 → d !! j = Some (k, x) → PyDict.get k d = Some x.
Proof.
  revert j. induction d as [|[k' x'] d IH]; intros j Hnd Hj; [done|].
  rewrite fmap_cons in Hnd. apply NoDup_cons in Hnd as [Hk' Hnd].
  cbn [PyDict.get]. rewrite string_eqb_decide. destruct j as [|j].
  - injection Hj as -> ->. by rewrite bool_decide_eq_true_2.
  - simpl in Hj. rewrite bool_decide_eq_false_2; [by eapply IH|].
    intros ->. apply Hk'. apply list_elem_of_fmap.
    exists (k, x). split; [done|]. by eapply list_elem_of_lookup_2.
Qed.

Lemma first_occurrences_nodup (l : list string) :
  NoDup l → first_occurrences l = l.
Proof.
  unfold first_occurrences.
  assert (Hgen : ∀ l acc : list string, NoDup (acc ++ l) →
            foldl (λ keys k, if bool_decide (k ∈ keys) then keys
                             else keys ++ [k]) acc l = acc ++ l).
  { clear l. induction l as [|k l IH]; intros acc Hnd; simpl.
    - by rewrite app_nil_r.
    - apply NoDup_app in Hnd as Hnd'. destruct Hnd' as (_ & Hdisj & _).
      rewrite bool_decide_eq_false_2
        by (intros Hin; apply (Hdisj k Hin); left).
      rewrite IH; [by rewrite <- app_assoc|]. by rewrite <- app_assoc. }
  intros Hnd. by rewrite Hgen.
Qed.

(** The holidays of a month are counted once each. *)
Lemma holiday_days_in_month (hs : list Z) (N : Z) :
  NoDup hs → (∀ d, d ∈ hs → 1 ≤ d ≤ N) →
  holiday_days_before hs (N + 1) = length hs.
Proof.
  intros Hnd Hin. unfold holiday_days_before.
  apply Permutation_length. apply NoDup_Permutation; [|done|].
  - apply NoDup_filter. unfold range. apply NoDup_seqZ.
  - intros d. rewrite list_elem_of_filter, elem_of_range. split; [tauto|].
    intros Hd. specialize (Hin d Hd). split; [done | lia].
Qed.

Lemma holidays_nodup (fixed_vehicles : list string) (N : Z)
    (holidays : gmap string (list Z)) (i : nat) (v : string) (hs : list Z) :
  NoDup fixed_vehicles →
  holidays_inv fixed_vehicles N fixed_vehicles holidays →
  fixed_vehicles !! i = Some v → holidays !! v = Some hs →
  NoDup hs.
Proof.
  intros Hnodup Hinv Hi Hhs.
  pose proof (hi_once _ _ _ _ Hinv i v Hi) as Honce.
  rewrite Honce in Hhs by (intros j Hj; by eapply NoDup_lookup).
  apply (inj Some) in Hhs as <-.
  destruct (holiday_while_closed 5 [] (Z.of_nat (i mod 5) + 6) N)
    as (K & -> & _).
  rewrite app_nil_l. apply NoDup_fmap_2; [|apply NoDup_seq].
  intros k k' Heq. lia.
Qed.

(** X8.  For a returned timetable and a list of vehicles that are all
    text, a vehicle whose number is contained in the number of no fixed
    vehicle (a backup vehicle, as a rule) is reported with no working day
    and with every day of the month as a holiday, also when it substitutes
    in the timetable. *)
Theorem summary_of_unrelated_vehicle (data : dataframe) (year month : Z)
    (tt : PyDict.t (list block)) (days_in_month : Z) (vs : list string)
    (k : nat) (w : string) :
  generate_block_timetable data year month = Ok tt →
  (∀ u, u ∈ fixed_vehicles_of data → contains w u = false) →
  vs !! k = Some w →
  ∃ rows,
    generate_summary (py_timetable tt) (Text <$> vs) days_in_month = Ok rows
    ∧ rows !! k
      = Some {| Vehicle := Text w; Working_Days := 0;
                Holidays := days_in_month |}.
Proof.
  intros Hgen Hfree Hk.
  destruct (generate_ok_inv _ _ _ _ Hgen)
    as (N & holidays & bi & _ & _ & _ & _ & Hinv & _).
  assert (Hnd : NoDup tt.*1).
  { rewrite (generate_keys _ _ _ _ Hgen).
    apply first_occurrences_facts. }
  assert (Hwork : sumZ (route_work w <$> PyDict.values tt) = 0).
  { apply sumZ_zero. intros bs Hbs.
    unfold PyDict.values in Hbs.
    apply list_elem_of_fmap in Hbs as ([route bs'] & -> & Hentry).
    apply list_elem_of_lookup in Hentry as [j Hj].
    pose proof (get_of_lookup tt j route bs' Hnd Hj) as Hget.
    destruct (ri_entry _ _ _ _ _ _ _ Hinv route bs' Hget)
      as (j' & u & _ & _ & _ & Hu & Hspec).
    eapply route_work_unrelated; [done|]. apply Hfree.
    unfold regular_vehicle in Hu. by eapply list_elem_of_lookup_2. }
  rewrite generate_summary_text. eexists. split; [done|].
  rewrite list_lookup_fmap, Hk. cbn [fmap option_fmap option_map].
  cbv zeta. rewrite Hwork. do 2 f_equal. lia.
Qed.

Lemma summary_of_unrelated_vehicle_witness :
  ∃ rows,
    generate_summary (py_timetable [("R1", january_blocks)])
                     (Text <$> ["A"; "B"]) 31 = Ok rows
    ∧ rows !! 1%nat
      = Some {| Vehicle := Text "B"; Working_Days := 0; Holidays := 31 |}.
Proof.
  apply (summary_of_unrelated_vehicle one_route_one_backup 2025 1
           [("R1", january_blocks)] 31 ["A"; "B"] 1 "B").
  - by vm_compute.
  - intros u Hu. change (u ∈ ["A"]) in Hu.
    apply list_elem_of_singleton in Hu as ->. by vm_compute.
  - by vm_compute.
Defined.

(** X7.  For a sheet whose route and vehicle cells are text: when route
    names and fixed vehicle numbers are not repeated, the number of a
    fixed vehicle does not contain ["(H)"] and is contained in no other
    fixed vehicle's number, and the vehicle is among the first 14 of the
    sheet, the handler's call of [generate_summary] returns and the row of
    that vehicle reports as holidays exactly its pre-assigned holidays and
    as working days the other days of the month. *)
Theorem summary_of_fixed_vehicle (data : dataframe) (year month N : Z)
    (tt : PyDict.t (list block)) (holidays : gmap string (list Z))
    (i : nat) (v : string) (hs : list Z) :
  generate_block_timetable data year month = Ok tt →
  monthrange_days year month = Ok N →
  assign_holidays (fixed_vehicles_of data) N = Ok holidays →
  NoDup (routes_of data) →
  NoDup (fixed_vehicles_of data) →
  fixed_vehicles_of data !! i = Some v →
  carries_marker v = false →
  (∀ j u, fixed_vehicles_of data !! j = Some u → j ≠ i →
          contains v u = false) →
  holidays !! v = Some hs →
  (i < 14)%nat →
  ∃ rows,
    generate_summary (py_timetable tt)
                     (summary_vehicles (column_cells (GADI_NUMBER data))) N
    = Ok rows
    ∧ rows !! i
      = Some {| Vehicle := Text v;
                Working_Days := N - Z.of_nat (length hs);
                Holidays := Z.of_nat (length hs) |}.
Proof.
  intros Hgen Hmonth Hassign Hroutes Hfixed Hi Hclean Hother Hhs H14.
  destruct (generate_ok_inv _ _ _ _ Hgen)
    as (N' & holidays' & bi & Hmonth' & Hassign' & Hhinv & _ & Hinv & Hcase).
  rewrite Hmonth in Hmonth'. apply (inj Ok) in Hmonth' as <-.
  rewrite Hassign in Hassign'. apply (inj Ok) in Hassign' as <-.
  pose proof (generate_keys _ _ _ _ Hgen) as Hkeys.
  rewrite first_occurrences_nodup in Hkeys by done.
  assert (Hnd : NoDup tt.*1) by by rewrite Hkeys.
  assert (Hilt : (i < length (fixed_vehicles_of data))%nat)
    by by eapply lookup_lt_Some.
  assert (Hlen : length (fixed_vehicles_of data) = length (routes_of data)).
  { rewrite length_fixed_vehicles_of in *.
    destruct Hcase as [Hnil|Hlt]; [rewrite Hnil in Hilt; simpl in Hilt|]; lia. }
  (* the entry of each position *)
  assert (Hentry : ∀ j bs, (PyDict.values tt) !! j = Some bs →
            ∃ u, fixed_vehicles_of data !! j = Some u
                 ∧ route_spec (backup_vehicles_of data) u
                     (route_holidays holidays (fixed_vehicles_of data) j)
                     (substitutions_in_routes_before
                        holidays (fixed_vehicles_of data) N j)
                     N bs).
  { intros j bs Hj. unfold PyDict.values in Hj.
    rewrite list_lookup_fmap in Hj.
    apply fmap_Some in Hj as ([route bs'] & Htt & ->). cbn [snd].
    assert (Hroute : routes_of data !! j = Some route).
    { rewrite <- Hkeys, list_lookup_fmap, Htt. done. }
    assert (Hjlt : (j < length (routes_of data))%nat)
      by by eapply lookup_lt_Some.
    destruct (emitted_for_spec _ _ _ _ _ _ _ j bs' Hinv) as (u & Hu & Hspec).
    { exists route. split_and!; [done | |by eapply get_of_lookup].
      intros Hin. apply list_elem_of_lookup in Hin as [j' Hj'].
      rewrite lookup_drop in Hj'.
      pose proof (NoDup_lookup _ _ _ _ Hroutes Hroute Hj'). lia. }
    exists u. split; [|done]. unfold regular_vehicle in Hu.
    by rewrite Nat.mod_small in Hu by lia. }
  (* the row *)
  assert (Hvs : take 14 (dropna (GADI_NUMBER data)) !! i = Some v).
  { unfold fixed_vehicles_of, vehicles_of in Hi.
    apply lookup_take_Some in Hi as [Hi _].
    by rewrite lookup_take_lt by done. }
  rewrite summary_vehicles_text, generate_summary_text.
  eexists. split; [done|].
  rewrite list_lookup_fmap, Hvs. cbn [fmap option_fmap option_map]. cbv zeta.
  assert (Hwork : sumZ (route_work v <$> PyDict.values tt)
                  = N - Z.of_nat (length hs)).
  { assert (Hsome : is_Some (PyDict.values tt !! i)).
    { apply lookup_lt_is_Some. unfold PyDict.values.
      rewrite length_fmap, <- (length_fmap fst), Hkeys. lia. }
    destruct Hsome as [bs Hbs].
    rewrite (sumZ_single (route_work v) _ i bs Hbs).
    - destruct (Hentry i bs Hbs) as (u & Hu & Hspec).
      rewrite Hi in Hu. injection Hu as <-.
      assert (Hrh : route_holidays holidays (fixed_vehicles_of data) i = hs).
      { unfold route_holidays, regular_vehicle.
        rewrite Nat.mod_small by lia. rewrite Hi. simpl. by rewrite Hhs. }
      rewrite Hrh in Hspec.
      rewrite (route_work_regular _ _ _ _ _ _ Hspec Hclean).
      rewrite holiday_days_in_month; [done | |].
      + apply (holidays_nodup _ N holidays i v hs Hfixed Hhinv Hi Hhs).
      + intros d Hd. destruct (hi_bounds _ _ _ _ Hhinv v hs Hhs) as [_ Hb].
        apply Hb in Hd. lia.
    - intros j bs' Hj Hne. destruct (Hentry j bs' Hj) as (u & Hu & Hspec).
      eapply route_work_unrelated; [done|]. by eapply Hother. }
  rewrite Hwork. do 2 f_equal. lia.
Qed.

Lemma summary_of_fixed_vehicle_witness :
  ∃ rows,
    generate_summary
      (py_timetable two_backups_january)
      (summary_vehicles (column_cells (GADI_NUMBER two_routes_two_backups)))
      31
    = Ok rows
    ∧ rows !! 1%nat
      = Some {| Vehicle := Text "B";
                Working_Days := 31 - Z.of_nat (length [7; 13; 19; 25; 31]);
                Holidays := Z.of_nat (length [7; 13; 19; 25; 31]) |}.
Proof.
  apply (summary_of_fixed_vehicle two_routes_two_backups 2025 1 31
           two_backups_january two_backups_january_holidays 1 "B"
           [7; 13; 19; 25; 31]).
  - by vm_compute.
  - by vm_compute.
  - by vm_compute.
  - change (NoDup ["R1"; "R2"]). apply NoDup_cons.
    split; [|apply NoDup_singleton].
    rewrite list_elem_of_singleton. discriminate.
  - change (NoDup ["A"; "B"]). apply NoDup_cons.
    split; [|apply NoDup_singleton].
    rewrite list_elem_of_singleton. discriminate.
  - by vm_compute.
  - by vm_compute.
  - intros j u Hj Hne. change (["A"; "B"] !! j = Some u) in Hj.
    destruct j as [|[|j]]; [|done|done].
    injection Hj as <-. by vm_compute.
  - by vm_compute.
  - lia.
Defined.

(** ** When the summary is returned *)

(** X14.  [generate_summary] returns one row for each vehicle, in the
    order of the list, when there is no vehicle, or no block, or every
    vehicle and every block label is text.  Otherwise, with at least one
    vehicle, at least one block and a number among the vehicles or the
    labels, it raises [TypeError]. *)
Theorem summary_type_error (timetable_blocks : PyDict.t (list pyblock))
    (fixed_vehicles : list cell) (days_in_month : Z) :
  (fixed_vehicles = [] ∨ labels_of timetable_blocks = []
   ∨ (∀ c, c ∈ fixed_vehicles ++ labels_of timetable_blocks →
           is_text c = true) →
   ∃ rows,
     generate_summary timetable_blocks fixed_vehicles days_in_month = Ok rows
     ∧ Vehicle <$> rows = fixed_vehicles)
  ∧ (fixed_vehicles ≠ [] → labels_of timetable_blocks ≠ [] →
     (∃ c, c ∈ fixed_vehicles ++ labels_of timetable_blocks
           ∧ is_text c = false) →
     generate_summary timetable_blocks fixed_vehicles days_in_month
     = Raise TypeError).
Proof.
  split.
  - intros [->|Hok]; [by exists []|].
    destruct (summary_loop_returns timetable_blocks fixed_vehicles
                days_in_month []) as (rows & Hrows & Hvehicles); [done|].
    exists rows. by rewrite app_nil_l in Hrows.
  - intros Hvs Hlabels Hnumber. by apply summary_loop_raises.
Qed.

Lemma summary_type_error_witness :
  generate_summary [("R1", number_january_blocks)]
                   (summary_vehicles number_in_vehicle_column) 31
  = Raise TypeError.
Proof.
  apply (proj2 (summary_type_error [("R1", number_january_blocks)]
                  (summary_vehicles number_in_vehicle_column) 31)).
  - discriminate.
  - discriminate.
  - exists (Number 102). split; [|done].
    apply elem_of_app. left. right. left.
Defined.

(** ** The number of blocks of a route *)

Lemma tiles_ends_nodup (lo hi : Z) (bs : list block) :
  tiles lo bs hi → NoDup (end_ <$> bs).
Proof.
  revert lo. induction bs as [|b bs IH]; intros lo Ht.
  - apply NoDup_nil_2.
  - destruct Ht as (H1 & H2 & H3). rewrite fmap_cons. apply NoDup_cons.
    split; [|by eapply IH].
    intros (b' & Heq & Hb')%list_elem_of_fmap.
    pose proof (tiles_bounds _ _ _ _ H3 Hb'). lia.
Qed.

(** Where one block ends and the next begins, a holiday ends or begins. *)
Lemma block_boundary (backup_vehicles : list string) (v : string)
    (hs : list Z) (done : nat) (N : Z) (bs : list block) (i : nat)
    (b b' : block) :
  route_spec backup_vehicles v hs done N bs →
  bs !! i = Some b → bs !! S i = Some b' →
  end_ b ∈ hs ∨ end_ b + 1 ∈ hs.
Proof.
  intros [Ht Hlab Halt] Hi Hi'.
  assert (Hb : b ∈ bs) by by eapply list_elem_of_lookup_2.
  assert (Hb' : b' ∈ bs) by by eapply list_elem_of_lookup_2.
  destruct (tiles_bounds _ _ _ _ Ht Hb) as (_ & Hle & _).
  destruct (tiles_bounds _ _ _ _ Ht Hb') as (_ & Hle' & _).
  destruct (tiles_increasing _ _ _ Ht) as [_ Hnext].
  specialize (Hnext i b b' Hi Hi').
  assert (Hne : vehicle b ≠ vehicle b').
  { eapply (alternating_lookup _ i); [done | |].
    - by rewrite list_lookup_fmap, Hi.
    - by rewrite list_lookup_fmap, Hi'. }
  assert (H1 := Hlab b (end_ b) Hb ltac:(unfold covers; lia)).
  assert (H2 := Hlab b' (end_ b + 1) Hb' ltac:(unfold covers; lia)).
  unfold day_label in H1, H2.
  destruct (decide (end_ b ∈ hs)) as [|Hout1]; [by left|].
  destruct (decide (end_ b + 1 ∈ hs)) as [|Hout2]; [by right|].
  rewrite bool_decide_eq_false_2 in H1 by done.
  rewrite bool_decide_eq_false_2 in H2 by done. congruence.
Qed.

Lemma route_block_count (backup_vehicles : list string) (v : string)
    (hs : list Z) (done : nat) (N : Z) (bs : list block) :
  route_spec backup_vehicles v hs done N bs →
  (length bs ≤ 2 * length hs + 1)%nat.
Proof.
  intros Hspec. pose proof (rs_tiles _ _ _ _ _ _ Hspec) as Ht.
  set (n := (length bs - 1)%nat).
  assert (Hsub : end_ <$> take n bs ⊆+ hs ++ ((λ d, d - 1) <$> hs)).
  { apply NoDup_submseteq.
    - pose proof (tiles_ends_nodup _ _ _ Ht) as Hnd.
      rewrite <- (take_drop n bs), fmap_app in Hnd.
      by apply NoDup_app in Hnd as (? & _ & _).
    - intros e (b & -> & Hb)%list_elem_of_fmap.
      apply list_elem_of_lookup in Hb as [i Hi].
      apply lookup_take_Some in Hi as [Hi Hlt].
      destruct (lookup_lt_is_Some_2 bs (S i)) as [b' Hi']; [unfold n in Hlt; lia|].
      destruct (block_boundary _ _ _ _ _ _ _ _ _ Hspec Hi Hi') as [Hin|Hin].
      + apply elem_of_app. by left.
      + apply elem_of_app. right. apply list_elem_of_fmap.
        exists (end_ b + 1). split; [lia | done]. }
  apply submseteq_length in Hsub.
  rewrite length_fmap, length_take, length_app, length_fmap in Hsub.
  unfold n in Hsub. lia.
Qed.

Lemma rows_of_few_blocks (blocks : list block) :
  (length blocks ≤ 11)%nat → (length (box_rows 4 blocks) ≤ 3)%nat.
Proof.
  intros Hlen. unfold box_rows.
  destruct (row_loop_inv 4 blocks [] [])
    as (rows & cur & -> & Hcat & Hrows & Hcur); [lia | done | simpl; lia |].
  simpl in Hcat.
  assert (Hfull : length (concat rows) = (4 * length rows)%nat).
  { clear Hcat. induction rows as [|row rows IH]; [done|].
    apply Forall_cons in Hrows as [Hrow Hrows]. simpl.
    rewrite length_app, IH by done. lia. }
  assert (Hsum : (4 * length rows + length cur = length blocks)%nat)
    by (rewrite <- Hcat, length_app; lia).
  destruct cur; [lia|]. rewrite length_app. simpl in *. lia.
Qed.

(** X10.  A route of a returned timetable has at most eleven blocks, so with
    four boxes per row its boxes take at most three rows of the PDF. *)
Theorem at_most_eleven_blocks (data : dataframe) (year month : Z)
    (tt : PyDict.t (list block)) (route : string) (bs : list block) :
  generate_block_timetable data year month = Ok tt →
  PyDict.get route tt = Some bs →
  (length bs ≤ 11)%nat ∧ (length (box_rows 4 bs) ≤ 3)%nat.
Proof.
  intros Hgen Hbs.
  destruct (generate_ok_inv _ _ _ _ Hgen)
    as (N & holidays & bi & _ & _ & Hhinv & _ & Hinv & _).
  destruct (ri_entry _ _ _ _ _ _ _ Hinv route bs Hbs)
    as (j & v & _ & _ & _ & Hv & Hspec).
  assert (Hhs : (length (route_holidays holidays (fixed_vehicles_of data) j)
                 ≤ 5)%nat).
  { unfold route_holidays. rewrite Hv. simpl.
    destruct (holidays !! v) as [hs|] eqn:Hhs; simpl; [|lia].
    by destruct (hi_bounds _ _ _ _ Hhinv v hs Hhs). }
  pose proof (route_block_count _ _ _ _ _ _ Hspec) as Hcount.
  assert (Hlen : (length bs ≤ 11)%nat) by lia.
  split; [done|]. by apply rows_of_few_blocks.
Qed.

Lemma at_most_eleven_blocks_witness :
  (length january_blocks ≤ 11)%nat
  ∧ (length (box_rows 4 january_blocks) ≤ 3)%nat.
Proof.
  apply (at_most_eleven_blocks one_route_one_backup 2025 1
           [("R1", january_blocks)] "R1").
  - by vm_compute.
  - by vm_compute.
Defined.

(** ** One backup vehicle for several routes *)

Lemma holiday_block_of_single_backup (data : dataframe) (N : Z)
    (tt : PyDict.t (list block)) (holidays : gmap string (list Z))
    (bi j : nat) (bv : string) :
  holidays_inv (fixed_vehicles_of data) N (fixed_vehicles_of data) holidays →
  routes_inv holidays (fixed_vehicles_of data) (backup_vehicles_of data) N
             (routes_of data) (length (routes_of data)) (tt, bi) →
  28 ≤ N →
  NoDup (routes_of data) → NoDup (fixed_vehicles_of data) →
  backup_vehicles_of data = [bv] →
  length (fixed_vehicles_of data) = length (routes_of data) →
  (j < length (routes_of data))%nat → (j mod 5 = 0)%nat →
  ∃ bs b, emitted_for (routes_of data) tt j bs
          ∧ b ∈ bs ∧ covers b 6 ∧ vehicle b = holiday_label bv.
Proof.
  intros Hhinv Hinv HN Hroutes Hfixed Hbackup Hlen Hj Hmod.
  destruct (lookup_lt_is_Some_2 (routes_of data) j Hj) as [route Hroute].
  destruct (ri_keys _ _ _ _ _ _ _ Hinv j route Hj Hroute) as [bs Hbs].
  assert (Hem : emitted_for (routes_of data) tt j bs).
  { exists route. split_and!; [done | | done].
    intros Hin. apply list_elem_of_lookup in Hin as [j' Hj'].
    rewrite lookup_drop in Hj'.
    pose proof (NoDup_lookup _ _ _ _ Hroutes Hroute Hj'). lia. }
  destruct (emitted_for_spec _ _ _ _ _ _ _ _ _ Hinv Hem)
    as (u & Hu & [Ht Hlab _]).
  unfold regular_vehicle in Hu. rewrite Nat.mod_small in Hu by lia.
  pose proof (hi_once _ _ _ _ Hhinv j u Hu) as Honce.
  rewrite Hmod in Honce. change (Z.of_nat 0 + 6) with 6 in Honce.
  destruct (holiday_while_first N) as [tl Htl]; [lia|].
  rewrite Htl in Honce.
  specialize (Honce ltac:(intros j' Hj'; by eapply NoDup_lookup)).
  assert (Hrh : route_holidays holidays (fixed_vehicles_of data) j = 6 :: tl).
  { unfold route_holidays, regular_vehicle.
    rewrite Nat.mod_small by lia. rewrite Hu. simpl. by rewrite Honce. }
  destruct (tiles_each_day_once _ _ _ 6 Ht ltac:(lia)) as (k & b & Hk & Hc & _).
  assert (Hb : b ∈ bs) by by eapply list_elem_of_lookup_2.
  specialize (Hlab b 6 Hb Hc). unfold day_label in Hlab.
  rewrite Hrh in Hlab. rewrite bool_decide_eq_true_2 in Hlab by left.
  rewrite Hbackup in Hlab. cbn [length] in Hlab.
  rewrite Nat.mod_1_r in Hlab. simpl in Hlab. exists bs, b. split_and!; [done..|]. congruence.
Qed.

(** X11.  Nothing keeps a backup vehicle from being needed twice on one day:
    with six or more routes and a single backup vehicle, no route name
    and no fixed vehicle number repeated, the first and the sixth route
    are both given the backup vehicle on day 6. *)
Theorem one_backup_on_two_routes (data : dataframe) (year month : Z)
    (tt : PyDict.t (list block)) (bv : string) :
  generate_block_timetable data year month = Ok tt →
  NoDup (routes_of data) → NoDup (fixed_vehicles_of data) →
  backup_vehicles_of data = [bv] →
  (6 ≤ length (routes_of data))%nat →
  ∃ bs0 bs5 b0 b5,
    emitted_for (routes_of data) tt 0 bs0
    ∧ emitted_for (routes_of data) tt 5 bs5
    ∧ b0 ∈ bs0 ∧ covers b0 6 ∧ vehicle b0 = holiday_label bv
    ∧ b5 ∈ bs5 ∧ covers b5 6 ∧ vehicle b5 = holiday_label bv.
Proof.
  intros Hgen Hroutes Hfixed Hbackup Hsix.
  destruct (generate_ok_inv _ _ _ _ Hgen)
    as (N & holidays & bi & Hmonth & _ & Hhinv & _ & Hinv & Hcase).
  destruct (monthrange_days_valid _ _ _ Hmonth) as [_ HN].
  assert (Hlen : length (fixed_vehicles_of data) = length (routes_of data)).
  { rewrite length_fixed_vehicles_of.
    destruct Hcase as [Hnil|Hlt]; [rewrite Hnil in Hsix; simpl in Hsix|]; lia. }
  destruct (holiday_block_of_single_backup data N tt holidays bi 0 bv)
    as (bs0 & b0 & H0 & Hb0 & Hc0 & Hv0); try done; try lia.
  destruct (holiday_block_of_single_backup data N tt holidays bi 5 bv)
    as (bs5 & b5 & H5 & Hb5 & Hc5 & Hv5); try done; try lia.
  exists bs0, bs5, b0, b5. split_and!; done.
Qed.

Lemma one_backup_on_two_routes_witness :
  ∃ bs0 bs5 b0 b5,
    emitted_for (routes_of six_routes_one_backup) six_routes_february 0 bs0
    ∧ emitted_for (routes_of six_routes_one_backup) six_routes_february 5 bs5
    ∧ b0 ∈ bs0 ∧ covers b0 6 ∧ vehicle b0 = holiday_label "S1"
    ∧ b5 ∈ bs5 ∧ covers b5 6 ∧ vehicle b5 = holiday_label "S1".
Proof.
  apply (one_backup_on_two_routes six_routes_one_backup 2025 2
           six_routes_february "S1").
  - by vm_compute.
  - change (NoDup ["R1"; "R2"; "R3"; "R4"; "R5"; "R6"]).
    repeat (apply NoDup_cons; split;
            [intros Hin;
             repeat (apply elem_of_cons in Hin as [Hin|Hin];
                     [discriminate Hin|]);
             by apply elem_of_nil in Hin|]).
    apply NoDup_nil_2.
  - change (NoDup ["V1"; "V2"; "V3"; "V4"; "V5"; "V6"]).
    repeat (apply NoDup_cons; split;
            [intros Hin;
             repeat (apply elem_of_cons in Hin as [Hin|Hin];
                     [discriminate Hin|]);
             by apply elem_of_nil in Hin|]).
    apply NoDup_nil_2.
  - by vm_compute.
  - vm_compute. lia.
Defined.

(** ** Fixed vehicles five positions apart *)

(** X5.  When no vehicle number is repeated, two fixed vehicles whose positions
    differ by a multiple of five have the same holidays. *)
Theorem same_holidays_five_apart (fixed_vehicles : list string)
    (year month N : Z) (holidays : gmap string (list Z))
    (i j : nat) (v w : string) :
  NoDup fixed_vehicles →
  monthrange_days year month = Ok N →
  assign_holidays fixed_vehicles N = Ok holidays →
  fixed_vehicles !! i = Some v → fixed_vehicles !! j = Some w →
  (i mod 5 = j mod 5)%nat →
  holidays !! v = holidays !! w.
Proof.
  intros Hnodup Hmonth Hassign Hi Hj Hmod.
  destruct (monthrange_days_valid _ _ _ Hmonth) as [_ HN].
  destruct (assign_holidays_inv fixed_vehicles N)
    as (holidays' & Hassign' & Hinv); [lia|].
  rewrite Hassign in Hassign'. apply (inj Ok) in Hassign' as <-.
  rewrite (hi_once _ _ _ _ Hinv i v Hi)
    by (intros k Hk; by eapply NoDup_lookup).
  rewrite (hi_once _ _ _ _ Hinv j w Hj)
    by (intros k Hk; by eapply NoDup_lookup).
  by rewrite Hmod.
Qed.

Lemma same_holidays_five_apart_witness :
  six_routes_holidays !! "V1" = six_routes_holidays !! "V6".
Proof.
  apply (same_holidays_five_apart (fixed_vehicles_of six_routes_one_backup)
           2025 2 28 six_routes_holidays 0 5 "V1" "V6").
  - change (NoDup ["V1"; "V2"; "V3"; "V4"; "V5"; "V6"]).
    repeat (apply NoDup_cons; split;
            [intros Hin;
             repeat (apply elem_of_cons in Hin as [Hin|Hin];
                     [discriminate Hin|]);
             by apply elem_of_nil in Hin|]).
    apply NoDup_nil_2.
  - by vm_compute.
  - by vm_compute.
  - by vm_compute.
  - by vm_compute.
  - by vm_compute.
Defined.

(** ** The colours of the boxes *)

(** X13.  For a sheet whose route and vehicle cells are text: when the
    name of a route is not entered again further down the sheet and the
    number of its regular vehicle does not contain ["(H)"], the test of
    the marker succeeds for every box of that route, and the box is red
    with dark red text if its days are holidays of the regular vehicle,
    and green with dark green text if they are not. *)
Theorem box_colour_tells_holiday (data : dataframe) (year month N : Z)
    (tt : PyDict.t (list block)) (holidays : gmap string (list Z))
    (r_idx : nat) (bs : list block) (v : string) (b : block) (d : Z) :
  generate_block_timetable data year month = Ok tt →
  monthrange_days year month = Ok N →
  assign_holidays (fixed_vehicles_of data) N = Ok holidays →
  emitted_for (routes_of data) tt r_idx bs →
  regular_vehicle (fixed_vehicles_of data) r_idx = Some v →
  carries_marker v = false →
  b ∈ bs → covers b d →
  box_colours (py_vehicle (py_block b))
  = Ok (if bool_decide
             (d ∈ route_holidays holidays (fixed_vehicles_of data) r_idx)
        then ((255, 153, 153), (80, 30, 30))
        else ((153, 255, 153), (20, 60, 20))).
Proof.
  intros Hgen Hmonth Hassign Hem Hv Hclean Hb Hc.
  destruct (generate_ok_inv _ _ _ _ Hgen)
    as (N' & holidays' & bi & Hmonth' & Hassign' & _ & _ & Hinv & _).
  rewrite Hmonth in Hmonth'. apply (inj Ok) in Hmonth' as <-.
  rewrite Hassign in Hassign'. apply (inj Ok) in Hassign' as <-.
  destruct (emitted_for_spec _ _ _ _ _ _ _ _ _ Hinv Hem)
    as (v' & Hv' & [_ Hlab _]).
  rewrite Hv in Hv'. injection Hv' as <-.
  specialize (Hlab b d Hb Hc). unfold day_label in Hlab.
  unfold box_colours. cbn [py_block py_vehicle py_in]. run_bind.
  case_bool_decide.
  - apply fmap_Some in Hlab as (bv & _ & ->).
    unfold holiday_label. by rewrite holiday_label_marked.
  - apply (inj Some) in Hlab as <-.
    unfold carries_marker in Hclean. by rewrite Hclean.
Qed.

(** The label of a regular vehicle whose cell is a number is that number,
    and the test of the marker raises on it. *)
Example box_colour_of_number_label :
  box_colours (Number 102) = Raise TypeError.
Proof. reflexivity. Qed.

Lemma box_colour_tells_holiday_witness :
  box_colours
    (py_vehicle (py_block {| start := 6; end_ := 6; vehicle := "B (H)" |}))
  = Ok (if bool_decide (6 ∈ route_holidays january_holidays
                              (fixed_vehicles_of one_route_one_backup) 0)
        then ((255, 153, 153), (80, 30, 30))
        else ((153, 255, 153), (20, 60, 20))).
Proof.
  apply (box_colour_tells_holiday one_route_one_backup 2025 1 31
           [("R1", january_blocks)] january_holidays 0 january_blocks "A").
  - by vm_compute.
  - by vm_compute.
  - by vm_compute.
  - exists "R1".
    split_and!; [by vm_compute | apply not_elem_of_nil | by vm_compute].
  - by vm_compute.
  - by vm_compute.
  - right. left.
  - unfold covers. simpl. lia.
Defined.
